(** * News-balance backend: scraper and four-stage article processor

    A shallow embedding of [filter_recent.py] (class [LiveRotterScraper]) and
    [process_articles.py] (class [ArticleProcessor]), followed by the
    properties of the extraction / deduplication / classification core.

    Conventions of the embedding.
    - A Python [str] is the list of its Unicode code points ([Py.str]), so
      [len], slicing and [in] mean what they mean in Python.
    - The outside world (wall clock, HTTP, the sqlite file, the language
      model, [hashlib], [json], the general [re] engine) is an [env] of
      oracles; what the program did to it is recorded in a [world].
    - Code that raises runs in the monad [M]: a state monad over [world]
      whose results are [Ok v] or [Raise e]; [try_except] is Python's
      [try: ... except Exception: ...].
    - [print] and [time.sleep] calls change nothing that is observed here
      and are left out. *)

From Stdlib Require Import ZArith NArith Ascii String List Lia Sorted Permutation.
From stdpp Require Import gmap strings list.

Set Warnings "-register-all".
Local Open Scope Z_scope.

(** ** Python strings *)

Module Py.

Abbreviation str := (list N).

(** UTF-8 decoding, used only to write the source's literals legibly. *)
Fixpoint utf8_decode (bs : list N) : str :=
  match bs with
  | [] => []
  | b0 :: r0 =>
    if (b0 <? 128)%N then b0 :: utf8_decode r0
    else match r0 with
    | [] => []
    | b1 :: r1 =>
      if (b0 <? 224)%N then ((b0 - 192) * 64 + (b1 - 128))%N :: utf8_decode r1
      else match r1 with
      | [] => []
      | b2 :: r2 =>
        if (b0 <? 240)%N
        then ((b0 - 224) * 4096 + (b1 - 128) * 64 + (b2 - 128))%N :: utf8_decode r2
        else match r2 with
        | [] => []
        | b3 :: r3 =>
          ((b0 - 240) * 262144 + (b1 - 128) * 4096 + (b2 - 128) * 64 + (b3 - 128))%N
            :: utf8_decode r3
        end
      end
    end
  end.

Definition lit (s : string) : str :=
  utf8_decode (map N_of_ascii (list_ascii_of_string s)).

(** Two characters that the literals below splice in where the source has
    them inside a string. *)
Definition dquote : str := [34%N].
Definition backslash : str := [92%N].

(** [len(s)] *)
Definition len (s : str) : Z := Z.of_nat (length s).

(** [bool(s)]: a string is truthy iff it is not empty. *)
Definition truthy (s : str) : bool :=
  match s with [] => false | _ :: _ => true end.

(** [a or b] on strings. *)
Definition or_else (a b : str) : str := if truthy a then a else b.

(** [s.startswith(p)] *)
Fixpoint startswith (p s : str) : bool :=
  match p, s with
  | [], _ => true
  | _ :: _, [] => false
  | a :: p', b :: s' => (a =? b)%N && startswith p' s'
  end.

(** [needle in hay] *)
Fixpoint contains (needle hay : str) : bool :=
  startswith needle hay ||
  match hay with
  | [] => false
  | _ :: t => contains needle t
  end.

(** What [needle in hay] decides. *)
Definition occurs_in (needle hay : str) : Prop :=
  exists before after, hay = before ++ needle ++ after.

(** [any(k in s for k in ks)] *)
Definition any_in (ks : list str) (s : str) : bool :=
  existsb (fun k => contains k s) ks.

(** [str.isspace] on one character; the same table drives [\s] of [re]. *)
Definition whitespace : list N :=
  [9; 10; 11; 12; 13; 28; 29; 30; 31; 32; 133; 160; 5760; 8192; 8193; 8194;
   8195; 8196; 8197; 8198; 8199; 8200; 8201; 8202; 8232; 8233; 8239; 8287;
   12288]%N.

Definition isspace (c : N) : bool := existsb (N.eqb c) whitespace.

Fixpoint lstrip (s : str) : str :=
  match s with
  | [] => []
  | c :: t => if isspace c then lstrip t else s
  end.

Definition rstrip (s : str) : str := rev (lstrip (rev s)).

(** [s.strip()] *)
Definition strip (s : str) : str := rstrip (lstrip s).

(** [s.split(sep)] for a one-character separator: never an empty list. *)
Fixpoint split (sep : N) (s : str) : list str :=
  match s with
  | [] => [[]]
  | c :: t =>
    if (c =? sep)%N then [] :: split sep t
    else match split sep t with
         | [] => [[c]]
         | h :: r => (c :: h) :: r
         end
  end.

(** [sep.join(parts)] *)
Fixpoint join (sep : str) (parts : list str) : str :=
  match parts with
  | [] => []
  | [p] => p
  | p :: rest => p ++ sep ++ join sep rest
  end.

Definition newline : N := 10%N.

(** Zero points of the decimal-digit (category Nd) runs of the Unicode
    character database; each run is ten consecutive code points 0..9.
    [\d] of [re] and [int()] both go by this property. *)
Definition decimal_zeros : list N :=
  [48; 1632; 1776; 1984; 2406; 2534; 2662; 2790; 2918; 3046; 3174; 3302;
   3430; 3558; 3664; 3792; 3872; 4160; 4240; 6112; 6160; 6470; 6608; 6784;
   6800; 6992; 7088; 7232; 7248; 42528; 43216; 43264; 43472; 43504; 43600;
   44016; 65296; 66720; 68912; 69734; 69872; 69942; 70096; 70384; 70736;
   70864; 71248; 71360; 71472; 71904; 72016; 72784; 73040; 73120; 92768;
   92864; 93008; 120782; 120792; 120802; 120812; 120822; 123200; 123632;
   125264; 130032]%N.

Definition decimal_value (c : N) : option Z :=
  match find (fun z => (z <=? c)%N && (c <? z + 10)%N) decimal_zeros with
  | Some z => Some (Z.of_N (c - z))
  | None => None
  end.

Definition isdecimal (c : N) : bool :=
  match decimal_value c with Some _ => true | None => false end.

Fixpoint int_digits (acc : Z) (s : str) : option Z :=
  match s with
  | [] => Some acc
  | c :: t =>
    match decimal_value c with
    | Some d => int_digits (acc * 10 + d) t
    | None => None
    end
  end.

(** [int(s)] for a string of decimal digits, the only strings the program
    passes to it; [None] stands for [ValueError]. *)
Definition int (s : str) : option Z :=
  match s with
  | [] => None
  | _ :: _ => int_digits 0 s
  end.

(** Comparison of strings: lexicographic on code points. *)
Fixpoint compare (a b : str) : comparison :=
  match a, b with
  | [], [] => Eq
  | [], _ :: _ => Lt
  | _ :: _, [] => Gt
  | x :: a', y :: b' =>
    match (x ?= y)%N with
    | Eq => compare a' b'
    | c => c
    end
  end.

(** [a < b] *)
Definition ltb (a b : str) : bool :=
  match compare a b with Lt => true | _ => false end.

(** One decimal digit of [n], as a character. *)
Definition digit_char (n : Z) (i : Z) : N := Z.to_N (48 + (n / 10 ^ i) mod 10).

(** ["%02d" % n], ["%04d" % n], ["%06d" % n] for [n] within the width. *)
Definition pad2 (n : Z) : str := [digit_char n 1; digit_char n 0].
Definition pad4 (n : Z) : str :=
  [digit_char n 3; digit_char n 2; digit_char n 1; digit_char n 0].
Definition pad6 (n : Z) : str :=
  [digit_char n 5; digit_char n 4; digit_char n 3; digit_char n 2;
   digit_char n 1; digit_char n 0].

(** The digits of a decimal numeral, most significant first. *)
Fixpoint decimal_digits (u : Decimal.uint) : str :=
  match u with
  | Decimal.Nil => []
  | Decimal.D0 u => 48%N :: decimal_digits u
  | Decimal.D1 u => 49%N :: decimal_digits u
  | Decimal.D2 u => 50%N :: decimal_digits u
  | Decimal.D3 u => 51%N :: decimal_digits u
  | Decimal.D4 u => 52%N :: decimal_digits u
  | Decimal.D5 u => 53%N :: decimal_digits u
  | Decimal.D6 u => 54%N :: decimal_digits u
  | Decimal.D7 u => 55%N :: decimal_digits u
  | Decimal.D8 u => 56%N :: decimal_digits u
  | Decimal.D9 u => 57%N :: decimal_digits u
  end.

(** [str(n)] for an integer, which is also what ['{}'.format(n)] inserts. *)
Definition str_of_int (n : Z) : str :=
  match Z.to_int n with
  | Decimal.Pos u => decimal_digits u
  | Decimal.Neg u => 45%N :: decimal_digits u
  end.

End Py.

(** ** [datetime.datetime] (naive) *)

Module DateTime.

Record datetime := mk
  { year : Z; month : Z; day : Z;
    hour : Z; minute : Z; second : Z; microsecond : Z }.

Definition is_leap (y : Z) : bool :=
  (y mod 4 =? 0) && (negb (y mod 100 =? 0) || (y mod 400 =? 0)).

Definition days_in_month (y m : Z) : Z :=
  if m =? 2 then (if is_leap y then 29 else 28)
  else if (m =? 4) || (m =? 6) || (m =? 9) || (m =? 11) then 30
  else 31.

(** The range checks of the constructor ([MINYEAR = 1], [MAXYEAR = 9999]). *)
Definition valid (d : datetime) : bool :=
  (1 <=? year d) && (year d <=? 9999) &&
  (1 <=? month d) && (month d <=? 12) &&
  (1 <=? day d) && (day d <=? days_in_month (year d) (month d)) &&
  (0 <=? hour d) && (hour d <=? 23) &&
  (0 <=? minute d) && (minute d <=? 59) &&
  (0 <=? second d) && (second d <=? 59) &&
  (0 <=? microsecond d) && (microsecond d <=? 999999).

(** [datetime(y, m, d, H, M)]; [None] stands for [ValueError]. *)
Definition make (y m d H M : Z) : option datetime :=
  let dt := mk y m d H M 0 0 in
  if valid dt then Some dt else None.

(** What a value built by [make] is: in range, at a whole minute. *)
Definition constructed (d : datetime) : Prop :=
  valid d = true /\ second d = 0 /\ microsecond d = 0.

Definition days_before_year (y : Z) : Z :=
  let p := y - 1 in p * 365 + p / 4 - p / 100 + p / 400.

Definition days_before_month (y m : Z) : Z :=
  fold_right Z.add 0 (map (days_in_month y) (map Z.of_nat (seq 1 (Z.to_nat (m - 1))))).

(** [d.toordinal()]: 1 for 0001-01-01. *)
Definition toordinal (d : datetime) : Z :=
  days_before_year (year d) + days_before_month (year d) (month d) + day d.

(** Microseconds since the start of day 0. *)
Definition to_microseconds (d : datetime) : Z :=
  ((toordinal d * 24 + hour d) * 60 + minute d) * 60000000
  + second d * 1000000 + microsecond d.

(** [a - b] is a [timedelta]; it is represented by its exact length in
    microseconds. *)
Definition sub (a b : datetime) : Z := to_microseconds a - to_microseconds b.

(** [td.total_seconds() <= secs] for a whole number of seconds.
    [total_seconds] is the correctly rounded quotient of the integer
    microsecond count by [10**6]; since [secs] is a whole number far below
    [2**53] and the count is a whole number of microseconds, the float
    comparison and the exact one agree. *)
Definition total_seconds_le (td : Z) (secs : Z) : bool := td <=? secs * 1000000.

(** Ordering of naive datetimes: that of the field tuples. *)
Definition key (d : datetime) : list Z :=
  [year d; month d; day d; hour d; minute d; second d; microsecond d].

Fixpoint tuple_compare (a b : list Z) : comparison :=
  match a, b with
  | [], [] => Eq
  | [], _ :: _ => Lt
  | _ :: _, [] => Gt
  | x :: a', y :: b' =>
    match x ?= y with
    | Eq => tuple_compare a' b'
    | c => c
    end
  end.

Definition cmp (a b : datetime) : comparison := tuple_compare (key a) (key b).

(** [a <= b] *)
Definition leb (a b : datetime) : bool :=
  match cmp a b with Gt => false | _ => true end.

(** [d.isoformat()] *)
Definition isoformat (d : datetime) : Py.str :=
  Py.pad4 (year d) ++ Py.lit "-" ++ Py.pad2 (month d) ++ Py.lit "-" ++ Py.pad2 (day d)
  ++ Py.lit "T" ++ Py.pad2 (hour d) ++ Py.lit ":" ++ Py.pad2 (minute d)
  ++ Py.lit ":" ++ Py.pad2 (second d)
  ++ (if microsecond d =? 0 then [] else Py.lit "." ++ Py.pad6 (microsecond d)).

(** [d.strftime('%Y-%m-%d %H:%M:%S')], for years of four digits. *)
Definition strftime_ymd_hms (d : datetime) : Py.str :=
  Py.pad4 (year d) ++ Py.lit "-" ++ Py.pad2 (month d) ++ Py.lit "-" ++ Py.pad2 (day d)
  ++ Py.lit " " ++ Py.pad2 (hour d) ++ Py.lit ":" ++ Py.pad2 (minute d)
  ++ Py.lit ":" ++ Py.pad2 (second d).

End DateTime.

Arguments Py.lit : simpl never.
Arguments DateTime.isoformat : simpl never.
Arguments DateTime.strftime_ymd_hms : simpl never.
Arguments DateTime.to_microseconds : simpl never.
Arguments DateTime.valid : simpl never.

(** ** The fragment of [re] used for date and time recovery

    A pattern is a sequence of greedy repetitions [c{lo,hi}] of a
    one-character class, each either a capturing group or not.  Matching
    is the backtracking search of [re]: at a position, each repetition
    first takes as many characters as it can and gives them back one at a
    time; [search] tries the start positions from left to right. *)

Module Re.

Inductive cclass :=
| Digit                 (* \d *)
| Space                 (* \s *)
| Char (c : N).         (* a literal character *)

Definition in_class (k : cclass) (c : N) : bool :=
  match k with
  | Digit => Py.isdecimal c
  | Space => Py.isspace c
  | Char x => (c =? x)%N
  end.

Record atom := mk_atom
  { a_class : cclass;
    a_lo : nat;
    a_hi : option nat;      (* [None]: no upper bound *)
    a_group : bool }.

Abbreviation pattern := (list atom).

(** Length of the longest prefix of [s] made of characters of class [k]. *)
Fixpoint run_length (k : cclass) (s : Py.str) : nat :=
  match s with
  | [] => O
  | c :: t => if in_class k c then S (run_length k t) else O
  end.

(** The number of characters a repetition takes first. *)
Definition most (a : atom) (s : Py.str) : nat :=
  let run := run_length (a_class a) s in
  match a_hi a with Some h => Nat.min h run | None => run end.

(** Backtracking over one repetition: try the rest of the pattern ([rest])
    after [n] characters, then after [n - 1], down to [a_lo a]. *)
Fixpoint give_back (rest : Py.str -> option (list Py.str)) (a : atom) (s : Py.str)
    (n : nat) : option (list Py.str) :=
  match rest (drop n s) with
  | Some groups => Some (if a_group a then take n s :: groups else groups)
  | None =>
    match n with
    | O => None
    | S m => if (a_lo a <=? m)%nat then give_back rest a s m else None
    end
  end.

(** Match [p] at the start of [s]; the result lists the captured groups. *)
Fixpoint match_here (p : pattern) (s : Py.str) : option (list Py.str) :=
  match p with
  | [] => Some []
  | a :: p' =>
    if (most a s <? a_lo a)%nat then None
    else give_back (match_here p') a s (most a s)
  end.

(** [re.search(p, s)]: [Some groups] for the leftmost match. *)
Fixpoint search (p : pattern) (s : Py.str) : option (list Py.str) :=
  match match_here p s with
  | Some groups => Some groups
  | None =>
    match s with
    | [] => None
    | _ :: t => search p t
    end
  end.

(** What a string taken by a repetition looks like. *)
Definition fits (a : atom) (g : Py.str) : Prop :=
  Forall (fun c => in_class (a_class a) c = true) g /\
  (a_lo a <= length g)%nat /\
  (forall h, a_hi a = Some h -> (length g <= h)%nat).

(** The characters [g] are exactly what the repetition takes first when it
    cannot take more: its upper bound is reached, or the next character
    is of another class. *)
Definition stops_after (a : atom) (g rest : Py.str) : Prop :=
  a_hi a = Some (length g) \/ run_length (a_class a) rest = O.

Definition group (k : cclass) (lo hi : nat) : atom := mk_atom k lo (Some hi) true.
Definition one (c : N) : atom := mk_atom (Char c) 1 (Some 1%nat) false.
Definition plus (k : cclass) : atom := mk_atom k 1 None false.

End Re.

(** ** The world outside the program *)

Module Runtime.

Inductive exn :=
| DatabaseError         (* sqlite3.Error other than a constraint violation *)
| IntegrityError        (* sqlite3.IntegrityError: NOT NULL / UNIQUE *)
| RequestException      (* requests: transport failure or HTTP error status *)
| ModelError            (* the model capability failed or answered malformed *)
| TypeError.            (* TypeError: [len] of a value that is [None] *)

Inductive result (A : Type) :=
| Ok (v : A)
| Raise (e : exn).
Arguments Ok {A} v.
Arguments Raise {A} e.

(** Python values that end up in the analysis dictionaries. *)
Inductive pyval :=
| VBool (b : bool)
| VStr (s : Py.str)
| VDict (d : gmap string pyval).

(** [bool(v)] *)
Definition truth (v : pyval) : bool :=
  match v with
  | VBool b => b
  | VStr s => Py.truthy s
  | VDict d => negb (bool_decide (dom d = (∅ : gset string)))
  end.

(** A prompt is a template of [ArticleProcessor] with its arguments; the
    fixed text of the template is not spelled out. *)
Inductive prompt :=
| RelevancePrompt (title content : Py.str)
| ResearchPrompt (main_topic article_summary : Py.str)
| RetryPrompt (main_topic : Py.str)
| AnalysisPrompt (original_text research_findings : Py.str)
| JournalisticPrompt (technical_analysis : Py.str)
| InternetTestPrompt.

(** [client.messages.create(model=, max_tokens=, temperature=, messages=)];
    the temperature is kept in tenths. *)
Record request := mk_request
  { rq_model : Py.str;
    rq_max_tokens : Z;
    rq_temperature : option Z;
    rq_prompt : prompt }.

(** A row of table [news_items].  Column [clean_content] is nullable and is
    read back by the processor, so its [NULL] is part of the model
    ([None]); the other nullable columns are only written. *)
Record news_item := mk_news_item
  { id : Z;
    title : Py.str;
    url : Py.str;
    scraped_at : Py.str;
    row_text : Py.str;
    actual_datetime : Py.str;
    content : Py.str;
    clean_content : option Py.str;
    content_length : Z;
    date_time : Py.str;
    hash_id : Py.str;
    isProcessed : Z;
    process_data : Py.str;
    created_at : Py.str }.

(** The sqlite file: the rows in insertion order and the AUTOINCREMENT
    counter. *)
Record database := mk_database
  { news_items : list news_item;
    last_id : Z }.

(** What BeautifulSoup exposes of a [<tr>] of the listing page. *)
Record listing_row := mk_listing_row
  { lr_text_stripped : Py.str;                (* row.get_text(strip=True) *)
    lr_text : Py.str;                         (* row.get_text() *)
    lr_links : list (Py.str * Py.str) }.      (* (href, get_text(strip=True)) of each <a href> *)

(** What BeautifulSoup exposes of an article page. *)
Record article_page := mk_article_page
  { ap_text : Py.str;                         (* soup.get_text() *)
    ap_select : Py.str -> option Py.str;      (* text of select_one(selector), cleaned of scripts *)
    ap_all_text : Py.str }.                   (* soup.get_text(separator='\n', strip=True) *)

Inductive sql :=
| Connect
| CountByHash (h : Py.str)
| CountByUrl (u : Py.str)
| CountByTitle (t : Py.str)
| InsertItem (r : news_item)
| SelectUnprocessed
| UpdateProcessed (i : Z) (v : Z) (data : Py.str).

Record env := mk_env
  { now_at : nat -> DateTime.datetime;        (* the k-th datetime.now() *)
    db_fault : nat -> bool;                   (* does the k-th database operation raise? *)
    current_timestamp : nat -> Py.str;        (* sqlite's CURRENT_TIMESTAMP at the k-th operation *)
    http_listing : nat -> option (list listing_row);
    http_article : nat -> Py.str -> option article_page;
    llm_reply : nat -> request -> option Py.str;
    md5_hexdigest : Py.str -> Py.str;         (* hashlib.md5(s.encode('utf-8')).hexdigest() *)
    json_dumps : gmap string pyval -> Py.str;
    re_sub : Py.str -> bool -> Py.str -> Py.str -> Py.str;
                                              (* re.sub(pattern, repl, s), flag: re.MULTILINE *)
    re_match : Py.str -> Py.str -> bool;      (* bool(re.match(pattern, s)) *)
    exn_text : exn -> Py.str }.               (* str(e) *)

Record world := mk_world
  { db : database;
    sql_log : list sql;                       (* database operations attempted, oldest first *)
    ticks : nat;                              (* datetime.now() calls so far *)
    http_log : list Py.str;                   (* URLs requested, oldest first *)
    model_log : list request }.               (* model calls made, oldest first *)

Definition M (A : Type) : Type := world -> result A * world.

Definition ret {A} (v : A) : M A := fun w => (Ok v, w).

Definition bind {A B} (m : M A) (k : A -> M B) : M B := fun w =>
  match m w with
  | (Ok v, w') => k v w'
  | (Raise e, w') => (Raise e, w')
  end.

Notation "x <- m ;; k" := (bind m (fun x => k))
  (at level 100, m at next level, right associativity).

(** A [for] loop with an accumulator, in [M]. *)
Fixpoint for_each {A B} (f : B -> A -> M B) (l : list A) (acc : B) : M B :=
  match l with
  | [] => ret acc
  | x :: t => acc' <- f acc x ;; for_each f t acc'
  end.

(** [try: body  except Exception as e: handler] *)
Definition try_except {A} (body : M A) (handler : exn -> M A) : M A := fun w =>
  match body w with
  | (Ok v, w') => (Ok v, w')
  | (Raise e, w') => handler e w'
  end.

(** The effect of [SET isProcessed = v, process_data = data WHERE id = i]
    on one row. *)
Definition set_processed (i v : Z) (data : Py.str) (r : news_item) : news_item :=
  if bool_decide (id r = i)
  then mk_news_item (id r) (title r) (url r) (scraped_at r) (row_text r)
         (actual_datetime r) (content r) (clean_content r) (content_length r)
         (date_time r) (hash_id r) v data (created_at r)
  else r.

(** The columns that [SET isProcessed = ?, process_data = ?] leaves alone
    agree on [r] and [r']. *)
Definition same_article (r r' : news_item) : Prop :=
  id r' = id r /\ title r' = title r /\ url r' = url r /\
  scraped_at r' = scraped_at r /\ row_text r' = row_text r /\
  actual_datetime r' = actual_datetime r /\ content r' = content r /\
  clean_content r' = clean_content r /\ content_length r' = content_length r /\
  date_time r' = date_time r /\ hash_id r' = hash_id r /\
  created_at r' = created_at r.

(** The number of rows whose [column] equals [v]. *)
Definition count_where (column : news_item -> Py.str) (v : Py.str)
    (rows : list news_item) : Z :=
  Z.of_nat (length (filter (fun r => column r = v) rows)).

(** Updates of the world. *)
Definition tick (w : world) : world :=
  mk_world (db w) (sql_log w) (S (ticks w)) (http_log w) (model_log w).

Definition set_db (d : database) (w : world) : world :=
  mk_world d (sql_log w) (ticks w) (http_log w) (model_log w).

Definition log_sql (q : sql) (w : world) : world :=
  mk_world (db w) (sql_log w ++ [q]) (ticks w) (http_log w) (model_log w).

Definition log_http (u : Py.str) (w : world) : world :=
  mk_world (db w) (sql_log w) (ticks w) (http_log w ++ [u]) (model_log w).

Definition log_model (r : request) (w : world) : world :=
  mk_world (db w) (sql_log w) (ticks w) (http_log w) (model_log w ++ [r]).

Section Primitives.
Context (E : env).

(** [datetime.now()] *)
Definition datetime_now : M DateTime.datetime := fun w =>
  (Ok (now_at E (ticks w)), tick w).

(** Every database operation is logged and may raise, as the environment
    decides. *)
Definition db_operation (q : sql) : M unit := fun w =>
  if db_fault E (length (sql_log w))
  then (Raise DatabaseError, log_sql q w)
  else (Ok tt, log_sql q w).

(** [sqlite3.connect(self.db_path)] *)
Definition connect : M unit := db_operation Connect.

(** [SELECT COUNT( * ) FROM news_items WHERE <column> = ?] *)
Definition select_count (q : sql) (column : news_item -> Py.str) (v : Py.str) : M Z :=
  _ <- db_operation q ;;
  fun w => (Ok (count_where column v (news_items (db w))), w).

(** The row that [INSERT] stores for [r]: it gets the given id and
    timestamp. *)
Definition stored_row (i : Z) (stamp : Py.str) (r : news_item) : news_item :=
  mk_news_item i (title r) (url r) (scraped_at r) (row_text r)
    (actual_datetime r) (content r) (clean_content r)
    (content_length r) (date_time r) (hash_id r) (isProcessed r)
    (process_data r) stamp.

(** [INSERT INTO news_items (...) VALUES (...)] followed by [commit]: the
    row gets the next id and the current timestamp; the UNIQUE constraints
    on [url] and [hash_id] are enforced. *)
Definition insert_item (r : news_item) : M unit :=
  _ <- db_operation (InsertItem r) ;;
  fun w =>
    let rows := news_items (db w) in
    if bool_decide (Exists (fun x => url x = url r \/ hash_id x = hash_id r) rows)
    then (Raise IntegrityError, w)
    else
      let i := last_id (db w) + 1 in
      let row := stored_row i (current_timestamp E (length (sql_log w))) r in
      (Ok tt, set_db (mk_database (rows ++ [row]) i) w).

(** [UPDATE news_items SET isProcessed = ?, process_data = ? WHERE id = ?]
    followed by [commit]. *)
Definition update_processed (i v : Z) (data : Py.str) : M unit :=
  _ <- db_operation (UpdateProcessed i v data) ;;
  fun w =>
    (Ok tt,
     set_db (mk_database (map (set_processed i v data) (news_items (db w)))
               (last_id (db w))) w).

(** [requests.get(url, ...)] with [raise_for_status], then the parse. *)
Definition get_listing (u : Py.str) : M (list listing_row) := fun w =>
  match http_listing E (length (http_log w)) with
  | Some rows => (Ok rows, log_http u w)
  | None => (Raise RequestException, log_http u w)
  end.

Definition get_article (u : Py.str) : M article_page := fun w =>
  match http_article E (length (http_log w)) u with
  | Some page => (Ok page, log_http u w)
  | None => (Raise RequestException, log_http u w)
  end.

(** [self.anthropic_client.messages.create(...)] and reading
    [response.content[0].text]. *)
Definition messages_create (r : request) : M Py.str := fun w =>
  match llm_reply E (length (model_log w)) r with
  | Some text => (Ok text, log_model r w)
  | None => (Raise ModelError, log_model r w)
  end.

End Primitives.

End Runtime.

(** ** [filter_recent.py]: class [LiveRotterScraper] *)

Module Scraper.
Import Runtime.

(** An entry of [recent_news_items], as [get_live_forum_page] builds it. *)
Record candidate := mk_candidate
  { c_title : Py.str;
    c_url : Py.str;
    c_scraped_at : Py.str;
    c_row_text : Py.str;
    c_actual_datetime : option DateTime.datetime }.

(** The same dictionary once [scrape_live_news] has filled it in:
    [actual_datetime] has been replaced by a string. *)
Record article := mk_article
  { a_title : Py.str;
    a_url : Py.str;
    a_scraped_at : Py.str;
    a_row_text : Py.str;
    a_actual_datetime : Py.str;
    a_content : Py.str;
    a_clean_content : Py.str;
    a_content_length : Z;
    a_date_time : Py.str }.

(** The date of a batch item was recovered: its [actual_datetime] is the
    ISO rendering of a datetime. *)
Definition timestamped (a : article) : Prop :=
  exists d, DateTime.constructed d /\ a_actual_datetime a = DateTime.isoformat d.

(** A candidate carries the date recovered from its row. *)
Definition dated (c : candidate) : Prop :=
  exists d, c_actual_datetime c = Some d /\ DateTime.constructed d.

(** The order the final sort establishes between an item and any later
    one: the first is not older, by the sort key. *)
Definition not_older (x y : article) : Prop :=
  Py.ltb (a_actual_datetime x) (a_actual_datetime y) = false.


Definition base_url : Py.str := Py.lit "https://rotter.net".
Definition forum_url : Py.str := Py.lit "https://rotter.net/forum/listforum.php".

(** [(\d{1,2})\.(\d{1,2})\.(\d{2})\s+(\d{1,2}):(\d{2})] *)
Definition date_time_re : Re.pattern :=
  [Re.group Re.Digit 1 2; Re.one 46; Re.group Re.Digit 1 2; Re.one 46;
   Re.group Re.Digit 2 2; Re.plus Re.Space;
   Re.group Re.Digit 1 2; Re.one 58; Re.group Re.Digit 2 2].

(** [(\d{1,2})\.(\d{1,2})\.(\d{2})] *)
Definition date_re : Re.pattern :=
  [Re.group Re.Digit 1 2; Re.one 46; Re.group Re.Digit 1 2; Re.one 46;
   Re.group Re.Digit 2 2].

(** [(\d{1,2}):(\d{2})] *)
Definition time_re : Re.pattern :=
  [Re.group Re.Digit 1 2; Re.one 58; Re.group Re.Digit 2 2].

(** [datetime(int(year), int(month), int(day), int(hour), int(minute))]
    on matched digit strings; [None] stands for [ValueError]. *)
Definition datetime_of_strings (year month day hour minute : Py.str)
  : option DateTime.datetime :=
  match Py.int year, Py.int month, Py.int day, Py.int hour, Py.int minute with
  | Some y, Some m, Some d, Some H, Some Mi => DateTime.make y m d H Mi
  | _, _, _, _, _ => None
  end.

Definition date_of_strings (year month day : Py.str) (H Mi : Z)
  : option DateTime.datetime :=
  match Py.int year, Py.int month, Py.int day with
  | Some y, Some m, Some d => DateTime.make y m d H Mi
  | _, _, _ => None
  end.

Definition time_of_strings (y m d : Z) (hour minute : Py.str)
  : option DateTime.datetime :=
  match Py.int hour, Py.int minute with
  | Some H, Some Mi => DateTime.make y m d H Mi
  | _, _ => None
  end.

(** The first strategy of both recovery functions: the combined pattern,
    with [year = '20' + str(year)]. *)
Definition combined_datetime (text : Py.str) : option DateTime.datetime :=
  match Re.search date_time_re text with
  | Some [day; month; year; hour; minute] =>
    datetime_of_strings (Py.lit "20" ++ year) month day hour minute
  | _ => None
  end.

Definition navigation_keywords : list Py.str :=
  [ Py.lit "בית המדרש";
    Py.lit "הרגע קניתי";
    Py.lit "בני ה-20";
    Py.lit "סקופים";
    Py.lit "אשכול מספר";
    Py.lit "בחר פורום";
    Py.lit "נושא #";
    Py.lit "חבר מתאריך";
    Py.lit "הודעות";
    Py.lit "מדרגים";
    Py.lit "נקודות";
    Py.lit "ראה משוב";
    Py.lit "מנהל";
    Py.lit "סגן המנהל";
    Py.lit "מפקח";
    Py.lit "עיתונאי";
    Py.lit "צל" ++ Py.dquote ++ Py.lit "ש";
    Py.lit "כותרות";
    Py.lit "שעה";
    Py.lit "הכותב";
    Py.lit "אל לובי";
    Py.lit "החופשה הבאה";
    Py.lit "לוח שנה עברי";
    Py.lit "Downloads";
    Py.lit "שיתוף";
    Py.lit "מוזיקה";
    Py.lit "סרטים";
    Py.lit "צילום";
    Py.lit "מוטוריקה";
    Py.lit "לובי";
    Py.lit "חופשה";
    Py.lit "Booking.com";
    Py.lit "Kiwi";
    Py.lit "Skyscanner";
    Py.lit "TripAdvisor";
    Py.lit "גירסת הדפסה";
    Py.lit "קבוצות דיון";
    Py.lit "אל לובי הפורומים";
    Py.lit "החופשה הבאה שלך מתחילה כאן";
    Py.lit "--------";
    Py.lit "ביקורת תקשורת";
    Py.lit "עיתונות זרה";
    Py.lit "הפורום האקסקלוסיבי";
    Py.lit "ביטקוין ומטבעות קריפטו";
    Py.lit "כושר ופיתוח גוף" ].

(** [any(keyword in line for keyword in navigation_keywords)] *)
Definition is_forum_navigation (line : Py.str) : bool :=
  Py.any_in navigation_keywords line.

Definition response_indicators : list Py.str :=
  [ Py.lit "תגובה עם ציטוט";
    Py.lit "האשכול";
    Py.lit "מחבר";
    Py.lit "תאריך כתיבה";
    Py.lit "ציטוט:";
    Py.lit "תגובה:";
    Py.lit "משתמש:";
    Py.lit "הודעה:";
    Py.lit "פורום:";
    Py.lit "בחר פורום";
    Py.lit "בית המדרש";
    Py.lit "סקופים";
    Py.lit "אשכול מספר" ].

Definition fallback_indicators : list Py.str :=
  [ Py.lit "תגובה עם ציטוט";
    Py.lit "האשכול";
    Py.lit "מחבר";
    Py.lit "תאריך כתיבה" ].

Definition content_selectors : list Py.str :=
  [ Py.lit "div.content";
    Py.lit "div#content";
    Py.lit "td.content";
    Py.lit "div.post";
    Py.lit "div.message";
    Py.lit "td[valign=" ++ Py.dquote ++ Py.lit "top" ++ Py.dquote ++ Py.lit "]";
    Py.lit "div.main-content";
    Py.lit "div.article-content";
    Py.lit "td.article";
    Py.lit "div.forum-content";
    Py.lit "table[width=" ++ Py.dquote ++ Py.lit "100%" ++ Py.dquote ++ Py.lit "]" ].

Definition forum_patterns : list Py.str :=
  [ Py.lit "בית המדרש[\s\S]*?סקופים[\s\S]*?אשכול מספר[\s\S]*?\d+[\s\S]*?[^א-ת]*?[א-ת]+[^א-ת]*?\d{2}:\d{2}[\s\S]*?\d{2}\.\d{2}\.\d{2}";
    Py.lit "בחר פורום[\s\S]*?סקופים";
    Py.lit "נושא #\d+";
    Py.lit "ערכתי לאחרונה.*?בברכה.*?";
    Py.lit "חבר מתאריך.*?הודעות.*?מדרגים.*?נקודות.*?ראה משוב";
    Py.lit "יום.*?כ.*?באב.*?תשפ.*?";
    Py.lit "מנהל[\s\S]*?צל" ++ Py.dquote ++ Py.lit "ש";
    Py.lit "ביקורת תקשורת[\s\S]*?(?=\n|$)";
    Py.lit "עיתונות זרה[\s\S]*?(?=\n|$)";
    Py.lit "הפורום האקסקלוסיבי[\s\S]*?(?=\n|$)";
    Py.lit "ביטקוין ומטבעות קריפטו[\s\S]*?(?=\n|$)";
    Py.lit "כושר ופיתוח גוף[\s\S]*?(?=\n|$)";
    Py.lit "https?://[^\s]+";
    Py.lit "\n{3,}" ].

(** The loop over the lines of a matched container, up to its [break]. *)
Fixpoint main_article_lines (lines : list Py.str) : list Py.str :=
  match lines with
  | [] => []
  | line :: rest =>
    let line := Py.strip line in
    if negb (Py.truthy line) then main_article_lines rest
    else if Py.any_in response_indicators line then []
    else if (Py.len line >? 20) && negb (is_forum_navigation line)
         then line :: main_article_lines rest
         else main_article_lines rest
  end.

(** The loop over [content_selectors]: every matched container overwrites
    [content]; the loop stops at the first one longer than 200. *)
Fixpoint select_content (page : article_page) (selectors : list Py.str)
    (content : Py.str) : Py.str :=
  match selectors with
  | [] => content
  | selector :: rest =>
    match ap_select page selector with
    | None => select_content page rest content
    | Some temp_content =>
      let content :=
        Py.join [Py.newline] (main_article_lines (Py.split Py.newline temp_content)) in
      if Py.truthy content && (Py.len content >? 200) then content
      else select_content page rest content
    end
  end.

(** The fallback loop over the lines of the whole page. *)
Fixpoint main_content_lines (content_started : bool) (lines : list Py.str)
  : list Py.str :=
  match lines with
  | [] => []
  | line :: rest =>
    let line := Py.strip line in
    if negb (Py.truthy line) then main_content_lines content_started rest
    else if is_forum_navigation line then main_content_lines content_started rest
    else
      let content_started := content_started || (Py.len line >? 30) in
      if content_started then
        if Py.any_in fallback_indicators line then []
        else if (Py.len line >? 20) && negb (is_forum_navigation line)
             then line :: main_content_lines content_started rest
             else main_content_lines content_started rest
      else main_content_lines content_started rest
  end.

Definition extract_content (page : article_page) : Py.str :=
  let content := select_content page content_selectors [] in
  if negb (Py.truthy content) || (Py.len content <? 200)
  then Py.join [Py.newline]
         (main_content_lines false (Py.split Py.newline (ap_all_text page)))
  else content.

(** [events_with_content.sort(key=lambda x: x.get('actual_datetime', ''),
    reverse=True)]: the stable sort into descending key order (equal keys
    keep their order). *)
Fixpoint insert_newest_first (x : article) (l : list article) : list article :=
  match l with
  | [] => [x]
  | y :: t =>
    if Py.ltb (a_actual_datetime x) (a_actual_datetime y)
    then y :: insert_newest_first x t
    else x :: y :: t
  end.

Definition sort_newest_first (l : list article) : list article :=
  fold_right insert_newest_first [] l.

(** A line kept by one of the two extraction loops. *)
Definition content_line (line : Py.str) : Prop :=
  20 < Py.len line /\ is_forum_navigation line = false /\
  Py.any_in fallback_indicators line = false /\
  exists raw, line = Py.strip raw.

(** Whether the scan of a statement is inside a ['...'] literal after the
    characters [s]. *)
Definition quoted_after (quoted : bool) (s : Py.str) : bool :=
  fold_left (fun q c => if (c =? 39)%N then negb q else q) s quoted.

(** The number of [?] placeholders of a statement: the question marks
    outside of ['...'] literals.  (The statements of this program have
    no comment and no quoted identifier.) *)
Fixpoint placeholders_from (quoted : bool) (s : Py.str) : nat :=
  match s with
  | [] => O
  | c :: t =>
    if (c =? 39)%N then placeholders_from (negb quoted) t
    else if (c =? 63)%N && negb quoted then S (placeholders_from quoted t)
    else placeholders_from quoted t
  end.

Definition placeholders (statement : Py.str) : nat := placeholders_from false statement.

(** An entry of the list [export_recent_articles_from_db] builds. *)
Record exported := mk_exported
  { e_id : Z;
    e_title : Py.str;
    e_url : Py.str;
    e_actual_datetime : Py.str;
    e_clean_content : option Py.str;
    e_content_length : Z;
    e_date_time : Py.str;
    e_created_at : Py.str }.

(** The text of the query of [export_recent_articles_from_db] up to its
    replacement field [{}], and the text after it. *)
Definition export_head : Py.str :=
  Py.join [Py.newline]
    [ [];
      Py.lit "                SELECT id, title, url, actual_datetime, clean_content, content_length, date_time, created_at";
      Py.lit "                FROM news_items ";
      Py.lit "                WHERE datetime(actual_datetime) >= datetime('now', '-" ].

Definition export_tail : Py.str :=
  Py.join [Py.newline]
    [ Py.lit " hours')";
      Py.lit "                ORDER BY actual_datetime DESC";
      Py.lit "                LIMIT ?";
      Py.lit "            " ].

(** The statement after [.format(hours, limit)]: the template has one
    replacement field, so [limit] is not used. *)
Definition export_statement (hours limit : Z) : Py.str :=
  export_head ++ Py.str_of_int hours ++ export_tail.


Section LiveRotterScraper.
Context (E : env).

Definition generate_article_hash (title url : Py.str) : Py.str :=
  md5_hexdigest E (title ++ url).

Definition is_article_exists (hash_id : Py.str) : M bool :=
  try_except
    (_ <- connect E ;;
     count <- select_count E (CountByHash hash_id) Runtime.hash_id hash_id ;;
     ret (count >? 0))
    (fun _ => ret false).

Definition row_of_article (a : article) (hash_id : Py.str) : news_item :=
  mk_news_item 0 (a_title a) (a_url a) (a_scraped_at a) (a_row_text a)
    (a_actual_datetime a) (a_content a) (Some (a_clean_content a))
    (a_content_length a) (a_date_time a) hash_id 0 [] [].

Definition save_article_to_db (article_data : article) : M bool :=
  try_except
    (_ <- connect E ;;
     let hash_id := generate_article_hash (a_title article_data) (a_url article_data) in
     existing <- is_article_exists hash_id ;;
     if existing then ret false
     else
       _ <- insert_item E (row_of_article article_data hash_id) ;;
       ret true)
    (fun _ => ret false).

Definition check_article_exists_in_db (title url : Py.str) : M bool :=
  try_except
    (_ <- connect E ;;
     url_count <- select_count E (CountByUrl url) Runtime.url url ;;
     if url_count >? 0 then ret true
     else
       title_count <- select_count E (CountByTitle title) Runtime.title title ;;
       ret (title_count >? 0))
    (fun _ => ret false).

(** The lookups of [check_article_exists_in_db] raise: at the connection,
    at the query by url, or, when no row has the url, at the query by
    title. *)
Definition lookup_raises (w : world) (url : Py.str) : Prop :=
  let n := length (sql_log w) in
  db_fault E n = true \/
  (db_fault E n = false /\ db_fault E (S n) = true) \/
  (db_fault E n = false /\ db_fault E (S n) = false /\
   (count_where Runtime.url url (news_items (db w)) >? 0) = false /\
   db_fault E (S (S n)) = true).

Definition extract_actual_datetime_from_row (row_text : Py.str)
  : M (option DateTime.datetime) :=
  match combined_datetime row_text with
  | Some dt => ret (Some dt)
  | None =>
    let date_pattern := Re.search date_re row_text in
    let time_pattern := Re.search time_re row_text in
    match date_pattern, time_pattern with
    | Some [day; month; year], Some [hour; minute] =>
      ret (datetime_of_strings (Py.lit "20" ++ year) month day hour minute)
    | Some [day; month; year], None =>
      now <- datetime_now E ;;
      ret (date_of_strings (Py.lit "20" ++ year) month day
             (DateTime.hour now) (DateTime.minute now))
    | None, Some [hour; minute] =>
      today <- datetime_now E ;;
      ret (time_of_strings (DateTime.year today) (DateTime.month today)
             (DateTime.day today) hour minute)
    | _, _ => ret None
    end
  end.

(** What a recovery function leaves behind: a recovered value is
    [constructed], and the world has at most one more clock reading. *)
Definition recovery_outcome (w : world)
    (r : result (option DateTime.datetime) * world) : Prop :=
  exists found w', r = (Ok found, w') /\
    (w' = w \/ w' = tick w) /\
    (forall d, found = Some d -> DateTime.constructed d).

Definition is_within_24_hours (article_datetime : option DateTime.datetime) : M bool :=
  match article_datetime with
  | None => ret false
  | Some t =>
    now <- datetime_now E ;;
    let time_diff := DateTime.sub now t in
    ret (DateTime.total_seconds_le time_diff 86400)
  end.

(** The test on a link of the listing. *)
Definition looks_like_news (title href : Py.str) : bool :=
  Py.truthy title && (Py.len title >? 15)
  && negb (Py.startswith (Py.lit "לחץ כאן") title)
  && negb (Py.startswith (Py.lit "אל לובי") title)
  && (Py.contains (Py.lit "dcboard.cgi") href || Py.contains (Py.lit "forum") href).

Definition visit_link (row : listing_row) (recent_news_items : list candidate)
    (link : Py.str * Py.str) : M (list candidate) :=
  let '(href, title) := link in
  if looks_like_news title href then
    let row_text := lr_text row in
    extracted_datetime <- extract_actual_datetime_from_row (lr_text_stripped row) ;;
    match extracted_datetime with
    | Some dt =>
      recent <- is_within_24_hours (Some dt) ;;
      if recent then
        let url := if Py.startswith (Py.lit "http") href then href else base_url ++ href in
        scraped <- datetime_now E ;;
        ret (recent_news_items ++
             [mk_candidate title url (DateTime.isoformat scraped)
                (take 200 row_text) (Some dt)])
      else ret recent_news_items
    | None => ret recent_news_items
    end
  else ret recent_news_items.

Definition get_live_forum_page : M (list candidate) :=
  try_except
    (rows <- get_listing E forum_url ;;
     for_each (fun items row => for_each (visit_link row) (lr_links row) items) rows [])
    (fun _ => ret []).

Definition extract_datetime_from_article_page (page_text : Py.str)
  : M (option DateTime.datetime) :=
  match combined_datetime page_text with
  | Some dt => ret (Some dt)
  | None =>
    let date_only :=
      match Re.search date_re page_text with
      | Some [day; month; year] => date_of_strings (Py.lit "20" ++ year) month day 0 0
      | _ => None
      end in
    match date_only with
    | Some dt => ret (Some dt)
    | None =>
      match Re.search time_re page_text with
      | Some [hour; minute] =>
        today <- datetime_now E ;;
        ret (time_of_strings (DateTime.year today) (DateTime.month today)
               (DateTime.day today) hour minute)
      | _ => ret None
      end
    end
  end.

Definition get_live_article_content (url : Py.str)
  : M (option Py.str * option DateTime.datetime) :=
  try_except
    (page <- get_article E url ;;
     article_datetime <- extract_datetime_from_article_page (ap_text page) ;;
     ret (Some (extract_content page), article_datetime))
    (fun _ => ret (None, None)).

(** The patterns of the line filter of [clean_article_content]. *)
Definition bare_line_patterns : list Py.str :=
  [ Py.lit "^\d{2}:\d{2}$";
    Py.lit "^\d{2}\.\d{2}\.\d{2}$";
    Py.lit "^[א-ת]+$";
    Py.lit "^[,\'" ++ Py.backslash ++ Py.dquote ++ Py.lit "]+$" ].

Definition keep_line (line : Py.str) : bool :=
  let trimmed_line := Py.strip line in
  if (Py.len trimmed_line <? 10) || Py.any_in navigation_keywords trimmed_line
  then false
  else negb (existsb (fun p => re_match E p trimmed_line) bare_line_patterns).

(** The last step of [clean_article_content]: the cut at 1000 characters
    and the placeholder. *)
Definition truncate_or_placeholder (clean_content : Py.str) : Py.str :=
  let clean_content :=
    if Py.len clean_content >? 1000
    then take 1000 clean_content ++ Py.lit "..."
    else clean_content in
  Py.or_else clean_content (Py.lit "תוכן זמין בקישור המקורי").

Definition clean_article_content (content : Py.str) : Py.str :=
  if negb (Py.truthy content) then Py.lit "אין תוכן זמין"
  else
    let clean_content :=
      fold_left (fun text pattern => re_sub E pattern false [] text)
        forum_patterns content in
    let lines := Py.split Py.newline clean_content in
    let meaningful_lines := List.filter keep_line lines in
    let clean_content := Py.strip (Py.join [Py.newline] meaningful_lines) in
    let clean_content := re_sub E (Py.lit "^\s*[-=]+\s*$") true [] clean_content in
    let clean_content := re_sub E (Py.lit "^\s*[א-ת]+\s*$") true [] clean_content in
    let clean_content :=
      re_sub E (Py.lit "\n{3,}") false [Py.newline; Py.newline] clean_content in
    truncate_or_placeholder clean_content.

(** The three ways [scrape_live_news] settles the date of an item:
    [(date_time, actual_datetime)]. *)
Definition settle_datetime (article_datetime row_datetime : option DateTime.datetime)
  : Py.str * Py.str :=
  match article_datetime with
  | Some original_datetime =>
    (DateTime.strftime_ymd_hms original_datetime, DateTime.isoformat original_datetime)
  | None =>
    match row_datetime with
    | Some original_datetime =>
      (DateTime.strftime_ymd_hms original_datetime, DateTime.isoformat original_datetime)
    | None => (Py.lit "Unknown", Py.lit "Unknown")
    end
  end.

(** The body of the loop of [scrape_live_news]. *)
Definition fetch_and_store (events_with_content : list article) (item : candidate)
  : M (list article) :=
  r <- get_live_article_content (c_url item) ;;
  let '(content, article_datetime) := r in
  match content with
  | Some content =>
    if Py.truthy content then
      let cleaned_content := clean_article_content content in
      let '(date_time, actual_datetime) :=
        settle_datetime article_datetime (c_actual_datetime item) in
      let item :=
        mk_article (c_title item) (c_url item) (c_scraped_at item) (c_row_text item)
          actual_datetime content cleaned_content (Py.len cleaned_content) date_time in
      _ <- save_article_to_db item ;;
      ret (events_with_content ++ [item])
    else ret events_with_content
  | None => ret events_with_content
  end.

Definition process_candidate (events_with_content : list article) (item : candidate)
  : M (list article) :=
  existing <- check_article_exists_in_db (c_title item) (c_url item) ;;
  if existing then ret events_with_content
  else fetch_and_store events_with_content item.

Definition scrape_live_news : M (list article) :=
  recent_news_items <- get_live_forum_page ;;
  match recent_news_items with
  | [] => ret []
  | _ :: _ =>
    events_with_content <- for_each process_candidate recent_news_items [] ;;
    ret (sort_newest_first events_with_content)
  end.

(** What [get_live_forum_page] has checked of a candidate it emits, when
    the clock readings of the call are the [first]-th up to the one before
    the [last]-th: the title, the absolute url, the cut of the row text,
    the time of scraping, and the age of the recovered date at a reading
    of the clock. *)
Definition checked_candidate (first last : nat) (c : candidate) : Prop :=
  15 < Py.len (c_title c) /\
  Py.startswith (Py.lit "http") (c_url c) = true /\
  Py.len (c_row_text c) <= 200 /\
  (exists k, (first <= k < last)%nat /\ c_scraped_at c = DateTime.isoformat (now_at E k)) /\
  exists d k, c_actual_datetime c = Some d /\ DateTime.constructed d /\
    (first <= k < last)%nat /\
    DateTime.sub (now_at E k) d <= 86400 * 1000000.

(** What [scrape_live_news] guarantees of an item of its batch. *)
Definition complete (a : article) : Prop :=
  a_content a <> [] /\
  a_clean_content a = clean_article_content (a_content a) /\
  a_content_length a = Py.len (a_clean_content a) /\
  1 <= a_content_length a <= 1003 /\
  15 < Py.len (a_title a) /\
  Py.startswith (Py.lit "http") (a_url a) = true /\
  exists d, DateTime.constructed d /\
    a_actual_datetime a = DateTime.isoformat d /\
    a_date_time a = DateTime.strftime_ymd_hms d.

(** The row of the table that storing the batch item [a] creates. *)
Definition row_stored_for (a : article) (r : news_item) : Prop :=
  exists i stamp,
    r = stored_row i stamp
          (row_of_article a (generate_article_hash (a_title a) (a_url a))).

(** The table of [w'] is the table of [w] with rows appended, one for
    some of the items of [events], with consecutive ids, and the appended
    rows keep the [url] and [hash_id] columns free of duplicates. *)
Definition appended (w : world) (events : list article) (w' : world) : Prop :=
  exists new,
    news_items (db w') = news_items (db w) ++ new /\
    last_id (db w') = last_id (db w) + Z.of_nat (length new) /\
    map id new = map (fun k => last_id (db w) + Z.of_nat k) (seq 1 (length new)) /\
    Forall (fun r => exists a, a ∈ events /\ row_stored_for a r) new /\
    (NoDup (map url (news_items (db w))) -> NoDup (map url (news_items (db w')))) /\
    (NoDup (map hash_id (news_items (db w))) -> NoDup (map hash_id (news_items (db w')))).

End LiveRotterScraper.

Section Exporter.
Context (E : env).

(** What the database engine answers to a statement once its parameters
    are bound. *)
Context (run_statement : Py.str -> list pyval -> M (list news_item)).

(** [cursor.execute(statement, parameters)] and [cursor.fetchall()]:
    sqlite3 raises [ProgrammingError], before it runs the statement,
    unless one value is supplied for each placeholder. *)
Definition execute_fetchall (statement : Py.str) (parameters : list pyval)
  : M (list news_item) :=
  if Nat.eqb (placeholders statement) (length parameters)
  then run_statement statement parameters
  else fun w => (Raise DatabaseError, w).

Definition export_recent_articles_from_db (hours limit : Z) : M (list exported) :=
  try_except
    (_ <- connect E ;;
     rows <- execute_fetchall (export_statement hours limit) [] ;;
     ret (map (fun row =>
                 mk_exported (id row) (title row) (url row) (actual_datetime row)
                   (clean_content row) (content_length row) (date_time row)
                   (created_at row)) rows))
    (fun _ => ret []).

End Exporter.
End Scraper.

(** ** [process_articles.py]: class [ArticleProcessor] *)

Module Processor.
Import Runtime.

Definition haiku : Py.str := Py.lit "claude-3-haiku-20240307".

Definition quality_indicators : list Py.str :=
  [ Py.lit "מקורות שנמצאו"; Py.lit "לפי דיווח"; Py.lit "על פי"; Py.lit "מתוך כתבה";
    Py.lit "הצהרה של"; Py.lit "לדברי"; Py.lit "בעיתון"; Py.lit "באתר" ].

Definition non_relevant_keywords : list Py.str :=
  [ Py.lit "ספורט"; Py.lit "בידור"; Py.lit "עסקים"; Py.lit "שגרתי"; Py.lit "כלכלי" ].

Definition verify_research_quality (research_result : Py.str) : bool :=
  let has_sources := Py.any_in quality_indicators research_result in
  let is_too_short := Py.len research_result <? 150 in
  let is_generic := Py.contains (Py.lit "לא מצאתי") research_result in
  has_sources && negb is_too_short && negb is_generic.

(** An entry of the list [get_unprocessed_articles] returns. *)
Record unprocessed := mk_unprocessed
  { u_id : Z;
    u_title : Py.str;
    u_url : Py.str;
    u_clean_content : option Py.str;       (* [None]: the column is [NULL] *)
    u_created_at : Py.str }.

(** [ORDER BY created_at ASC]: ascending, rows with equal keys in table order. *)
Fixpoint insert_oldest_first (x : news_item) (l : list news_item) : list news_item :=
  match l with
  | [] => [x]
  | y :: t =>
    if Py.ltb (created_at y) (created_at x)
    then y :: insert_oldest_first x t
    else x :: y :: t
  end.

(** [l[:n]] *)
Definition slice_to {A} (n : Z) (l : list A) : list A :=
  if n <? 0 then take (Z.to_nat (Z.of_nat (length l) + n)) l
  else take (Z.to_nat n) l.

(** [len(l[:n])] for a list of length [len]. *)
Definition slice_length (n len : Z) : Z :=
  if n <? 0 then Z.max 0 (len + n) else Z.min n len.

(** [len(articles)] once [process_articles] has applied its limit to a
    list of length [len]: [None] and 0 mean no limit. *)
Definition selection_length (limit : option Z) (len : Z) : Z :=
  match limit with
  | Some n => if n =? 0 then len else slice_length n len
  | None => len
  end.

(** The order of the work list: [r] is not newer than [r'], by the
    [created_at] column. *)
Definition oldest_first (r r' : news_item) : Prop :=
  Py.ltb (created_at r') (created_at r) = false.

(** The dictionary [get_unprocessed_articles] builds from a row. *)
Definition work_item (r : news_item) : unprocessed :=
  mk_unprocessed (id r) (title r) (url r) (clean_content r) (created_at r).

(** The three requests of stages 1 and 2. *)
Definition relevance_request (article_content article_title : Py.str) : request :=
  mk_request haiku 200 (Some 1) (RelevancePrompt article_title (take 2000 article_content)).

Definition research_request (main_topic article_summary : Py.str) : request :=
  mk_request haiku 1500 (Some 3) (ResearchPrompt main_topic article_summary).

Definition retry_request (main_topic : Py.str) : request :=
  mk_request haiku 1500 None (RetryPrompt main_topic).

(** The dictionary returned for an article that is not relevant. *)
Definition not_relevant_result (relevance_reason : Py.str) (now : DateTime.datetime)
  : gmap string pyval :=
  <["analysis" :=
      VDict (<["relevant" := VBool false]>
             (<["reason" := VStr relevance_reason]>
              (<["category" := VStr (Py.lit "non-political")]> ∅)))]>
  (<["model_used" := VStr haiku]>
   (<["processed_at" := VStr (DateTime.isoformat now)]>
    (<["is_relevant" := VBool false]> ∅))).

(** The dictionary returned after the four stages. *)
Definition final_result (technical_analysis final_article research_findings : Py.str)
    (now : DateTime.datetime) : gmap string pyval :=
  <["technical_analysis" := VStr technical_analysis]>
  (<["journalistic_article" := VStr final_article]>
   (<["research_notes" := VStr research_findings]>
    (<["model_used" := VStr haiku]>
     (<["processed_at" := VStr (DateTime.isoformat now)]>
      (<["is_relevant" := VBool true]> ∅))))).

Section ArticleProcessor.
Context (E : env).

Definition test_internet_access : M bool :=
  try_except
    (result <- messages_create E (mk_request haiku 200 None InternetTestPrompt) ;;
     if Py.contains (Py.lit "לא יכול לגשת") result
        || Py.contains (Py.lit "אין לי גישה") result
     then ret false
     else ret true)
    (fun _ => ret false).

Definition check_article_relevance (article_content article_title : Py.str)
  : M (bool * Py.str) :=
  try_except
    (relevance_text <-
       messages_create E (relevance_request article_content article_title) ;;
     let is_relevant := negb (Py.any_in non_relevant_keywords relevance_text) in
     ret (is_relevant, relevance_text))
    (fun _ => ret (true, Py.lit "Error in checking relevance")).

Definition research_topic (main_topic article_summary : Py.str) : M Py.str :=
  try_except
    (research_result <-
       messages_create E (research_request main_topic article_summary) ;;
     if negb (verify_research_quality research_result) then
       retry_result <- messages_create E (retry_request main_topic) ;;
       ret retry_result
     else ret research_result)
    (fun _ => ret (Py.lit "Research failed")).

Definition create_technical_analysis (original_text research_findings : Py.str)
  : M Py.str :=
  try_except
    (let prompt := AnalysisPrompt (take 2000 original_text) research_findings in
     messages_create E (mk_request haiku 2000 (Some 3) prompt))
    (fun e => ret (Py.lit "Technical analysis failed: " ++ exn_text E e)).

Definition create_journalistic_article (technical_analysis : Py.str) : M Py.str :=
  try_except
    (let prompt := JournalisticPrompt technical_analysis in
     messages_create E (mk_request haiku 2000 (Some 4) prompt))
    (fun e => ret (Py.lit "Journalistic writing failed: " ++ exn_text E e)).

Definition analyze_article_with_anthropic (article_content article_title : Py.str)
  : M (gmap string pyval) :=
  r <- check_article_relevance article_content article_title ;;
  let '(is_relevant, relevance_reason) := r in
  if negb is_relevant then
    now <- datetime_now E ;;
    ret (not_relevant_result relevance_reason now)
  else
    let main_topic := article_title in
    let article_summary := take 500 article_content in
    research_findings <- research_topic main_topic article_summary ;;
    technical_analysis <- create_technical_analysis article_content research_findings ;;
    final_article <- create_journalistic_article technical_analysis ;;
    now <- datetime_now E ;;
    ret (final_result technical_analysis final_article research_findings now).

Definition get_unprocessed_articles : M (list unprocessed) :=
  try_except
    (_ <- connect E ;;
     _ <- db_operation E SelectUnprocessed ;;
     fun w =>
       let rows := List.filter (fun r => isProcessed r =? 0) (news_items (db w)) in
       let rows := fold_right insert_oldest_first [] rows in
       (Ok (map (fun r => mk_unprocessed (id r) (title r) (url r) (clean_content r)
                            (created_at r)) rows), w))
    (fun _ => ret []).

Definition update_article_as_processed (article_id : Z)
    (analysis_data : gmap string pyval) : M unit :=
  try_except
    (_ <- connect E ;;
     let is_processed_value :=
       if truth (default (VBool true) (analysis_data !! "is_relevant")) then 1 else 2 in
     update_processed E article_id is_processed_value (json_dumps E analysis_data))
    (fun _ => ret tt).

(** The counters the loop of [process_articles] prints at the end. *)
Record counters := mk_counters
  { processed_count : Z; relevant_count : Z; non_relevant_count : Z; error_count : Z }.

(** The body of the loop.  Its progress lines come first; one of them
    prints [len(article['clean_content'])], outside of any [try], which
    raises [TypeError] when the column is [NULL]. *)
Definition process_article (c : counters) (article : unprocessed) : M counters :=
  match u_clean_content article with
  | None => fun w => (Raise TypeError, w)
  | Some clean_content =>
    analysis_result <-
      analyze_article_with_anthropic clean_content (u_title article) ;;
    if truth (VDict analysis_result) then
      _ <- update_article_as_processed (u_id article) analysis_result ;;
      if truth (default (VBool true) (analysis_result !! "is_relevant"))
      then ret (mk_counters (processed_count c + 1) (relevant_count c + 1)
                  (non_relevant_count c) (error_count c))
      else ret (mk_counters (processed_count c + 1) (relevant_count c)
                  (non_relevant_count c + 1) (error_count c))
    else ret (mk_counters (processed_count c) (relevant_count c)
                (non_relevant_count c) (error_count c + 1))
  end.

(** The articles the loop goes through: [articles[:limit]] when a limit
    is given and is not 0. *)
Definition selection (limit : option Z) (articles : list unprocessed)
  : list unprocessed :=
  match limit with
  | Some n => if n =? 0 then articles else slice_to n articles
  | None => articles
  end.

Definition process_articles (limit : option Z) : M counters :=
  articles <- get_unprocessed_articles ;;
  match articles with
  | [] => ret (mk_counters 0 0 0 0)
  | _ :: _ =>
    for_each process_article (selection limit articles) (mk_counters 0 0 0 0)
  end.

End ArticleProcessor.
End Processor.

(** ** Sample environments, for running the model on concrete inputs *)

Module Sample.
Import Runtime.

Definition morning : DateTime.datetime := DateTime.mk 2025 8 23 10 0 0 0.

Definition empty_db : database := mk_database [] 0.

Definition fresh (d : database) : world := mk_world d [] O [] [].

(** A stored, still unprocessed article and its entry in the work list. *)
Definition stored : news_item :=
  mk_news_item 1 (Py.lit "headline") (Py.lit "https://rotter.net/forum/1.shtml")
    (Py.lit "2025-08-23T09:00:00") [] (Py.lit "2025-08-23T08:30:00")
    (Py.lit "body") (Some (Py.lit "body")) 4 (Py.lit "2025-08-23 08:30:00")
    (Py.lit "headlinehttps://rotter.net/forum/1.shtml") 0 []
    (Py.lit "2025-08-23 06:00:00").

Definition one_row_db : database := mk_database [stored] 1.

(** A stored row whose [clean_content] is [NULL], after the row above. *)
Definition bare : news_item :=
  mk_news_item 2 (Py.lit "bare") (Py.lit "https://rotter.net/forum/2.shtml")
    (Py.lit "2025-08-23T09:00:00") [] (Py.lit "2025-08-23T08:40:00")
    [] None 0 (Py.lit "2025-08-23 08:40:00")
    (Py.lit "barehttps://rotter.net/forum/2.shtml") 0 []
    (Py.lit "2025-08-23 06:10:00").

Definition two_row_db : database := mk_database [stored; bare] 2.

Definition pending : Processor.unprocessed :=
  Processor.mk_unprocessed 1 (Py.lit "headline")
    (Py.lit "https://rotter.net/forum/1.shtml") (Some (Py.lit "body"))
    (Py.lit "2025-08-23 06:00:00").

(** A candidate of the listing. *)
Definition lead : Scraper.candidate :=
  Scraper.mk_candidate (Py.lit "headline") (Py.lit "https://rotter.net/forum/1.shtml")
    (Py.lit "2025-08-23T09:00:00") [] (Some (DateTime.mk 2025 8 23 8 30 0 0)).

(** A candidate that carries no date. *)
Definition stray : Scraper.candidate :=
  Scraper.mk_candidate (Py.lit "stray") (Py.lit "https://rotter.net/forum/2.shtml")
    (Py.lit "2025-08-23T09:00:00") [] None.

(** Two items whose titles and urls differ but concatenate alike. *)
Definition article_ab_c : Scraper.article :=
  Scraper.mk_article (Py.lit "ab") (Py.lit "c") [] [] (Py.lit "2025-08-23T08:30:00")
    (Py.lit "x") (Py.lit "x") 1 (Py.lit "2025-08-23 08:30:00").

Definition article_a_bc : Scraper.article :=
  Scraper.mk_article (Py.lit "a") (Py.lit "bc") [] [] (Py.lit "2025-08-23T08:31:00")
    (Py.lit "y") (Py.lit "y") 1 (Py.lit "2025-08-23 08:31:00").


(** A model that files everything under sports and cites no source. *)
Definition sports_model (k : nat) (r : request) : option Py.str :=
  match rq_prompt r with
  | RelevancePrompt _ _ => Some (Py.lit "זהו נושא ספורטיבי")
  | ResearchPrompt _ _ => Some (Py.lit "לא מצאתי מידע נוסף")
  | RetryPrompt _ => Some (Py.lit "still nothing")
  | _ => None
  end.

(** A quiet environment: the database never fails, the network is down,
    the regular expressions of the cleaner find nothing. *)
Definition quiet : env :=
  mk_env (fun _ => morning) (fun _ => false) (fun _ => Py.lit "2025-08-23 07:00:00")
    (fun _ => None) (fun _ _ => None) sports_model
    (fun s => s) (fun _ => Py.lit "{}")
    (fun _ _ _ s => s) (fun _ _ => false) (fun _ => Py.lit "error").

(** A listing of three rows, the last one four days old, and the page
    every article link leads to. *)
Definition listing : list listing_row :=
  [ mk_listing_row (Py.lit "22.08.25 23:10 first headline of the day")
      (Py.lit " 22.08.25 23:10  first headline of the day ")
      [(Py.lit "/forum/scoops1/1.shtml", Py.lit "first headline of the day")];
    mk_listing_row (Py.lit "23.08.25 09:00 second headline of the day")
      (Py.lit " 23.08.25 09:00  second headline of the day ")
      [(Py.lit "/forum/scoops1/2.shtml", Py.lit "second headline of the day")];
    mk_listing_row (Py.lit "19.08.25 09:00 a headline of last week")
      (Py.lit " 19.08.25 09:00  a headline of last week ")
      [(Py.lit "/forum/scoops1/3.shtml", Py.lit "a headline of last week")] ].

Definition page : article_page :=
  mk_article_page (Py.lit "posted by someone")
    (fun _ => None)
    (Py.lit "The council voted on the new budget late on Friday night.").

(** The quiet environment with the network up. *)
Definition busy : env :=
  mk_env (now_at quiet) (db_fault quiet) (current_timestamp quiet)
    (fun _ => Some listing) (fun _ _ => Some page) (llm_reply quiet)
    (md5_hexdigest quiet) (json_dumps quiet) (re_sub quiet) (re_match quiet)
    (exn_text quiet).

(** The quiet environment with a database that raises on every
    operation. *)
Definition broken_db : env :=
  mk_env (now_at quiet) (fun _ => true) (current_timestamp quiet)
    (http_listing quiet) (http_article quiet) (llm_reply quiet)
    (md5_hexdigest quiet) (json_dumps quiet) (re_sub quiet) (re_match quiet)
    (exn_text quiet).

(** The busy environment with a database that raises on its first
    operation only. *)
Definition flaky : env :=
  mk_env (now_at busy) (fun k => Nat.eqb k 0) (current_timestamp busy)
    (http_listing busy) (http_article busy) (llm_reply busy)
    (md5_hexdigest busy) (json_dumps busy) (re_sub busy) (re_match busy)
    (exn_text busy).

(** The quiet environment with a model that never answers. *)
Definition offline : env :=
  mk_env (now_at quiet) (db_fault quiet) (current_timestamp quiet)
    (http_listing quiet) (http_article quiet) (fun _ _ => None)
    (md5_hexdigest quiet) (json_dumps quiet) (re_sub quiet) (re_match quiet)
    (exn_text quiet).

End Sample.

(** * Properties *)

(** ** Strings *)

Module PyFacts.

Lemma startswith_spec (p s : Py.str) :
  Py.startswith p s = true <-> exists t, s = p ++ t.
Proof.
  revert s. induction p as [|a p IH]; intros s; simpl.
  - split; [intros _; by exists s | done].
  - destruct s as [|b s].
    + split; [done | intros [t Ht]; discriminate].
    + rewrite andb_true_iff, N.eqb_eq, IH. split.
      * intros [-> [t ->]]. by exists t.
      * intros [t Ht]. injection Ht as -> ->. split; [done | by exists t].
Qed.

Lemma contains_spec (needle hay : Py.str) :
  Py.contains needle hay = true <-> Py.occurs_in needle hay.
Proof.
  unfold Py.occurs_in. induction hay as [|c hay IH].
  - simpl. rewrite orb_false_r, startswith_spec. split.
    + intros [t Ht]. by exists [], t.
    + intros [before [after H]]. destruct before; [by exists after |].
      discriminate.
  - cbn [Py.contains]. rewrite orb_true_iff, startswith_spec, IH. split.
    + intros [[t Ht] | [before [after H]]].
      * by exists [], t.
      * exists (c :: before), after. by rewrite H.
    + intros [before [after H]]. destruct before as [|b before].
      * left. by exists after.
      * right. injection H as -> ->. by exists before, after.
Qed.

Lemma any_in_spec (ks : list Py.str) (s : Py.str) :
  Py.any_in ks s = true <-> exists k, k ∈ ks /\ Py.occurs_in k s.
Proof.
  unfold Py.any_in. rewrite existsb_exists. split.
  - intros [k [Hin Hk]]. exists k. split.
    + by apply list_elem_of_In.
    + by apply contains_spec.
  - intros [k [Hin Hk]]. exists k. split.
    + by apply list_elem_of_In.
    + by apply contains_spec.
Qed.

Lemma any_in_false (ks : list Py.str) (s : Py.str) :
  Py.any_in ks s = false <-> forall k, k ∈ ks -> ~ Py.occurs_in k s.
Proof.
  rewrite <- not_true_iff_false, any_in_spec. split.
  - intros H k Hin Hk. apply H. by exists k.
  - intros H [k [Hin Hk]]. by apply (H k).
Qed.

Lemma lit_dots : Py.lit "..." = [46; 46; 46]%N.
Proof. reflexivity. Qed.

Lemma decimal_value_range (c : N) (v : Z) :
  Py.decimal_value c = Some v -> 0 <= v <= 9.
Proof.
  unfold Py.decimal_value.
  destruct (find _ Py.decimal_zeros) as [z|] eqn:Hf; [| discriminate].
  apply find_some in Hf as [_ Hz]. apply andb_true_iff in Hz as [Hlo Hhi].
  apply N.leb_le in Hlo. apply N.ltb_lt in Hhi. intros [= <-]. lia.
Qed.

Lemma isdecimal_value (c : N) :
  Py.isdecimal c = true -> exists v, Py.decimal_value c = Some v /\ 0 <= v <= 9.
Proof.
  unfold Py.isdecimal. destruct (Py.decimal_value c) as [v|] eqn:Hv; [| discriminate].
  intros _. exists v. split; [done |]. by apply decimal_value_range in Hv.
Qed.

Lemma decimal_not_space (c : N) : Py.isdecimal c = true -> Py.isspace c = false.
Proof.
  intros Hd. destruct (Py.isspace c) eqn:Hs; [| done].
  unfold Py.isspace in Hs. apply existsb_exists in Hs as (x & Hin & Hx).
  apply N.eqb_eq in Hx. subst x. unfold Py.whitespace in Hin. cbn [In] in Hin.
  repeat (destruct Hin as [<- | Hin]; [by vm_compute in Hd |]). done.
Qed.

Lemma compare_refl (a : Py.str) : Py.compare a a = Eq.
Proof. induction a as [|x a IH]; [done |]. cbn. by rewrite N.compare_refl. Qed.

Lemma compare_eq (a b : Py.str) : Py.compare a b = Eq -> a = b.
Proof.
  revert b. induction a as [|x a IH]; intros [|y b]; cbn; try done.
  destruct (x ?= y)%N eqn:Hxy; try done.
  apply N.compare_eq in Hxy. intros H. f_equal; auto.
Qed.

Lemma compare_antisym (a b : Py.str) : Py.compare b a = CompOpp (Py.compare a b).
Proof.
  revert b. induction a as [|x a IH]; intros [|y b]; cbn; try done.
  rewrite (N.compare_antisym x y). destruct (x ?= y)%N; cbn; auto.
Qed.

Lemma compare_lt_trans (a b c : Py.str) :
  Py.compare a b = Lt -> Py.compare b c = Lt -> Py.compare a c = Lt.
Proof.
  revert b c. induction a as [|x a IH]; intros [|y b] [|z c]; cbn; try done.
  destruct (x ?= y)%N eqn:Hxy; try done; destruct (y ?= z)%N eqn:Hyz; try done.
  - apply N.compare_eq in Hxy, Hyz. subst. rewrite N.compare_refl. apply IH.
  - apply N.compare_eq in Hxy. subst. by rewrite Hyz.
  - apply N.compare_eq in Hyz. subst. by rewrite Hxy.
  - intros _ _. rewrite N.compare_lt_iff in Hxy, Hyz.
    assert (Hxz : (x ?= z)%N = Lt) by (apply N.compare_lt_iff; lia). by rewrite Hxz.
Qed.

(** [a >= b] on strings is transitive. *)
Lemma not_ltb_trans (a b c : Py.str) :
  Py.ltb a b = false -> Py.ltb b c = false -> Py.ltb a c = false.
Proof.
  unfold Py.ltb. intros Hab Hbc.
  destruct (Py.compare a c) eqn:Hac; try done.
  destruct (Py.compare a b) eqn:Hab'; try done;
    destruct (Py.compare b c) eqn:Hbc'; try done.
  - apply compare_eq in Hab', Hbc'. subst. by rewrite compare_refl in Hac.
  - apply compare_eq in Hab'. subst. congruence.
  - apply compare_eq in Hbc'. subst. congruence.
  - assert (Hca : Py.compare c a = Gt) by (rewrite compare_antisym, Hac; done).
    assert (Hba : Py.compare b a = Lt) by (rewrite compare_antisym, Hab'; done).
    assert (Hcb : Py.compare c b = Lt) by (rewrite compare_antisym, Hbc'; done).
    rewrite (compare_lt_trans c b a Hcb Hba) in Hca. discriminate.
Qed.

Lemma compare_app (x1 x2 r1 r2 : Py.str) :
  length x1 = length x2 ->
  Py.compare (x1 ++ r1) (x2 ++ r2) =
    match Py.compare x1 x2 with Eq => Py.compare r1 r2 | c => c end.
Proof.
  revert x2. induction x1 as [|a x1 IH]; intros [|b x2] Hlen; try done.
  cbn [app Py.compare]. destruct (a ?= b)%N; try done.
  apply IH. by injection Hlen.
Qed.

Lemma compare_app_same (x r1 r2 : Py.str) :
  Py.compare (x ++ r1) (x ++ r2) = Py.compare r1 r2.
Proof. rewrite compare_app by done. by rewrite compare_refl. Qed.

Lemma digit_char_compare (a b : Z) :
  0 <= a <= 9 -> 0 <= b <= 9 ->
  (Z.to_N (48 + a) ?= Z.to_N (48 + b))%N = (a ?= b).
Proof.
  intros Ha Hb. rewrite Z2N.inj_compare by lia. apply Z.add_compare_mono_l.
Qed.

(** Comparing two numbers by their last digit after their other digits. *)
Lemma compare_by_last_digit (a b : Z) :
  (a ?= b) = match (a / 10 ?= b / 10) with Eq => (a mod 10 ?= b mod 10) | c => c end.
Proof.
  destruct (Z.compare_spec (a / 10) (b / 10));
    [destruct (Z.compare_spec (a mod 10) (b mod 10)) | |];
    [apply Z.compare_eq_iff | apply Z.compare_lt_iff | apply Z.compare_gt_iff
    | apply Z.compare_lt_iff | apply Z.compare_gt_iff];
    Z.div_mod_to_equations; lia.
Qed.

Lemma pad2_compare (a b : Z) :
  0 <= a <= 99 -> 0 <= b <= 99 -> Py.compare (Py.pad2 a) (Py.pad2 b) = (a ?= b).
Proof.
  intros Ha Hb. unfold Py.pad2, Py.digit_char. cbn [Py.compare].
  change (10 ^ 1) with 10. change (10 ^ 0) with 1. rewrite !Z.div_1_r.
  rewrite !digit_char_compare by (Z.div_mod_to_equations; lia).
  rewrite (compare_by_last_digit a b).
  rewrite (Z.mod_small (a / 10) 10), (Z.mod_small (b / 10) 10)
    by (Z.div_mod_to_equations; lia).
  by destruct (a / 10 ?= b / 10), (a mod 10 ?= b mod 10).
Qed.

Lemma pad4_compare (a b : Z) :
  0 <= a <= 9999 -> 0 <= b <= 9999 -> Py.compare (Py.pad4 a) (Py.pad4 b) = (a ?= b).
Proof.
  intros Ha Hb. unfold Py.pad4, Py.digit_char. cbn [Py.compare].
  change (10 ^ 3) with 1000. change (10 ^ 2) with 100.
  change (10 ^ 1) with 10. change (10 ^ 0) with 1. rewrite !Z.div_1_r.
  rewrite !digit_char_compare by (Z.div_mod_to_equations; lia).
  rewrite (compare_by_last_digit a b).
  rewrite (compare_by_last_digit (a / 10) (b / 10)).
  rewrite (compare_by_last_digit (a / 10 / 10) (b / 10 / 10)).
  rewrite !Z.div_div by lia. change (10 * 10) with 100. change (10 * 100) with 1000.
  rewrite (Z.mod_small (a / 1000) 10), (Z.mod_small (b / 1000) 10)
    by (Z.div_mod_to_equations; lia).
  by destruct (a / 1000 ?= b / 1000), ((a / 100) mod 10 ?= (b / 100) mod 10),
    ((a / 10) mod 10 ?= (b / 10) mod 10), (a mod 10 ?= b mod 10).
Qed.

End PyFacts.

(** ** Dates *)

Module DateTimeFacts.
Import PyFacts.

Lemma days_in_month_range (y m : Z) : 28 <= DateTime.days_in_month y m <= 31.
Proof. unfold DateTime.days_in_month. repeat case_match; lia. Qed.

Lemma days_before_month_succ (y m : Z) :
  1 <= m -> DateTime.days_before_month y (m + 1)
            = DateTime.days_before_month y m + DateTime.days_in_month y m.
Proof.
  intros Hm. unfold DateTime.days_before_month.
  replace (Z.to_nat (m + 1 - 1)) with (S (Z.to_nat (m - 1))) by lia.
  rewrite seq_S, !map_app, fold_right_app. cbn [map fold_right].
  replace (Z.of_nat (1 + Z.to_nat (m - 1))) with m by lia.
  generalize (map (DateTime.days_in_month y) (map Z.of_nat (seq 1 (Z.to_nat (m - 1))))).
  intros l. induction l as [|x l IH]; cbn [fold_right]; lia.
Qed.

Lemma days_before_month_mono (y m1 m2 : Z) :
  1 <= m1 < m2 ->
  DateTime.days_before_month y m1 + DateTime.days_in_month y m1
    <= DateTime.days_before_month y m2.
Proof.
  intros [H1 H2]. replace m2 with (m1 + 1 + Z.of_nat (Z.to_nat (m2 - m1 - 1))) by lia.
  induction (Z.to_nat (m2 - m1 - 1)) as [|n IH].
  - rewrite Z.add_0_r, days_before_month_succ by lia. lia.
  - replace (m1 + 1 + Z.of_nat (S n)) with (m1 + 1 + Z.of_nat n + 1) by lia.
    rewrite days_before_month_succ by lia.
    pose proof (days_in_month_range y (m1 + 1 + Z.of_nat n)). lia.
Qed.

Lemma days_before_year_succ (y : Z) :
  DateTime.days_before_year (y + 1)
  = DateTime.days_before_year y + DateTime.days_before_month y 13.
Proof.
  assert (Hyear : DateTime.days_before_month y 13
                  = 365 + (if DateTime.is_leap y then 1 else 0)).
  { unfold DateTime.days_before_month, DateTime.days_in_month.
    generalize (DateTime.is_leap y). intros leap. by destruct leap. }
  rewrite Hyear. unfold DateTime.days_before_year, DateTime.is_leap.
  replace (y + 1 - 1) with y by lia.
  destruct (y mod 4 =? 0) eqn:H4; destruct (y mod 100 =? 0) eqn:H100;
    destruct (y mod 400 =? 0) eqn:H400; cbn [andb orb negb];
    rewrite ?Z.eqb_eq, ?Z.eqb_neq in *; Z.div_mod_to_equations; lia.
Qed.

Lemma valid_ranges (d : DateTime.datetime) :
  DateTime.valid d = true ->
  1 <= DateTime.year d <= 9999 /\ 1 <= DateTime.month d <= 12 /\
  1 <= DateTime.day d <= DateTime.days_in_month (DateTime.year d) (DateTime.month d) /\
  0 <= DateTime.hour d <= 23 /\ 0 <= DateTime.minute d <= 59 /\
  0 <= DateTime.second d <= 59 /\ 0 <= DateTime.microsecond d <= 999999.
Proof.
  unfold DateTime.valid. intros Hv. repeat (apply andb_true_iff in Hv as [Hv ?]). lia.
Qed.

Lemma days_before_year_mono (y1 y2 : Z) :
  y1 < y2 ->
  DateTime.days_before_year y1 + DateTime.days_before_month y1 13
    <= DateTime.days_before_year y2.
Proof.
  intros H. rewrite <- days_before_year_succ.
  unfold DateTime.days_before_year. Z.div_mod_to_equations. lia.
Qed.

(** The ordinal of a date orders dates as their (year, month, day) do. *)
Lemma toordinal_compare (a b : DateTime.datetime) :
  DateTime.valid a = true -> DateTime.valid b = true ->
  (DateTime.toordinal a ?= DateTime.toordinal b)
  = match DateTime.year a ?= DateTime.year b with
    | Eq => match DateTime.month a ?= DateTime.month b with
            | Eq => DateTime.day a ?= DateTime.day b
            | c => c
            end
    | c => c
    end.
Proof.
  intros Ha Hb.
  destruct (valid_ranges a Ha) as (Hya & Hma & Hda & _).
  destruct (valid_ranges b Hb) as (Hyb & Hmb & Hdb & _).
  unfold DateTime.toordinal.
  assert (Hend : forall d, 1 <= DateTime.month d <= 12 ->
            DateTime.days_before_month (DateTime.year d) (DateTime.month d)
            + DateTime.days_in_month (DateTime.year d) (DateTime.month d)
            <= DateTime.days_before_month (DateTime.year d) 13).
  { intros d Hm. destruct (decide (DateTime.month d = 12)) as [-> | Hne].
    - rewrite <- (days_before_month_succ _ 12) by lia. done.
    - apply days_before_month_mono. lia. }
  assert (Hstart : forall d, 1 <= DateTime.month d ->
            0 <= DateTime.days_before_month (DateTime.year d) (DateTime.month d)).
  { intros d Hm. destruct (decide (DateTime.month d = 1)) as [-> | Hne]; [done |].
    pose proof (days_before_month_mono (DateTime.year d) 1 (DateTime.month d)).
    pose proof (days_in_month_range (DateTime.year d) 1).
    change (DateTime.days_before_month (DateTime.year d) 1) with 0 in *. lia. }
  pose proof (Hend a Hma). pose proof (Hend b Hmb).
  pose proof (Hstart a (proj1 Hma)). pose proof (Hstart b (proj1 Hmb)).
  destruct (Z.compare_spec (DateTime.year a) (DateTime.year b)) as [Hy | Hy | Hy].
  - rewrite Hy in *.
    destruct (Z.compare_spec (DateTime.month a) (DateTime.month b)) as [Hm | Hm | Hm].
    + rewrite Hm. apply Z.add_compare_mono_l.
    + apply Z.compare_lt_iff.
      pose proof (days_before_month_mono (DateTime.year b) (DateTime.month a)
                    (DateTime.month b)). lia.
    + apply Z.compare_gt_iff.
      pose proof (days_before_month_mono (DateTime.year b) (DateTime.month b)
                    (DateTime.month a)). lia.
  - apply Z.compare_lt_iff.
    pose proof (days_before_year_mono _ _ Hy). lia.
  - apply Z.compare_gt_iff.
    pose proof (days_before_year_mono _ _ Hy). lia.
Qed.

(** The order of datetimes is the order of the instants they denote. *)
Lemma to_microseconds_compare (a b : DateTime.datetime) :
  DateTime.valid a = true -> DateTime.valid b = true ->
  (DateTime.to_microseconds a ?= DateTime.to_microseconds b) = DateTime.cmp a b.
Proof.
  intros Ha Hb.
  destruct (valid_ranges a Ha) as (_ & _ & _ & HHa & HMa & HSa & Husa).
  destruct (valid_ranges b Hb) as (_ & _ & _ & HHb & HMb & HSb & Husb).
  unfold DateTime.cmp, DateTime.key. cbn [DateTime.tuple_compare].
  pose proof (toordinal_compare a b Ha Hb) as Hord.
  unfold DateTime.to_microseconds.
  destruct (Z.compare_spec (DateTime.toordinal a) (DateTime.toordinal b)) as [Ho | Ho | Ho];
    destruct (DateTime.year a ?= DateTime.year b); try discriminate;
    try (by (apply Z.compare_lt_iff; lia)); try (by (apply Z.compare_gt_iff; lia));
    destruct (DateTime.month a ?= DateTime.month b); try discriminate;
    try (by (apply Z.compare_lt_iff; lia)); try (by (apply Z.compare_gt_iff; lia));
    destruct (DateTime.day a ?= DateTime.day b); try discriminate;
    try (by (apply Z.compare_lt_iff; lia)); try (by (apply Z.compare_gt_iff; lia)).
  rewrite Ho.
  destruct (Z.compare_spec (DateTime.hour a) (DateTime.hour b)) as [HH | HH | HH];
    [| apply Z.compare_lt_iff; lia | apply Z.compare_gt_iff; lia].
  destruct (Z.compare_spec (DateTime.minute a) (DateTime.minute b)) as [HM | HM | HM];
    [| apply Z.compare_lt_iff; lia | apply Z.compare_gt_iff; lia].
  destruct (Z.compare_spec (DateTime.second a) (DateTime.second b)) as [HS | HS | HS];
    [| apply Z.compare_lt_iff; lia | apply Z.compare_gt_iff; lia].
  rewrite HH, HM, HS.
  destruct (Z.compare_spec (DateTime.microsecond a) (DateTime.microsecond b));
    [apply Z.compare_eq_iff | apply Z.compare_lt_iff | apply Z.compare_gt_iff]; lia.
Qed.

Lemma leb_instants (a b : DateTime.datetime) :
  DateTime.valid a = true -> DateTime.valid b = true ->
  DateTime.leb a b = true <-> DateTime.to_microseconds a <= DateTime.to_microseconds b.
Proof.
  intros Ha Hb. unfold DateTime.leb. rewrite <- (to_microseconds_compare a b Ha Hb).
  unfold Z.le. by destruct (DateTime.to_microseconds a ?= DateTime.to_microseconds b).
Qed.

Lemma make_constructed (y m d H Mi : Z) (dt : DateTime.datetime) :
  DateTime.make y m d H Mi = Some dt -> DateTime.constructed dt.
Proof.
  unfold DateTime.make. destruct (DateTime.valid _) eqn:Hv; [| discriminate].
  intros [= <-]. by repeat split.
Qed.

Lemma constructed_ranges (d : DateTime.datetime) :
  DateTime.constructed d ->
  0 <= DateTime.year d <= 9999 /\ 0 <= DateTime.month d <= 99 /\
  0 <= DateTime.day d <= 99 /\ 0 <= DateTime.hour d <= 99 /\
  0 <= DateTime.minute d <= 99 /\ DateTime.second d = 0 /\
  DateTime.microsecond d = 0.
Proof.
  intros (Hv & Hs & Hus). unfold DateTime.valid in Hv.
  repeat (apply andb_true_iff in Hv as [Hv ?]).
  assert (DateTime.days_in_month (DateTime.year d) (DateTime.month d) <= 31).
  { unfold DateTime.days_in_month. repeat case_match; lia. }
  lia.
Qed.

Lemma isoformat_constructed (d : DateTime.datetime) :
  DateTime.constructed d ->
  DateTime.isoformat d =
    Py.pad4 (DateTime.year d) ++ Py.lit "-" ++ Py.pad2 (DateTime.month d) ++ Py.lit "-"
    ++ Py.pad2 (DateTime.day d) ++ Py.lit "T" ++ Py.pad2 (DateTime.hour d) ++ Py.lit ":"
    ++ Py.pad2 (DateTime.minute d) ++ Py.lit ":00".
Proof.
  intros (_ & Hs & Hus). unfold DateTime.isoformat. rewrite Hs, Hus. reflexivity.
Qed.

(** On constructed datetimes, the order of the ISO strings is the order
    of the datetimes. *)
Lemma isoformat_compare (a b : DateTime.datetime) :
  DateTime.constructed a -> DateTime.constructed b ->
  Py.compare (DateTime.isoformat a) (DateTime.isoformat b) = DateTime.cmp a b.
Proof.
  intros Ha Hb.
  rewrite (isoformat_constructed a Ha), (isoformat_constructed b Hb).
  destruct (constructed_ranges a Ha) as (Hy & Hm & Hd & HH & HM & Hs & Hus).
  destruct (constructed_ranges b Hb) as (Hy' & Hm' & Hd' & HH' & HM' & Hs' & Hus').
  unfold DateTime.cmp, DateTime.key. cbn [DateTime.tuple_compare].
  rewrite Hs, Hs', Hus, Hus'. cbn [Z.compare].
  rewrite compare_app by done. rewrite pad4_compare by done. rewrite compare_app_same.
  rewrite compare_app by done. rewrite pad2_compare by done. rewrite compare_app_same.
  rewrite compare_app by done. rewrite pad2_compare by done. rewrite compare_app_same.
  rewrite compare_app by done. rewrite pad2_compare by done. rewrite compare_app_same.
  rewrite compare_app by done. rewrite pad2_compare by done. rewrite compare_refl.
  reflexivity.
Qed.


Lemma datetime_compare_antisym (a b : DateTime.datetime) :
  DateTime.constructed a -> DateTime.constructed b ->
  DateTime.cmp b a = CompOpp (DateTime.cmp a b).
Proof.
  intros Ha Hb. rewrite <- !isoformat_compare by done. apply compare_antisym.
Qed.

End DateTimeFacts.

(** ** Regular expressions *)

Module ReFacts.
Import PyFacts.

Lemma run_length_take (k : Re.cclass) (s : Py.str) (n : nat) :
  (n <= Re.run_length k s)%nat ->
  Forall (fun c => Re.in_class k c = true) (take n s) /\ length (take n s) = n.
Proof.
  revert n. induction s as [|c s IH]; intros n Hn; simpl in Hn.
  - assert (n = O) by lia. subst. by split.
  - destruct n as [|n]; [by split |].
    destruct (Re.in_class k c) eqn:Hc; [| lia].
    destruct (IH n ltac:(lia)) as [Hall Hlen].
    cbn [take length]. split; [by constructor | by f_equal].
Qed.

Lemma most_le_run (a : Re.atom) (s : Py.str) :
  (Re.most a s <= Re.run_length (Re.a_class a) s)%nat.
Proof. unfold Re.most. destruct (Re.a_hi a); lia. Qed.

Lemma most_le_hi (a : Re.atom) (s : Py.str) (h : nat) :
  Re.a_hi a = Some h -> (Re.most a s <= h)%nat.
Proof. unfold Re.most. intros ->. lia. Qed.

Lemma give_back_sound (rest : Py.str -> option (list Py.str)) (a : Re.atom)
    (s : Py.str) (n : nat) (groups : list Py.str) :
  Re.give_back rest a s n = Some groups ->
  exists n' groups',
    (n' <= n)%nat /\ (Re.a_lo a <= n' \/ n' = n)%nat /\
    rest (drop n' s) = Some groups' /\
    groups = if Re.a_group a then take n' s :: groups' else groups'.
Proof.
  induction n as [|m IH]; cbn [Re.give_back].
  - destruct (rest (drop 0 s)) as [g|] eqn:Hr; [| discriminate].
    intros [= <-]. exists O, g. by repeat split; auto.
  - destruct (rest (drop (S m) s)) as [g|] eqn:Hr.
    + intros [= <-]. exists (S m), g. by repeat split; auto.
    + destruct (Re.a_lo a <=? m)%nat eqn:Hlo; [| discriminate].
      apply Nat.leb_le in Hlo. intros H.
      destruct (IH H) as (n' & g' & Hle & Hn' & Hrest & Hg).
      exists n', g'. repeat split; auto. left. lia.
Qed.

Lemma match_here_sound (p : Re.pattern) (s : Py.str) (groups : list Py.str) :
  Re.match_here p s = Some groups ->
  Forall2 Re.fits (List.filter Re.a_group p) groups.
Proof.
  revert s groups. induction p as [|a p IH]; intros s groups; cbn [Re.match_here].
  - intros [= <-]. constructor.
  - destruct (Re.most a s <? Re.a_lo a)%nat eqn:Hlo; [discriminate |].
    apply Nat.ltb_ge in Hlo. intros H.
    destruct (give_back_sound _ _ _ _ _ H) as (n & g & Hle & Hn & Hrest & ->).
    apply IH in Hrest. cbn [List.filter].
    destruct (Re.a_group a); [| exact Hrest].
    constructor; [| exact Hrest].
    destruct (run_length_take (Re.a_class a) s n) as [Hall Hlen].
    { pose proof (most_le_run a s). lia. }
    split; [exact Hall |]. rewrite Hlen. split; [lia |].
    intros h Hh. pose proof (most_le_hi a s h Hh). lia.
Qed.

Lemma search_sound (p : Re.pattern) (s : Py.str) (groups : list Py.str) :
  Re.search p s = Some groups ->
  Forall2 Re.fits (List.filter Re.a_group p) groups.
Proof.
  induction s as [|c s IH]; cbn [Re.search].
  - destruct (Re.match_here p []) eqn:Hm; [| discriminate].
    intros [= <-]. by apply match_here_sound in Hm.
  - destruct (Re.match_here p (c :: s)) eqn:Hm.
    + intros [= <-]. by apply match_here_sound in Hm.
    + exact IH.
Qed.

(** [int('20' + yy)] for two decimal digits. *)
Lemma int_century (year : Py.str) :
  Re.fits (Re.group Re.Digit 2 2) year ->
  exists yy, Py.int year = Some yy /\ 0 <= yy <= 99 /\
    Py.int (Py.lit "20" ++ year) = Some (2000 + yy).
Proof.
  intros (Hall & Hlo & Hhi). specialize (Hhi 2%nat eq_refl). cbn in Hlo.
  destruct year as [|c1 [|c2 [|c3 year]]]; cbn [length] in *; try lia.
  apply Forall_cons in Hall as [H1 Hall]. apply Forall_cons in Hall as [H2 _].
  apply isdecimal_value in H1 as (v1 & Hv1 & Hr1).
  apply isdecimal_value in H2 as (v2 & Hv2 & Hr2).
  exists (v1 * 10 + v2).
  change (Py.lit "20") with [50; 48]%N.
  unfold Py.int. cbn [app Py.int_digits].
  change (Py.decimal_value 50) with (Some 2). change (Py.decimal_value 48) with (Some 0).
  cbn [Py.int_digits]. rewrite Hv1, Hv2.
  split; [f_equal; lia |]. split; [lia |]. f_equal. lia.
Qed.

Lemma give_back_first (rest : Py.str -> option (list Py.str)) (a : Re.atom)
    (s : Py.str) (n : nat) (groups : list Py.str) :
  rest (drop n s) = Some groups ->
  Re.give_back rest a s n = Some (if Re.a_group a then take n s :: groups else groups).
Proof. intros H. destruct n; cbn [Re.give_back]; by rewrite H. Qed.

Lemma run_length_app (k : Re.cclass) (g rest : Py.str) :
  Forall (fun c => Re.in_class k c = true) g ->
  Re.run_length k (g ++ rest) = (length g + Re.run_length k rest)%nat.
Proof.
  induction 1 as [|c g Hc _ IH]; [done |].
  cbn [app Re.run_length length]. rewrite Hc, IH. lia.
Qed.

Lemma most_exact (a : Re.atom) (g rest : Py.str) :
  Re.fits a g -> Re.stops_after a g rest -> Re.most a (g ++ rest) = length g.
Proof.
  intros (Hall & _ & Hhi) Hstop. unfold Re.most. rewrite run_length_app by done.
  destruct Hstop as [Hh | Hrest].
  - rewrite Hh. lia.
  - rewrite Hrest. destruct (Re.a_hi a) as [h|]; [| lia].
    specialize (Hhi h eq_refl). lia.
Qed.

Lemma match_here_step (a : Re.atom) (p : Re.pattern) (g rest : Py.str)
    (groups : list Py.str) :
  Re.fits a g -> Re.stops_after a g rest ->
  Re.match_here p rest = Some groups ->
  Re.match_here (a :: p) (g ++ rest)
    = Some (if Re.a_group a then g :: groups else groups).
Proof.
  intros Hfits Hstop Hrest. cbn [Re.match_here].
  rewrite (most_exact a g rest Hfits Hstop).
  destruct Hfits as (_ & Hlo & _).
  destruct (length g <? Re.a_lo a)%nat eqn:Hlt; [apply Nat.ltb_lt in Hlt; lia |].
  rewrite (give_back_first _ a (g ++ rest) (length g) groups).
  - by rewrite take_app_length.
  - by rewrite drop_app_length.
Qed.

Lemma match_here_search (p : Re.pattern) (s : Py.str) (groups : list Py.str) :
  Re.match_here p s = Some groups -> Re.search p s = Some groups.
Proof. intros H. destruct s; cbn [Re.search]; by rewrite H. Qed.

Lemma search_skip_non_digits (p : Re.pattern) (pre s : Py.str) (lo : nat) (hi : option nat)
    (cap : bool) :
  Forall (fun c => Py.isdecimal c = false) pre ->
  Re.search (Re.mk_atom Re.Digit (S lo) hi cap :: p) (pre ++ s)
    = Re.search (Re.mk_atom Re.Digit (S lo) hi cap :: p) s.
Proof.
  induction 1 as [|c pre Hc _ IH]; [done |].
  cbn [app Re.search]. rewrite IH.
  assert (Hnone : Re.match_here (Re.mk_atom Re.Digit (S lo) hi cap :: p) (c :: pre ++ s) = None).
  { cbn [Re.match_here]. unfold Re.most. cbn [Re.a_class Re.a_hi Re.a_lo Re.run_length Re.in_class].
    rewrite Hc. destruct hi as [h|]; by rewrite ?Nat.min_0_r. }
  by rewrite Hnone.
Qed.

(** A check of [fits] by computation. *)
Lemma fits_decide (a : Re.atom) (g : Py.str) :
  forallb (Re.in_class (Re.a_class a)) g
  && (Re.a_lo a <=? length g)%nat
  && match Re.a_hi a with Some h => (length g <=? h)%nat | None => true end = true ->
  Re.fits a g.
Proof.
  rewrite !andb_true_iff, forallb_forall, Nat.leb_le. intros [[Hall Hlo] Hhi].
  split; [| split; [exact Hlo |]].
  - apply Forall_forall. intros c Hc. apply Hall. by apply list_elem_of_In.
  - intros h Hh. rewrite Hh in Hhi. by apply Nat.leb_le.
Qed.

Lemma digit_free_forallb (text : Py.str) :
  forallb (fun c => negb (Py.isdecimal c)) text = true ->
  Forall (fun c => Py.isdecimal c = false) text.
Proof.
  rewrite forallb_forall, Forall_forall. intros H c Hc.
  apply negb_true_iff, H. by apply list_elem_of_In.
Qed.

Lemma search_digit_free (p : Re.pattern) (text : Py.str) (lo : nat) (hi : option nat)
    (cap : bool) :
  Forall (fun c => Py.isdecimal c = false) text ->
  Re.search (Re.mk_atom Re.Digit (S lo) hi cap :: p) text = None.
Proof.
  intros Hfree. rewrite <- (app_nil_r text), search_skip_non_digits by done.
  cbn [Re.search Re.match_here]. unfold Re.most. cbn [Re.run_length Re.a_class Re.a_hi Re.a_lo].
  destruct hi as [h|]; [rewrite Nat.min_0_r |]; reflexivity.
Qed.

End ReFacts.

(** ** The database and the loops *)

Module RuntimeFacts.
Import Runtime.

Lemma count_where_pos (column : news_item -> Py.str) (v : Py.str) (rows : list news_item) :
  (count_where column v rows >? 0) = true <-> exists r, r ∈ rows /\ column r = v.
Proof.
  unfold count_where. rewrite Z.gtb_ltb, Z.ltb_lt. split.
  - intros H. destruct (filter (fun r => column r = v) rows) as [|r l] eqn:Hf.
    + simpl in H. lia.
    + assert (Hr : r ∈ filter (fun r => column r = v) rows) by (rewrite Hf; left).
      apply list_elem_of_filter in Hr as [Hv Hin]. by exists r.
  - intros [r [Hin Hv]].
    assert (Hr : r ∈ filter (fun r => column r = v) rows)
      by (apply list_elem_of_filter; done).
    destruct (filter (fun r => column r = v) rows); [by apply elem_of_nil in Hr |].
    simpl. lia.
Qed.

Lemma db_operation_ok (E : env) (q : sql) (w : world) :
  db_fault E (length (sql_log w)) = false -> db_operation E q w = (Ok tt, log_sql q w).
Proof. intros H. unfold db_operation. by rewrite H. Qed.

Lemma db_operation_raises (E : env) (q : sql) (w : world) :
  db_fault E (length (sql_log w)) = true ->
  db_operation E q w = (Raise DatabaseError, log_sql q w).
Proof. intros H. unfold db_operation. by rewrite H. Qed.

Lemma length_sql_log_log_sql (q : sql) (w : world) :
  length (sql_log (log_sql q w)) = S (length (sql_log w)).
Proof. unfold log_sql. cbn [sql_log]. rewrite length_app. simpl. lia. Qed.

Lemma insert_item_cases (E : env) (r : news_item) (w : world) :
  (exists e w', insert_item E r w = (Raise e, w') /\ db w' = db w /\
     http_log w' = http_log w) \/
  (exists w' row, insert_item E r w = (Ok tt, w') /\ http_log w' = http_log w /\
     ~ Exists (fun x => url x = url r \/ hash_id x = hash_id r) (news_items (db w)) /\
     news_items (db w') = news_items (db w) ++ [row] /\
     title row = title r /\ url row = url r /\ hash_id row = hash_id r).
Proof.
  unfold insert_item, bind.
  destruct (db_fault E (length (sql_log w))) eqn:H0.
  - rewrite (db_operation_raises E _ w H0). left. eexists _, _. repeat split.
  - rewrite (db_operation_ok E _ w H0).
    change (db (log_sql (InsertItem r) w)) with (db w).
    destruct (bool_decide _) eqn:Hex.
    + left. eexists _, _. repeat split.
    + right. apply bool_decide_eq_false in Hex.
      eexists _, _. split; [reflexivity |]. repeat split; done.
Qed.

Lemma for_each_outcome {A B} (f : B -> A -> M B) (P : B -> Prop) (Q : A -> Prop)
    (l : list A) (acc : B) (w : world) :
  (forall acc x w, Q x -> P acc -> exists acc' w', f acc x w = (Ok acc', w') /\ P acc') ->
  Forall Q l -> P acc ->
  exists acc' w', for_each f l acc w = (Ok acc', w') /\ P acc'.
Proof.
  intros Hstep Hall. revert acc w.
  induction Hall as [|x l Hx _ IH]; intros acc w Hacc; cbn [for_each].
  - by exists acc, w.
  - unfold bind. destruct (Hstep acc x w Hx Hacc) as (acc1 & w1 & -> & Hacc1).
    apply IH, Hacc1.
Qed.

(** An indexed loop invariant: [I n] holds of the accumulator and the
    world after [n] rounds. *)
Lemma for_each_counted {A B} (f : B -> A -> M B) (I : nat -> B -> world -> Prop)
    (l : list A) (n : nat) (acc : B) (w : world) :
  (forall n acc x w, x ∈ l -> I n acc w ->
     exists acc' w', f acc x w = (Ok acc', w') /\ I (S n) acc' w') ->
  I n acc w ->
  exists acc' w', for_each f l acc w = (Ok acc', w') /\ I (n + length l)%nat acc' w'.
Proof.
  revert n acc w. induction l as [|x l IH]; intros n acc w Hstep Hacc; cbn [for_each length].
  - exists acc, w. by rewrite Nat.add_0_r.
  - unfold bind. destruct (Hstep n acc x w) as (acc1 & w1 & -> & Hacc1); [left | done |].
    rewrite <- Nat.add_succ_comm. apply IH; [| done].
    intros n0 acc0 x0 w0 Hx0. apply Hstep. by right.
Qed.

Lemma for_each_invariant {A B} (f : B -> A -> M B) (I : B -> world -> Prop)
    (l : list A) (acc : B) (w : world) :
  (forall acc x w, x ∈ l -> I acc w -> exists acc' w', f acc x w = (Ok acc', w') /\ I acc' w') ->
  I acc w ->
  exists acc' w', for_each f l acc w = (Ok acc', w') /\ I acc' w'.
Proof.
  intros Hstep Hacc.
  destruct (for_each_counted f (fun _ => I) l 0 acc w) as (acc' & w' & Hrun & HI); eauto.
Qed.

End RuntimeFacts.

(** ** The classification pipeline *)

Module ProcessorFacts.
Import Runtime Processor PyFacts.

(** C7. When the Stage-1 call succeeds, the relevance verdict is a pure
    keyword veto on the response text: not relevant exactly when some
    keyword of the denylist occurs in it, relevant exactly when none
    does; the response text itself is the reason. *)
Theorem relevance_is_keyword_veto (E : env) (w : world) (content title text : Py.str) :
  llm_reply E (length (model_log w)) (relevance_request content title) = Some text ->
  exists is_relevant w',
    check_article_relevance E content title w = (Ok (is_relevant, text), w') /\
    (is_relevant = false <->
       exists k, k ∈ non_relevant_keywords /\ Py.occurs_in k text) /\
    (is_relevant = true <->
       forall k, k ∈ non_relevant_keywords -> ~ Py.occurs_in k text).
Proof.
  intros Hreply.
  exists (negb (Py.any_in non_relevant_keywords text)). eexists. split.
  - unfold check_article_relevance, try_except, bind, messages_create.
    rewrite Hreply. reflexivity.
  - rewrite negb_false_iff, negb_true_iff.
    split; [apply PyFacts.any_in_spec | apply PyFacts.any_in_false].
Qed.

Lemma relevance_is_keyword_veto_witness :
  exists is_relevant w',
    check_article_relevance Sample.quiet (Py.lit "body") (Py.lit "headline")
      (Sample.fresh Sample.empty_db)
    = (Ok (is_relevant, Py.lit "זהו נושא ספורטיבי"), w') /\
    (is_relevant = false <->
       exists k, k ∈ non_relevant_keywords /\ Py.occurs_in k (Py.lit "זהו נושא ספורטיבי")) /\
    (is_relevant = true <->
       forall k, k ∈ non_relevant_keywords -> ~ Py.occurs_in k (Py.lit "זהו נושא ספורטיבי")).
Proof.
  apply (relevance_is_keyword_veto Sample.quiet (Sample.fresh Sample.empty_db)
           (Py.lit "body") (Py.lit "headline")).
  reflexivity.
Defined.

Lemma verify_research_quality_spec (r : Py.str) :
  verify_research_quality r = true <->
    (exists k, k ∈ quality_indicators /\ Py.occurs_in k r) /\
    ~ (Py.len r < 150) /\
    ~ Py.occurs_in (Py.lit "לא מצאתי") r.
Proof.
  unfold verify_research_quality.
  rewrite !andb_true_iff, !negb_true_iff, PyFacts.any_in_spec.
  rewrite Z.ltb_ge, <- not_true_iff_false, PyFacts.contains_spec.
  rewrite <- Z.nlt_ge. tauto.
Qed.

(** C4. The first research result passes the quality gate exactly when it
    contains a source-citation marker, is not under 150 characters and
    does not contain the nothing-found marker.  When it passes, the call
    log grows by the research call alone and the result is that text.
    When it fails, the log grows by the research call and exactly one
    retry call, and whatever the retry answers is the result, unchecked
    (the fixed failure text if the retry call itself fails). *)
Theorem research_gate_and_single_retry (E : env) (w : world)
    (topic summary first : Py.str) :
  llm_reply E (length (model_log w)) (research_request topic summary) = Some first ->
  (verify_research_quality first = true <->
     (exists k, k ∈ quality_indicators /\ Py.occurs_in k first) /\
     ~ (Py.len first < 150) /\
     ~ Py.occurs_in (Py.lit "לא מצאתי") first) /\
  exists result w',
    research_topic E topic summary w = (Ok result, w') /\
    if verify_research_quality first then
      result = first /\
      model_log w' = model_log w ++ [research_request topic summary]
    else
      model_log w' =
        model_log w ++ [research_request topic summary; retry_request topic] /\
      result =
        match llm_reply E (S (length (model_log w))) (retry_request topic) with
        | Some second => second
        | None => Py.lit "Research failed"
        end.
Proof.
  intros Hreply. split; [apply verify_research_quality_spec |].
  unfold research_topic, try_except, bind, messages_create.
  rewrite Hreply. destruct (verify_research_quality first) eqn:Hq; cbn [negb].
  - eexists _, _. split; [reflexivity |]. by split.
  - unfold log_model at 1 2. cbn [model_log]. rewrite length_app, Nat.add_1_r.
    destruct (llm_reply E (S (length (model_log w))) (retry_request topic)) as [second|];
      eexists _, _; (split; [reflexivity |]); unfold log_model; cbn [model_log];
      by rewrite <- app_assoc.
Qed.

Lemma research_gate_and_single_retry_witness :
  (verify_research_quality (Py.lit "לא מצאתי מידע נוסף") = true <->
     (exists k, k ∈ quality_indicators /\ Py.occurs_in k (Py.lit "לא מצאתי מידע נוסף")) /\
     ~ (Py.len (Py.lit "לא מצאתי מידע נוסף") < 150) /\
     ~ Py.occurs_in (Py.lit "לא מצאתי") (Py.lit "לא מצאתי מידע נוסף")) /\
  exists result w',
    research_topic Sample.quiet (Py.lit "topic") (Py.lit "summary")
      (Sample.fresh Sample.empty_db) = (Ok result, w') /\
    if verify_research_quality (Py.lit "לא מצאתי מידע נוסף") then
      result = Py.lit "לא מצאתי מידע נוסף" /\
      model_log w' = [research_request (Py.lit "topic") (Py.lit "summary")]
    else
      model_log w' =
        [research_request (Py.lit "topic") (Py.lit "summary");
         retry_request (Py.lit "topic")] /\
      result =
        match llm_reply Sample.quiet 1 (retry_request (Py.lit "topic")) with
        | Some second => second
        | None => Py.lit "Research failed"
        end.
Proof.
  apply (research_gate_and_single_retry Sample.quiet (Sample.fresh Sample.empty_db)
           (Py.lit "topic") (Py.lit "summary")).
  reflexivity.
Defined.

Lemma check_not_relevant_inv (E : env) (w w1 : world) (content title reason : Py.str) :
  check_article_relevance E content title w = (Ok (false, reason), w1) ->
  llm_reply E (length (model_log w)) (relevance_request content title) = Some reason /\
  w1 = log_model (relevance_request content title) w.
Proof.
  unfold check_article_relevance, try_except, bind, messages_create, ret.
  destruct (llm_reply E _ _) as [text|]; intros H.
  - injection H as _ <- <-. done.
  - discriminate.
Qed.

Lemma analyze_not_relevant (E : env) (w w1 : world) (content title reason : Py.str) :
  check_article_relevance E content title w = (Ok (false, reason), w1) ->
  analyze_article_with_anthropic E content title w =
    (Ok (not_relevant_result reason (now_at E (ticks w1))), tick w1).
Proof.
  intros H. unfold analyze_article_with_anthropic, bind. rewrite H. reflexivity.
Qed.

Lemma not_relevant_result_lookup (reason : Py.str) (now : DateTime.datetime) :
  not_relevant_result reason now !! "research_notes" = None /\
  not_relevant_result reason now !! "technical_analysis" = None /\
  not_relevant_result reason now !! "journalistic_article" = None /\
  not_relevant_result reason now !! "is_relevant" = Some (VBool false).
Proof.
  unfold not_relevant_result. repeat split.
  all: repeat (rewrite lookup_insert_ne by done);
    first [apply lookup_empty | apply lookup_insert_eq].
Qed.

Lemma not_relevant_result_truth (reason : Py.str) (now : DateTime.datetime) :
  truth (VDict (not_relevant_result reason now)) = true.
Proof.
  unfold truth, not_relevant_result. rewrite negb_true_iff, bool_decide_eq_false.
  rewrite dom_insert_L. set_solver.
Qed.

Lemma update_not_relevant (E : env) (w : world) (i : Z) (d : gmap string pyval) :
  d !! "is_relevant" = Some (VBool false) ->
  db_fault E (length (sql_log w)) = false ->
  db_fault E (S (length (sql_log w))) = false ->
  exists w',
    update_article_as_processed E i d w = (Ok tt, w') /\
    model_log w' = model_log w /\
    news_items (db w') = map (set_processed i 2 (json_dumps E d)) (news_items (db w)).
Proof.
  intros Hd H0 H1.
  unfold update_article_as_processed, try_except, bind, connect, update_processed,
    bind, db_operation.
  rewrite H0. unfold log_sql at 1 2. cbn [sql_log].
  rewrite length_app, Nat.add_1_r, H1, Hd.
  eexists. split; [reflexivity|]. split; reflexivity.
Qed.

Lemma update_keeps_model_log (E : env) (w : world) (i : Z) (d : gmap string pyval) :
  exists w', update_article_as_processed E i d w = (Ok tt, w') /\
  model_log w' = model_log w.
Proof.
  unfold update_article_as_processed, try_except, bind, connect, update_processed,
    bind, db_operation.
  destruct (db_fault E (length (sql_log w))).
  - eexists. split; reflexivity.
  - destruct (db_fault E _); eexists; split; reflexivity.
Qed.

Lemma update_article_as_processed_fails (E : env) (w : world) (i : Z)
    (d : gmap string pyval) :
  db_fault E (length (sql_log w)) = true \/ db_fault E (S (length (sql_log w))) = true ->
  exists w',
    update_article_as_processed E i d w = (Ok tt, w') /\
    model_log w' = model_log w /\ http_log w' = http_log w /\ db w' = db w.
Proof.
  intros Hf.
  unfold update_article_as_processed, try_except, bind, connect, update_processed,
    bind, db_operation.
  destruct (db_fault E (length (sql_log w))) eqn:H0.
  - eexists. split; [reflexivity |]. done.
  - destruct Hf as [Hf | Hf]; [discriminate |].
    unfold log_sql at 1 2. cbn [sql_log]. rewrite length_app, Nat.add_1_r, Hf.
    eexists. split; [reflexivity |]. done.
Qed.

(** C2. An item that Stage 1 marks not relevant goes no further: the
    analysis sends the Stage-1 request and no other (the model log grows
    by that one entry, and storing the result adds none), the returned
    dictionary has none of the keys [research_notes],
    [technical_analysis], [journalistic_article], and [is_relevant] is
    [False]; the loop body counts it as not relevant.  When the database
    accepts the connection and the update, the row of that id is left
    with [isProcessed = 2] and the serialized result.  When it refuses
    either of them, the error is swallowed and the table is left as it
    was: the row is not marked. *)
Theorem not_relevant_halts_after_stage_one (E : env) (w w1 : world)
    (article : unprocessed) (content reason : Py.str) (c : counters) :
  u_clean_content article = Some content ->
  check_article_relevance E content (u_title article) w = (Ok (false, reason), w1) ->
  exists result w2,
    analyze_article_with_anthropic E content (u_title article) w = (Ok result, w2) /\
    model_log w2 = model_log w ++ [relevance_request content (u_title article)] /\
    result !! "research_notes" = None /\
    result !! "technical_analysis" = None /\
    result !! "journalistic_article" = None /\
    result !! "is_relevant" = Some (VBool false) /\
    exists c' w3,
      process_article E c article w = (Ok c', w3) /\
      model_log w3 = model_log w2 /\
      non_relevant_count c' = non_relevant_count c + 1 /\
      (db_fault E (length (sql_log w)) = false ->
       db_fault E (S (length (sql_log w))) = false ->
       forall r, r ∈ news_items (db w) -> id r = u_id article ->
         exists r', r' ∈ news_items (db w3) /\ id r' = u_id article /\
           isProcessed r' = 2 /\ process_data r' = json_dumps E result) /\
      (db_fault E (length (sql_log w)) = true \/
       db_fault E (S (length (sql_log w))) = true ->
       db w3 = db w).
Proof.
  intros Hcontent Hcheck.
  pose proof (analyze_not_relevant _ _ _ _ _ _ Hcheck) as Hanalyze.
  destruct (check_not_relevant_inv _ _ _ _ _ _ Hcheck) as [_ Hw1].
  destruct (not_relevant_result_lookup reason (now_at E (ticks w1)))
    as (Hr & Ht & Hj & Hrel).
  eexists _, _. split; [exact Hanalyze |].
  split; [by rewrite Hw1 |].
  do 4 (split; [assumption |]).
  unfold process_article. rewrite Hcontent. unfold bind.
  rewrite Hanalyze, not_relevant_result_truth.
  set (w2 := tick w1).
  set (d := not_relevant_result reason (now_at E (ticks w1))) in *.
  destruct (decide (db_fault E (length (sql_log w)) = false
                    /\ db_fault E (S (length (sql_log w))) = false)) as [[H0 H1]|Hf].
  - destruct (update_not_relevant E w2 (u_id article) d Hrel) as (w3 & Hupd & Hlog & Hrows).
    { subst w2 w1. exact H0. } { subst w2 w1. exact H1. }
    rewrite Hupd, Hrel. eexists _, w3. split; [reflexivity |].
    split; [exact Hlog |]. split; [reflexivity |]. split.
    + intros _ _ r Hr_in Hid.
      exists (set_processed (u_id article) 2 (json_dumps E d) r). split.
      * rewrite Hrows. apply list_elem_of_fmap. exists r. split; [done |].
        subst w2 w1. exact Hr_in.
      * unfold set_processed. rewrite bool_decide_eq_true_2 by done. done.
    + intros [Hf | Hf]; congruence.
  - assert (Hfault : db_fault E (length (sql_log w2)) = true \/
                     db_fault E (S (length (sql_log w2))) = true).
    { subst w2 w1. cbn [tick log_model sql_log].
      destruct (db_fault E (length (sql_log w))) eqn:H0; [by left |].
      destruct (db_fault E (S (length (sql_log w)))) eqn:H1; [by right |].
      exfalso. by apply Hf. }
    destruct (update_article_as_processed_fails E w2 (u_id article) d Hfault)
      as (w3 & Hupd & Hlog & _ & Hdb).
    rewrite Hupd, Hrel. eexists _, w3. split; [reflexivity |].
    split; [exact Hlog |]. split; [reflexivity |]. split.
    + intros H0 H1. exfalso. apply Hf. by split.
    + intros _. rewrite Hdb. subst w2 w1. reflexivity.
Qed.

Lemma not_relevant_halts_after_stage_one_witness :
  exists result w2,
    analyze_article_with_anthropic Sample.quiet (Py.lit "body") (u_title Sample.pending)
      (Sample.fresh Sample.one_row_db) = (Ok result, w2) /\
    model_log w2 = [relevance_request (Py.lit "body") (u_title Sample.pending)] /\
    result !! "is_relevant" = Some (VBool false) /\
    exists c' w3,
      process_article Sample.quiet (mk_counters 0 0 0 0) Sample.pending
        (Sample.fresh Sample.one_row_db) = (Ok c', w3) /\
      non_relevant_count c' = 0 + 1 /\
      exists r', r' ∈ news_items (db w3) /\ id r' = u_id Sample.pending /\
        isProcessed r' = 2.
Proof.
  destruct (not_relevant_halts_after_stage_one Sample.quiet
              (Sample.fresh Sample.one_row_db)
              (log_model (relevance_request (Py.lit "body") (u_title Sample.pending))
                 (Sample.fresh Sample.one_row_db))
              Sample.pending (Py.lit "body") (Py.lit "זהו נושא ספורטיבי")
              (mk_counters 0 0 0 0))
    as (result & w2 & Ha & Hlog & _ & _ & _ & Hrel & c' & w3 & Hp & _ & Hc & Hstored & _).
  - reflexivity.
  - vm_compute. reflexivity.
  - exists result, w2. split; [exact Ha |]. split; [exact Hlog |]. split; [exact Hrel |].
    exists c', w3. split; [exact Hp |]. split; [exact Hc |].
    destruct (Hstored eq_refl eq_refl Sample.stored) as (r' & Hin & Hid & Hv & _).
    + left.
    + reflexivity.
    + by exists r'.
Defined.

(** An item that Stage 1 marks not relevant is not always stored as
    such: on the sample table, with a database that raises on every
    operation, Stage 1 marks the article as not relevant and the loop
    counts it so, yet its row is still the only row of the table, at
    [isProcessed = 0]. *)
Lemma not_relevant_item_left_pending :
  check_article_relevance Sample.broken_db (Py.lit "body") (u_title Sample.pending)
    (Sample.fresh Sample.one_row_db)
  = (Ok (false, Py.lit "זהו נושא ספורטיבי"),
     log_model (relevance_request (Py.lit "body") (u_title Sample.pending))
       (Sample.fresh Sample.one_row_db)) /\
  u_clean_content Sample.pending = Some (Py.lit "body") /\
  (exists c' w3,
     process_article Sample.broken_db (mk_counters 0 0 0 0) Sample.pending
       (Sample.fresh Sample.one_row_db) = (Ok c', w3) /\
     non_relevant_count c' = 1 /\
     news_items (db w3) = [Sample.stored]) /\
  id Sample.stored = u_id Sample.pending /\
  isProcessed Sample.stored = 0.
Proof.
  split; [vm_compute; reflexivity |]. split; [reflexivity |].
  split; [| split; reflexivity].
  destruct (update_article_as_processed_fails Sample.broken_db
              (tick (log_model (relevance_request (Py.lit "body") (u_title Sample.pending))
                       (Sample.fresh Sample.one_row_db)))
              (u_id Sample.pending)
              (not_relevant_result (Py.lit "זהו נושא ספורטיבי") Sample.morning))
    as (w3 & Hupd & _ & _ & Hdb); [left; reflexivity |].
  exists (mk_counters 1 0 1 0), w3. split; [| split; [reflexivity | by rewrite Hdb]].
  unfold process_article. change (u_clean_content Sample.pending) with (Some (Py.lit "body")).
  cbv iota beta. unfold bind.
  rewrite (analyze_not_relevant Sample.broken_db (Sample.fresh Sample.one_row_db)
             (log_model (relevance_request (Py.lit "body") (u_title Sample.pending))
                (Sample.fresh Sample.one_row_db))
             (Py.lit "body") (u_title Sample.pending) (Py.lit "זהו נושא ספורטיבי"))
    by (vm_compute; reflexivity).
  rewrite not_relevant_result_truth.
  change (now_at Sample.broken_db _) with Sample.morning.
  rewrite Hupd.
  rewrite (proj2 (proj2 (proj2 (not_relevant_result_lookup _ _)))).
  reflexivity.
Qed.

(** *** The stages of the analysis, whatever the model answers *)

Import RuntimeFacts.

Lemma check_article_relevance_outcome (E : env) (content title : Py.str) (w : world) :
  exists verdict reason,
    check_article_relevance E content title w
      = (Ok (verdict, reason), log_model (relevance_request content title) w).
Proof.
  unfold check_article_relevance, try_except, bind, messages_create, ret.
  destruct (llm_reply E _ _); eexists _, _; reflexivity.
Qed.

Lemma research_topic_outcome (E : env) (topic summary : Py.str) (w : world) :
  exists findings w',
    research_topic E topic summary w = (Ok findings, w') /\
    (w' = log_model (research_request topic summary) w \/
     w' = log_model (retry_request topic) (log_model (research_request topic summary) w)).
Proof.
  unfold research_topic, try_except, bind, messages_create, ret.
  destruct (llm_reply E _ _) as [first|].
  - destruct (verify_research_quality first); cbn [negb].
    + eexists _, _. split; [reflexivity | by left].
    + destruct (llm_reply E _ _); eexists _, _; (split; [reflexivity | by right]).
  - eexists _, _. split; [reflexivity | by left].
Qed.

Lemma create_technical_analysis_outcome (E : env) (text findings : Py.str) (w : world) :
  exists technical,
    create_technical_analysis E text findings w
      = (Ok technical,
         log_model (mk_request haiku 2000 (Some 3)
                      (AnalysisPrompt (take 2000 text) findings)) w).
Proof.
  unfold create_technical_analysis, try_except, messages_create, ret.
  destruct (llm_reply E _ _); eexists; reflexivity.
Qed.

Lemma create_journalistic_article_outcome (E : env) (technical : Py.str) (w : world) :
  exists final,
    create_journalistic_article E technical w
      = (Ok final,
         log_model (mk_request haiku 2000 (Some 4) (JournalisticPrompt technical)) w).
Proof.
  unfold create_journalistic_article, try_except, messages_create, ret.
  destruct (llm_reply E _ _); eexists; reflexivity.
Qed.

(** The stages after the first, for an article that passed it. *)
Lemma analyze_relevant (E : env) (w w1 : world) (content title reason : Py.str) :
  check_article_relevance E content title w = (Ok (true, reason), w1) ->
  exists findings technical final stage2 w2,
    analyze_article_with_anthropic E content title w
      = (Ok (final_result technical final findings (now_at E (ticks w))), w2) /\
    (stage2 = [research_request title (take 500 content)] \/
     stage2 = [research_request title (take 500 content); retry_request title]) /\
    model_log w2 =
      model_log w ++ [relevance_request content title] ++ stage2 ++
        [mk_request haiku 2000 (Some 3) (AnalysisPrompt (take 2000 content) findings);
         mk_request haiku 2000 (Some 4) (JournalisticPrompt technical)] /\
    db w2 = db w /\ sql_log w2 = sql_log w /\ http_log w2 = http_log w /\
    ticks w2 = S (ticks w).
Proof.
  intros Hcheck.
  destruct (check_article_relevance_outcome E content title w) as (b & r & Hc).
  rewrite Hcheck in Hc. injection Hc as _ _ Hw1.
  unfold analyze_article_with_anthropic, bind. rewrite Hcheck. cbn [negb].
  destruct (research_topic_outcome E title (take 500 content) w1)
    as (findings & wr & -> & Hwr).
  destruct (create_technical_analysis_outcome E content findings wr) as (technical & ->).
  destruct (create_journalistic_article_outcome E technical
              (log_model (mk_request haiku 2000 (Some 3)
                 (AnalysisPrompt (take 2000 content) findings)) wr)) as (final & ->).
  unfold datetime_now, ret.
  exists findings, technical, final.
  destruct Hwr as [-> | ->]; subst w1.
  - exists [research_request title (take 500 content)]. eexists.
    split; [reflexivity |]. split; [by left |].
    unfold tick, log_model. cbn [model_log db sql_log http_log ticks].
    repeat split. by rewrite <- !app_assoc.
  - exists [research_request title (take 500 content); retry_request title]. eexists.
    split; [reflexivity |]. split; [by right |].
    unfold tick, log_model. cbn [model_log db sql_log http_log ticks].
    repeat split. by rewrite <- !app_assoc.
Qed.

Lemma final_result_lookup (technical final findings : Py.str) (now : DateTime.datetime) :
  final_result technical final findings now !! "research_notes" = Some (VStr findings) /\
  final_result technical final findings now !! "technical_analysis" = Some (VStr technical) /\
  final_result technical final findings now !! "journalistic_article" = Some (VStr final) /\
  final_result technical final findings now !! "is_relevant" = Some (VBool true).
Proof.
  unfold final_result. repeat split.
  all: repeat (rewrite lookup_insert_ne by done); apply lookup_insert_eq.
Qed.

Lemma final_result_truth (technical final findings : Py.str) (now : DateTime.datetime) :
  truth (VDict (final_result technical final findings now)) = true.
Proof.
  unfold truth, final_result. rewrite negb_true_iff, bool_decide_eq_false.
  rewrite dom_insert_L. set_solver.
Qed.

Lemma analyze_outcome (E : env) (w : world) (content title : Py.str) :
  exists result w1 verdict,
    analyze_article_with_anthropic E content title w = (Ok result, w1) /\
    result !! "is_relevant" = Some (VBool verdict) /\
    truth (VDict result) = true /\
    db w1 = db w /\ sql_log w1 = sql_log w /\ http_log w1 = http_log w /\
    (length (model_log w) + 1 <= length (model_log w1) <= length (model_log w) + 5)%nat.
Proof.
  destruct (check_article_relevance_outcome E content title w) as (verdict & reason & Hc).
  destruct verdict.
  - destruct (analyze_relevant E w _ content title reason Hc)
      as (findings & technical & final & stage2 & w2 & Ha & Hs & Hlog & Hdb & Hsql & Hhttp & _).
    exists (final_result technical final findings (now_at E (ticks w))), w2, true.
    split; [exact Ha |]. split; [apply final_result_lookup |].
    split; [apply final_result_truth |]. do 3 (split; [done |]).
    rewrite Hlog, !length_app. destruct Hs as [-> | ->]; cbn [length]; lia.
  - pose proof (analyze_not_relevant E w _ content title reason Hc) as Ha.
    eexists _, _, false. split; [exact Ha |]. split; [apply not_relevant_result_lookup |].
    split; [apply not_relevant_result_truth |].
    unfold tick, log_model. cbn [db sql_log http_log model_log].
    do 3 (split; [done |]). rewrite length_app. cbn [length]. lia.
Qed.

(** X1. The analysis never raises and never returns an empty dictionary.
    Its result carries [is_relevant]; the first model call is the
    relevance request; an article found not relevant costs that call
    alone and gets none of the three text fields, a relevant one costs
    three or four further calls and gets all three.  The database, the
    log of database operations and the log of page requests are left as
    they were. *)
Theorem analysis_call_budget (E : env) (w : world) (content title : Py.str) :
  exists result w' verdict calls,
    analyze_article_with_anthropic E content title w = (Ok result, w') /\
    result !! "is_relevant" = Some (VBool verdict) /\
    truth (VDict result) = true /\
    model_log w' = model_log w ++ relevance_request content title :: calls /\
    (if verdict
     then (length calls = 3 \/ length calls = 4)%nat /\
          (exists findings, result !! "research_notes" = Some (VStr findings)) /\
          (exists technical, result !! "technical_analysis" = Some (VStr technical)) /\
          (exists final, result !! "journalistic_article" = Some (VStr final))
     else calls = [] /\
          result !! "research_notes" = None /\
          result !! "technical_analysis" = None /\
          result !! "journalistic_article" = None) /\
    db w' = db w /\ sql_log w' = sql_log w /\ http_log w' = http_log w.
Proof.
  destruct (check_article_relevance_outcome E content title w) as (verdict & reason & Hc).
  destruct verdict.
  - destruct (analyze_relevant E w _ content title reason Hc)
      as (findings & technical & final & stage2 & w2 & Ha & Hs & Hlog & Hdb & Hsql & Hhttp & _).
    destruct (final_result_lookup technical final findings (now_at E (ticks w)))
      as (Hr & Ht & Hj & Hrel).
    exists (final_result technical final findings (now_at E (ticks w))), w2, true.
    eexists. split; [exact Ha |]. split; [exact Hrel |].
    split; [apply final_result_truth |]. split; [exact Hlog |].
    split; [| done].
    split; [destruct Hs as [-> | ->]; [by left | by right] |].
    split; [by exists findings |]. split; [by exists technical | by exists final].
  - pose proof (analyze_not_relevant E w _ content title reason Hc) as Ha.
    destruct (not_relevant_result_lookup reason
                (now_at E (ticks (log_model (relevance_request content title) w))))
      as (Hr & Ht & Hj & Hrel).
    eexists _, _, false, []. split; [exact Ha |]. split; [exact Hrel |].
    split; [apply not_relevant_result_truth |]. done.
Qed.

(** X2. For an article that passes the relevance check, the stages run
    in order and each feeds the next: the research request carries the
    title and the first 500 characters of the content (followed by at
    most one retry request), the analysis request carries the first 2000
    characters of the content and exactly the text stored as
    [research_notes], and the writing request carries exactly the text
    stored as [technical_analysis]. *)
Theorem stages_feed_forward (E : env) (w w1 : world) (content title reason : Py.str) :
  check_article_relevance E content title w = (Ok (true, reason), w1) ->
  exists result findings technical final stage2 w2,
    analyze_article_with_anthropic E content title w = (Ok result, w2) /\
    result !! "research_notes" = Some (VStr findings) /\
    result !! "technical_analysis" = Some (VStr technical) /\
    result !! "journalistic_article" = Some (VStr final) /\
    result !! "is_relevant" = Some (VBool true) /\
    (stage2 = [research_request title (take 500 content)] \/
     stage2 = [research_request title (take 500 content); retry_request title]) /\
    model_log w2 =
      model_log w ++ [relevance_request content title] ++ stage2 ++
        [mk_request haiku 2000 (Some 3) (AnalysisPrompt (take 2000 content) findings);
         mk_request haiku 2000 (Some 4) (JournalisticPrompt technical)].
Proof.
  intros Hcheck.
  destruct (analyze_relevant E w w1 content title reason Hcheck)
    as (findings & technical & final & stage2 & w2 & Ha & Hs & Hlog & _).
  destruct (final_result_lookup technical final findings (now_at E (ticks w)))
    as (Hr & Ht & Hj & Hrel).
  by exists (final_result technical final findings (now_at E (ticks w))),
    findings, technical, final, stage2, w2.
Qed.

Lemma stages_feed_forward_witness :
  exists result w2,
    analyze_article_with_anthropic Sample.offline (Py.lit "body") (Py.lit "headline")
      (Sample.fresh Sample.one_row_db) = (Ok result, w2) /\
    result !! "is_relevant" = Some (VBool true).
Proof.
  destruct (stages_feed_forward Sample.offline (Sample.fresh Sample.one_row_db)
              (log_model (relevance_request (Py.lit "body") (Py.lit "headline"))
                 (Sample.fresh Sample.one_row_db))
              (Py.lit "body") (Py.lit "headline") (Py.lit "Error in checking relevance"))
    as (result & findings & technical & final & stage2 & w2 & Ha & _ & _ & _ & Hrel & _ & _).
  - reflexivity.
  - exists result, w2. split; [exact Ha | exact Hrel].
Defined.

(** *** Storing the verdict *)

Lemma update_article_as_processed_ok (E : env) (w : world) (i : Z) (d : gmap string pyval) :
  db_fault E (length (sql_log w)) = false ->
  db_fault E (S (length (sql_log w))) = false ->
  exists w',
    update_article_as_processed E i d w = (Ok tt, w') /\
    model_log w' = model_log w /\ http_log w' = http_log w /\
    last_id (db w') = last_id (db w) /\
    sql_log w' =
      sql_log w ++
        [Connect;
         UpdateProcessed i
           (if truth (default (VBool true) (d !! "is_relevant")) then 1 else 2)
           (json_dumps E d)] /\
    news_items (db w') =
      map (set_processed i
             (if truth (default (VBool true) (d !! "is_relevant")) then 1 else 2)
             (json_dumps E d))
        (news_items (db w)).
Proof.
  intros H0 H1.
  unfold update_article_as_processed, try_except, bind, connect, update_processed,
    bind, db_operation.
  rewrite H0. unfold log_sql at 1 2. cbn [sql_log].
  rewrite length_app, Nat.add_1_r, H1.
  eexists. split; [reflexivity|]. unfold set_db, log_sql.
  cbn [model_log http_log db last_id news_items sql_log].
  repeat split. by rewrite <- app_assoc.
Qed.

Lemma set_processed_same_article (i v : Z) (data : Py.str) (r : news_item) :
  same_article r (set_processed i v data r) /\
  (id r <> i -> set_processed i v data r = r) /\
  (id r = i -> isProcessed (set_processed i v data r) = v /\
               process_data (set_processed i v data r) = data).
Proof.
  unfold set_processed, same_article. case_bool_decide; repeat split; done.
Qed.

Lemma same_article_refl (r : news_item) : same_article r r.
Proof. by repeat split. Qed.

Lemma same_article_trans (r1 r2 r3 : news_item) :
  same_article r1 r2 -> same_article r2 r3 -> same_article r1 r3.
Proof.
  unfold same_article. intros H1 H2.
  repeat split; try (etrans; [apply H2 | apply H1]).
Qed.

Lemma Forall2_same_article_trans (l1 l2 l3 : list news_item) :
  Forall2 same_article l1 l2 -> Forall2 same_article l2 l3 -> Forall2 same_article l1 l3.
Proof.
  intros H12. revert l3. induction H12 as [|r1 r2 l1 l2 Hr _ IH]; intros l3 H23.
  - by inversion H23.
  - inversion H23 as [|? r3 ? l3' Hr' Hl']; subst.
    constructor; [by eapply same_article_trans | by apply IH].
Qed.

(** X3. Marking an article never raises, whatever the database does;
    it keeps the number and the order of the rows, changes no row of
    another id, and on the rows of the given id it leaves every column
    other than [isProcessed] and [process_data] as it was. *)
Theorem update_touches_one_row (E : env) (w : world) (i : Z) (d : gmap string pyval) :
  exists w',
    update_article_as_processed E i d w = (Ok tt, w') /\
    Forall2 (fun r r' => same_article r r' /\ (id r <> i -> r' = r))
      (news_items (db w)) (news_items (db w')) /\
    last_id (db w') = last_id (db w) /\
    model_log w' = model_log w /\ http_log w' = http_log w.
Proof.
  destruct (db_fault E (length (sql_log w))) eqn:H0;
    [| destruct (db_fault E (S (length (sql_log w)))) eqn:H1].
  3: { destruct (update_article_as_processed_ok E w i d H0 H1)
         as (w' & Hu & Hm & Hh & Hl & _ & Hrows).
       exists w'. split; [exact Hu |]. split; [| done].
       rewrite Hrows. apply Forall2_fmap_r, Forall_Forall2_diag, Forall_forall.
       intros r _. split; apply set_processed_same_article. }
  all: destruct (update_article_as_processed_fails E w i d) as (w' & Hu & Hm & Hh & Hdb);
    [by auto | exists w'; split; [exact Hu |]; rewrite Hdb; split; [| done]].
  all: apply Forall_Forall2_diag, Forall_forall; intros r _; by repeat split.
Qed.

(** X4. When the database accepts the connection and the update, every
    row of the given id gets the serialized result as [process_data] and
    an [isProcessed] of 1 or 2: 1 when the result has no [is_relevant]
    key or a true one, 2 when it is false. *)
Theorem update_stores_verdict (E : env) (w : world) (i : Z) (d : gmap string pyval) :
  db_fault E (length (sql_log w)) = false ->
  db_fault E (S (length (sql_log w))) = false ->
  exists w',
    update_article_as_processed E i d w = (Ok tt, w') /\
    Forall2 (fun r r' =>
               id r = i ->
               process_data r' = json_dumps E d /\
               (d !! "is_relevant" = None -> isProcessed r' = 1) /\
               (forall b, d !! "is_relevant" = Some (VBool b) ->
                  isProcessed r' = if b then 1 else 2) /\
               (isProcessed r' = 1 \/ isProcessed r' = 2))
      (news_items (db w)) (news_items (db w')).
Proof.
  intros H0 H1.
  destruct (update_article_as_processed_ok E w i d H0 H1)
    as (w' & Hu & _ & _ & _ & _ & Hrows).
  exists w'. split; [exact Hu |].
  rewrite Hrows. apply Forall2_fmap_r, Forall_Forall2_diag, Forall_forall.
  intros r _ Hid.
  destruct (set_processed_same_article i
              (if truth (default (VBool true) (d !! "is_relevant")) then 1 else 2)
              (json_dumps E d) r) as (_ & _ & Hset).
  destruct (Hset Hid) as [Hv Hdata]. split; [exact Hdata |].
  rewrite Hv. split; [by intros -> |]. split; [by intros b -> |].
  destruct (truth _); auto.
Qed.

Lemma update_stores_verdict_witness :
  exists w',
    update_article_as_processed Sample.quiet 1 ∅ (Sample.fresh Sample.one_row_db)
      = (Ok tt, w') /\
    Forall2 (fun r r' => id r = 1 -> isProcessed r' = 1)
      (news_items (db (Sample.fresh Sample.one_row_db))) (news_items (db w')).
Proof.
  destruct (update_stores_verdict Sample.quiet (Sample.fresh Sample.one_row_db) 1 ∅)
    as (w' & Hu & Hrows); [reflexivity | reflexivity |].
  exists w'. split; [exact Hu |].
  eapply Forall2_impl; [exact Hrows |].
  intros r r' H Hid. destruct (H Hid) as (_ & Hnone & _). by apply Hnone.
Defined.

(** *** The work list *)

Lemma insert_oldest_first_perm (x : news_item) (l : list news_item) :
  Permutation (insert_oldest_first x l) (x :: l).
Proof.
  induction l as [|y t IH]; cbn [insert_oldest_first]; [done |].
  destruct (Py.ltb _ _); [| done].
  rewrite IH. apply perm_swap.
Qed.

Lemma insert_oldest_first_sorted (x : news_item) (l : list news_item) :
  StronglySorted oldest_first l -> StronglySorted oldest_first (insert_oldest_first x l).
Proof.
  induction 1 as [|y t Hsorted IH Hall]; cbn [insert_oldest_first].
  - repeat constructor.
  - destruct (Py.ltb (created_at y) (created_at x)) eqn:Hlt.
    + constructor; [exact IH |].
      apply (Permutation_Forall (Permutation_sym (insert_oldest_first_perm x t))).
      constructor; [| exact Hall].
      unfold oldest_first, Py.ltb in *. rewrite (compare_antisym (created_at y)).
      by destruct (Py.compare (created_at y) (created_at x)).
    + constructor; [by constructor |]. constructor; [exact Hlt |].
      eapply Forall_impl; [exact Hall |]. intros z Hz.
      unfold oldest_first in *. by eapply not_ltb_trans.
Qed.

Lemma sort_oldest_first (l : list news_item) :
  Permutation (fold_right insert_oldest_first [] l) l /\
  StronglySorted oldest_first (fold_right insert_oldest_first [] l).
Proof.
  induction l as [|x l [IHp IHs]]; cbn [fold_right]; [split; constructor |].
  split; [| by apply insert_oldest_first_sorted].
  rewrite insert_oldest_first_perm. by constructor.
Qed.

Lemma get_unprocessed_articles_ok (E : env) (w : world) :
  db_fault E (length (sql_log w)) = false ->
  db_fault E (S (length (sql_log w))) = false ->
  get_unprocessed_articles E w =
    (Ok (map work_item
           (fold_right insert_oldest_first []
              (List.filter (fun r => isProcessed r =? 0) (news_items (db w))))),
     log_sql SelectUnprocessed (log_sql Connect w)).
Proof.
  intros H0 H1. unfold get_unprocessed_articles, try_except, bind, connect.
  rewrite (db_operation_ok E _ w H0).
  rewrite (db_operation_ok E _ (log_sql Connect w))
    by (by rewrite length_sql_log_log_sql).
  reflexivity.
Qed.

Lemma get_unprocessed_articles_fails (E : env) (w : world) :
  db_fault E (length (sql_log w)) = true \/ db_fault E (S (length (sql_log w))) = true ->
  exists w', get_unprocessed_articles E w = (Ok [], w') /\
    db w' = db w /\ model_log w' = model_log w /\ http_log w' = http_log w.
Proof.
  intros Hf. unfold get_unprocessed_articles, try_except, bind, connect.
  destruct (db_fault E (length (sql_log w))) eqn:H0.
  - rewrite (db_operation_raises E _ w H0). by eexists.
  - destruct Hf as [Hf | Hf]; [discriminate |].
    rewrite (db_operation_ok E _ w H0).
    rewrite (db_operation_raises E _ (log_sql Connect w))
      by (by rewrite length_sql_log_log_sql).
    by eexists.
Qed.

(** X5. When the database accepts the connection and the query, the
    work list is exactly the rows with [isProcessed = 0]: one entry for
    each of them and no other, each carrying the id, title, url, cleaned
    content and creation time of its row, in ascending order of creation
    time; the database is left as it was. *)
Theorem work_list_is_pending_rows (E : env) (w : world) :
  db_fault E (length (sql_log w)) = false ->
  db_fault E (S (length (sql_log w))) = false ->
  exists items w',
    get_unprocessed_articles E w = (Ok items, w') /\
    db w' = db w /\
    Permutation (map u_id items)
      (map id (List.filter (fun r => isProcessed r =? 0) (news_items (db w)))) /\
    Forall (fun u => exists r, r ∈ news_items (db w) /\ isProcessed r = 0 /\
                       u = mk_unprocessed (id r) (title r) (url r) (clean_content r)
                             (created_at r)) items /\
    StronglySorted (fun u u' => Py.ltb (u_created_at u') (u_created_at u) = false) items.
Proof.
  intros H0 H1. rewrite (get_unprocessed_articles_ok E w H0 H1).
  set (pending := List.filter (fun r => isProcessed r =? 0) (news_items (db w))).
  destruct (sort_oldest_first pending) as [Hperm Hsorted].
  eexists _, _. split; [reflexivity |]. split; [reflexivity |]. split; [| split].
  - rewrite <- Hperm at 2. rewrite <- list_fmap_compose. done.
  - apply Forall_fmap, (Permutation_Forall (Permutation_sym Hperm)), Forall_forall.
    intros r Hr. apply list_elem_of_In, filter_In in Hr as [Hin Hp].
    exists r. split; [by apply list_elem_of_In |]. split; [lia | done].
  - clear Hperm. induction Hsorted as [|r l _ IH Hall]; [constructor |].
    cbn [map]. constructor; [exact IH |]. by apply Forall_fmap.
Qed.

Lemma work_list_is_pending_rows_witness :
  exists items w',
    get_unprocessed_articles Sample.quiet (Sample.fresh Sample.one_row_db)
      = (Ok items, w') /\
    Permutation (map u_id items) [1].
Proof.
  destruct (work_list_is_pending_rows Sample.quiet (Sample.fresh Sample.one_row_db))
    as (items & w' & Hg & _ & Hperm & _); [reflexivity | reflexivity |].
  exists items, w'. split; [exact Hg | exact Hperm].
Defined.

(** X6. Once an article has been marked, with the database accepting the
    operations, it is gone from the work list, whatever the result that
    was stored; the other pending articles are still on it. *)
Theorem processed_item_leaves_work_list (E : env) (w : world) (i : Z)
    (d : gmap string pyval) :
  (forall k, (k < 4)%nat -> db_fault E (length (sql_log w) + k) = false) ->
  exists w1 items w2,
    update_article_as_processed E i d w = (Ok tt, w1) /\
    get_unprocessed_articles E w1 = (Ok items, w2) /\
    Forall (fun u => u_id u <> i) items /\
    (forall r, r ∈ news_items (db w) -> isProcessed r = 0 -> id r <> i ->
       mk_unprocessed (id r) (title r) (url r) (clean_content r) (created_at r) ∈ items).
Proof.
  intros Hok.
  destruct (update_article_as_processed_ok E w i d) as (w1 & Hu & _ & _ & _ & Hsql & Hrows).
  { rewrite <- (Nat.add_0_r (length _)). apply Hok. lia. }
  { rewrite <- Nat.add_1_r. apply Hok. lia. }
  assert (Hlen : length (sql_log w1) = (length (sql_log w) + 2)%nat)
    by (rewrite Hsql, length_app; done).
  eexists w1, _, _. split; [exact Hu |]. split.
  { apply get_unprocessed_articles_ok.
    - rewrite Hlen. apply Hok. lia.
    - rewrite Hlen, <- Nat.add_succ_r. apply Hok. lia. }
  set (v := if truth (default (VBool true) (d !! "is_relevant")) then 1 else 2) in *.
  assert (Hv : v <> 0) by (subst v; destruct (truth _); lia).
  set (pending := List.filter (fun r => isProcessed r =? 0) (news_items (db w1))).
  destruct (sort_oldest_first pending) as [Hperm _]. split.
  - apply Forall_fmap, (Permutation_Forall (Permutation_sym Hperm)), Forall_forall.
    intros r' Hr'. apply list_elem_of_In, filter_In in Hr' as [Hin Hp].
    rewrite Hrows in Hin. apply in_map_iff in Hin as (r & <- & _).
    intros Hid. change (id (set_processed i v (json_dumps E d) r) = i) in Hid.
    destruct (set_processed_same_article i v (json_dumps E d) r) as (Hsame & _ & Hset).
    destruct Hsame as (Hsame_id & _). rewrite Hsame_id in Hid.
    destruct (Hset Hid) as [Hval _]. rewrite Hval in Hp. lia.
  - intros r Hin Hp Hid.
    change (work_item r ∈ map work_item (fold_right insert_oldest_first [] pending)).
    apply list_elem_of_fmap. exists r. split; [done |].
    rewrite Hperm. apply list_elem_of_In, filter_In. split; [| lia].
    rewrite Hrows. apply in_map_iff. exists r. split; [| by apply list_elem_of_In].
    by apply set_processed_same_article.
Qed.

Lemma processed_item_leaves_work_list_witness :
  exists w1 items w2,
    update_article_as_processed Sample.quiet 1 ∅ (Sample.fresh Sample.one_row_db)
      = (Ok tt, w1) /\
    get_unprocessed_articles Sample.quiet w1 = (Ok items, w2) /\
    Forall (fun u => u_id u <> 1) items.
Proof.
  destruct (processed_item_leaves_work_list Sample.quiet
              (Sample.fresh Sample.one_row_db) 1 ∅)
    as (w1 & items & w2 & Hu & Hg & Hall & _); [intros k _; reflexivity |].
  by exists w1, items, w2.
Defined.

(** *** The processing loop *)

Lemma update_article_as_processed_outcome (E : env) (w : world) (i : Z)
    (d : gmap string pyval) :
  exists w',
    update_article_as_processed E i d w = (Ok tt, w') /\
    model_log w' = model_log w /\ http_log w' = http_log w /\
    Forall2 same_article (news_items (db w)) (news_items (db w')) /\
    last_id (db w') = last_id (db w).
Proof.
  destruct (db_fault E (length (sql_log w))) eqn:H0;
    [| destruct (db_fault E (S (length (sql_log w)))) eqn:H1].
  3: { destruct (update_article_as_processed_ok E w i d H0 H1)
         as (w' & Hu & Hm & Hh & Hl & _ & Hrows).
       exists w'. do 3 (split; [done |]). split; [| done].
       rewrite Hrows. apply Forall2_fmap_r, Forall_Forall2_diag, Forall_forall.
       intros r _. apply set_processed_same_article. }
  all: destruct (update_article_as_processed_fails E w i d) as (w' & Hu & Hm & Hh & Hdb);
    [by auto | exists w'; rewrite Hdb; do 3 (split; [done |]); split; [| done]].
  all: apply Forall_Forall2_diag, Forall_forall; intros r _; apply same_article_refl.
Qed.

(** An article whose [clean_content] is [NULL] stops the loop at once. *)
Lemma process_article_null (E : env) (c : counters) (article : unprocessed) (w : world) :
  u_clean_content article = None ->
  process_article E c article w = (Raise TypeError, w).
Proof. intros H. unfold process_article. by rewrite H. Qed.

Lemma process_article_outcome (E : env) (c : counters) (article : unprocessed)
    (content : Py.str) (w : world) :
  u_clean_content article = Some content ->
  exists c' w',
    process_article E c article w = (Ok c', w') /\
    processed_count c' = processed_count c + 1 /\
    error_count c' = error_count c /\
    relevant_count c' + non_relevant_count c' = relevant_count c + non_relevant_count c + 1 /\
    relevant_count c <= relevant_count c' /\
    non_relevant_count c <= non_relevant_count c' /\
    (length (model_log w) + 1 <= length (model_log w') <= length (model_log w) + 5)%nat /\
    Forall2 same_article (news_items (db w)) (news_items (db w')) /\
    last_id (db w') = last_id (db w) /\ http_log w' = http_log w.
Proof.
  intros Hcontent.
  destruct (analyze_outcome E w content (u_title article))
    as (result & w1 & verdict & Ha & Hrel & Htruth & Hdb & _ & Hhttp & Hcalls).
  unfold process_article. rewrite Hcontent. unfold bind. rewrite Ha, Htruth.
  destruct (update_article_as_processed_outcome E w1 (u_id article) result)
    as (w2 & -> & Hm & Hh & Hrows & Hlast).
  rewrite Hrel. cbn [default truth]. rewrite Hdb in Hrows, Hlast.
  destruct verdict; eexists _, w2; (split; [reflexivity |]); rewrite Hm;
    cbn [processed_count error_count relevant_count non_relevant_count];
    (do 6 (split; [lia |])); (split; [exact Hrows |]); split; congruence.
Qed.

(** What every round of the loop keeps, whether it returns or raises. *)
Lemma process_article_keeps (E : env) (c : counters) (article : unprocessed) (w : world) :
  let w' := (process_article E c article w).2 in
  Forall2 same_article (news_items (db w)) (news_items (db w')) /\
  last_id (db w') = last_id (db w) /\ http_log w' = http_log w.
Proof.
  destruct (u_clean_content article) as [content|] eqn:Hcontent.
  - destruct (process_article_outcome E c article content w Hcontent)
      as (c' & w' & -> & _ & _ & _ & _ & _ & _ & Hrows & Hlast & Hh).
    by cbn [snd].
  - rewrite process_article_null by done. cbn [snd].
    split; [| done]. apply Forall_Forall2_diag, Forall_forall. intros r _.
    apply same_article_refl.
Qed.

Lemma for_each_keeps {A B} (f : B -> A -> M B) (I : world -> world -> Prop)
    (l : list A) (acc : B) (w : world) :
  (forall w, I w w) -> (forall w1 w2 w3, I w1 w2 -> I w2 w3 -> I w1 w3) ->
  (forall acc x w, I w (f acc x w).2) ->
  I w (for_each f l acc w).2.
Proof.
  intros Hrefl Htrans Hstep. revert acc w.
  induction l as [|x l IH]; intros acc w; cbn [for_each]; [apply Hrefl |].
  unfold bind. pose proof (Hstep acc x w) as Hx.
  destruct (f acc x w) as [[acc'|e] w1]; cbn [snd] in *; [| exact Hx].
  eapply Htrans; [exact Hx | apply IH].
Qed.

Lemma length_slice_to {A} (n : Z) (l : list A) :
  Z.of_nat (length (slice_to n l)) = slice_length n (Z.of_nat (length l)).
Proof.
  unfold slice_to, slice_length. destruct (n <? 0) eqn:Hn; rewrite length_take; lia.
Qed.

Lemma length_selection (limit : option Z) (articles : list unprocessed) :
  Z.of_nat (length (selection limit articles))
  = selection_length limit (Z.of_nat (length articles)).
Proof.
  unfold selection, selection_length. destruct limit as [n|]; [| done].
  destruct (n =? 0); [done | apply length_slice_to].
Qed.

Lemma selection_nil (limit : option Z) : selection limit [] = [].
Proof.
  unfold selection, slice_to. destruct limit as [n|]; [| done].
  destruct (n =? 0); [done |]. destruct (n <? 0); apply take_nil.
Qed.

Lemma selection_length_bounds (limit : option Z) (len : Z) :
  0 <= len ->
  0 <= selection_length limit len <= len /\
  (forall n, limit = Some n -> 0 < n -> selection_length limit len <= n).
Proof.
  intros Hlen. unfold selection_length, slice_length. split.
  - destruct limit as [n|]; [| lia]. destruct (n =? 0); [lia |].
    destruct (n <? 0) eqn:Hneg; lia.
  - intros n -> Hpos. destruct (n =? 0) eqn:H0; [lia |].
    destruct (n <? 0) eqn:Hneg; lia.
Qed.

(** The list the loop of [process_articles] goes through. *)
Lemma work_list_outcome (E : env) (w : world) :
  exists articles w1,
    get_unprocessed_articles E w = (Ok articles, w1) /\
    db w1 = db w /\ model_log w1 = model_log w /\ http_log w1 = http_log w /\
    (length articles
       <= length (List.filter (fun r => (isProcessed r =? 0)%Z) (news_items (db w))))%nat /\
    (db_fault E (length (sql_log w)) = false ->
     db_fault E (S (length (sql_log w))) = false ->
     length articles
       = length (List.filter (fun r => isProcessed r =? 0) (news_items (db w)))).
Proof.
  destruct (db_fault E (length (sql_log w))) eqn:H0;
    [| destruct (db_fault E (S (length (sql_log w)))) eqn:H1].
  3: { rewrite (get_unprocessed_articles_ok E w H0 H1). eexists _, _.
       split; [reflexivity |]. do 3 (split; [done |]).
       rewrite length_map, (Permutation_length (proj1 (sort_oldest_first _))). done. }
  all: destruct (get_unprocessed_articles_fails E w) as (w1 & Hg & Hdb & Hm & Hh);
    [by auto | exists [], w1; cbn [length]; do 4 (split; [done |])].
  all: split; [lia | intros; discriminate].
Qed.

Lemma process_articles_selection (E : env) (limit : option Z) (w w1 : world)
    (articles : list unprocessed) :
  get_unprocessed_articles E w = (Ok articles, w1) ->
  process_articles E limit w
  = match articles with
    | [] => (Ok (mk_counters 0 0 0 0), w1)
    | _ :: _ =>
      for_each (process_article E) (selection limit articles) (mk_counters 0 0 0 0) w1
    end.
Proof.
  intros Hg. unfold process_articles, bind. rewrite Hg. by destruct articles.
Qed.

(** The loop over articles that all have their content. *)
Lemma process_all (E : env) (l : list unprocessed) (w0 w : world) :
  Forall (fun u => u_clean_content u <> None) l ->
  model_log w = model_log w0 ->
  exists c w',
    for_each (process_article E) l (mk_counters 0 0 0 0) w = (Ok c, w') /\
    processed_count c = Z.of_nat (length l) /\ error_count c = 0 /\
    processed_count c = relevant_count c + non_relevant_count c /\
    0 <= relevant_count c /\ 0 <= non_relevant_count c /\
    processed_count c <= Z.of_nat (length (model_log w')) - Z.of_nat (length (model_log w0))
      <= 5 * processed_count c.
Proof.
  intros Hall Hm.
  destruct (for_each_counted (process_article E)
              (fun k c w' =>
                 processed_count c = Z.of_nat k /\ error_count c = 0 /\
                 processed_count c = relevant_count c + non_relevant_count c /\
                 0 <= relevant_count c /\ 0 <= non_relevant_count c /\
                 processed_count c
                   <= Z.of_nat (length (model_log w')) - Z.of_nat (length (model_log w0))
                   <= 5 * processed_count c)
              l 0 (mk_counters 0 0 0 0) w) as (c & w' & Hrun & Hc).
  - intros k c x w1 Hx (Hk & He & Hsum & Hr & Hn & Hcalls).
    destruct (u_clean_content x) as [content|] eqn:Hcontent.
    2: { exfalso. by apply (proj1 (Forall_forall _ _) Hall x Hx). }
    destruct (process_article_outcome E c x content w1 Hcontent)
      as (c' & w' & -> & Hp' & He' & Hsum' & Hr' & Hn' & Hcalls' & _).
    exists c', w'. split; [done |]. repeat split; lia.
  - cbn [processed_count error_count relevant_count non_relevant_count].
    rewrite Hm. repeat split; lia.
  - exists c, w'. split; [exact Hrun |]. rewrite Nat.add_0_l in Hc. exact Hc.
Qed.

(** The loop over a list in which some article has no content. *)
Lemma process_until_null (E : env) (l : list unprocessed) (c : counters) (w : world) :
  Exists (fun u => u_clean_content u = None) l ->
  exists w', for_each (process_article E) l c w = (Raise TypeError, w').
Proof.
  intros Hex. revert c w. induction Hex as [x l Hx | x l _ IH]; intros c w;
    cbn [for_each]; unfold bind.
  - rewrite process_article_null by done. by eexists.
  - destruct (u_clean_content x) as [content|] eqn:Hcontent.
    + destruct (process_article_outcome E c x content w Hcontent) as (c' & w' & -> & _).
      apply IH.
    + rewrite process_article_null by done. by eexists.
Qed.

(** X7. The counters of a processing run.  The loop goes through the
    work list that [get_unprocessed_articles] returns, cut to
    [articles[:limit]] for a limit other than 0: never more articles
    than rows with [isProcessed = 0] nor more than a positive limit.
    When every one of these articles has its [clean_content], the run
    returns: no error is counted, the processed articles are all of
    them, they are the relevant plus the not relevant ones, each costs
    between one and five model calls, and when the database answers the
    listing their number is that of the pending rows (without a limit or
    with limit 0) or [len(rows[:limit])], so that a negative limit
    leaves out that many of the newest.  When the [clean_content] of one
    of them is [NULL], the run raises [TypeError]: the progress line
    that prints its length is enclosed by no handler. *)
Theorem processing_counters (E : env) (limit : option Z) (w : world) :
  exists articles w1,
    get_unprocessed_articles E w = (Ok articles, w1) /\
    (Forall (fun u => u_clean_content u <> None) (selection limit articles) ->
     exists c w',
       process_articles E limit w = (Ok c, w') /\
       error_count c = 0 /\
       processed_count c = Z.of_nat (length (selection limit articles)) /\
       processed_count c = relevant_count c + non_relevant_count c /\
       0 <= relevant_count c /\ 0 <= non_relevant_count c /\
       processed_count c
         <= Z.of_nat (length (List.filter (fun r => isProcessed r =? 0)
                                (news_items (db w)))) /\
       (forall n, limit = Some n -> 0 < n -> processed_count c <= n) /\
       (db_fault E (length (sql_log w)) = false ->
        db_fault E (S (length (sql_log w))) = false ->
        processed_count c =
          selection_length limit
            (Z.of_nat (length (List.filter (fun r => isProcessed r =? 0)
                                 (news_items (db w)))))) /\
       processed_count c
         <= Z.of_nat (length (model_log w')) - Z.of_nat (length (model_log w))
         <= 5 * processed_count c) /\
    (Exists (fun u => u_clean_content u = None) (selection limit articles) ->
     exists w', process_articles E limit w = (Raise TypeError, w')).
Proof.
  destruct (work_list_outcome E w) as (articles & w1 & Hg & _ & Hm & _ & Hlen & Hexact).
  exists articles, w1. split; [exact Hg |].
  rewrite (process_articles_selection E limit w w1 articles Hg).
  pose proof (length_selection limit articles) as Hsel.
  destruct (selection_length_bounds limit (Z.of_nat (length articles)) ltac:(lia))
    as [Hbound Hlimit].
  split.
  - intros Hall.
    destruct (process_all E (selection limit articles) w w1 Hall Hm)
      as (c & w' & Hrun & Hk & He & Hsum & Hr & Hn & Hcalls).
    assert (Hout : exists c0 w0,
              match articles with
              | [] => (Ok (mk_counters 0 0 0 0), w1)
              | _ :: _ =>
                for_each (process_article E) (selection limit articles)
                  (mk_counters 0 0 0 0) w1
              end = (Ok c0, w0) /\
              processed_count c0 = Z.of_nat (length (selection limit articles)) /\
              error_count c0 = 0 /\
              processed_count c0 = relevant_count c0 + non_relevant_count c0 /\
              0 <= relevant_count c0 /\ 0 <= non_relevant_count c0 /\
              processed_count c0
                <= Z.of_nat (length (model_log w0)) - Z.of_nat (length (model_log w))
                <= 5 * processed_count c0).
    { destruct articles as [|a rest]; [| by exists c, w'].
      exists (mk_counters 0 0 0 0), w1. split; [reflexivity |].
      rewrite selection_nil, Hm.
      cbn [processed_count error_count relevant_count non_relevant_count length].
      repeat split; lia. }
    destruct Hout as (c0 & w0 & -> & Hk0 & He0 & Hsum0 & Hr0 & Hn0 & Hcalls0).
    exists c0, w0. split; [reflexivity |]. do 5 (split; [done |]).
    split; [lia |]. split; [intros n Hn' Hpos; specialize (Hlimit n Hn' Hpos); lia |].
    split; [| done].
    intros H0 H1. rewrite Hk0, Hsel. by rewrite (Hexact H0 H1).
  - intros Hex. destruct articles as [|a rest]; [| by apply process_until_null].
    exfalso. apply Exists_exists in Hex as (u & Hin & _).
    rewrite selection_nil in Hin. by apply elem_of_nil in Hin.
Qed.

(** A run over two pending rows, the second without [clean_content]:
    the first article is analysed and marked, then the run raises. *)
Example null_content_stops_run :
  (fun r => (r.1, map isProcessed (news_items (db r.2)), length (model_log r.2)))
    (process_articles Sample.quiet None (Sample.fresh Sample.two_row_db))
  = (Raise TypeError, [2; 0], 1%nat).
Proof. vm_compute. reflexivity. Qed.

(** X8. When the database refuses the connection or the update, an
    article that has its [clean_content] is counted as processed all the
    same, and not as an error, while the table is left as it was, so
    that the row stays pending. *)
Theorem failed_update_still_counted (E : env) (c : counters) (article : unprocessed)
    (content : Py.str) (w : world) :
  u_clean_content article = Some content ->
  db_fault E (length (sql_log w)) = true \/ db_fault E (S (length (sql_log w))) = true ->
  exists c' w',
    process_article E c article w = (Ok c', w') /\
    processed_count c' = processed_count c + 1 /\
    error_count c' = error_count c /\
    db w' = db w.
Proof.
  intros Hcontent Hf.
  destruct (analyze_outcome E w content (u_title article))
    as (result & w1 & verdict & Ha & Hrel & Htruth & Hdb & Hsql & _).
  unfold process_article. rewrite Hcontent. unfold bind. rewrite Ha, Htruth.
  destruct (update_article_as_processed_fails E w1 (u_id article) result)
    as (w2 & -> & _ & _ & Hdb2).
  { by rewrite Hsql. }
  rewrite Hrel. cbn [default truth].
  destruct verdict; eexists _, _; (split; [reflexivity |]);
    cbn [processed_count error_count]; repeat split; congruence.
Qed.

Lemma failed_update_still_counted_witness :
  exists c' w',
    process_article Sample.broken_db (mk_counters 0 0 0 0) Sample.pending
      (Sample.fresh Sample.one_row_db) = (Ok c', w') /\
    processed_count c' = 0 + 1 /\
    db w' = db (Sample.fresh Sample.one_row_db).
Proof.
  destruct (failed_update_still_counted Sample.broken_db (mk_counters 0 0 0 0)
              Sample.pending (Py.lit "body") (Sample.fresh Sample.one_row_db))
    as (c' & w' & Hp & Hc & _ & Hdb); [reflexivity | left; reflexivity |].
  by exists c', w'.
Defined.

(** X9. When the database refuses the connection or the listing query,
    a processing run ends with all counters at zero, without a single
    model call and without touching the table. *)
Theorem database_outage_spends_no_model_calls (E : env) (limit : option Z) (w : world) :
  db_fault E (length (sql_log w)) = true \/ db_fault E (S (length (sql_log w))) = true ->
  exists w',
    process_articles E limit w = (Ok (mk_counters 0 0 0 0), w') /\
    model_log w' = model_log w /\ db w' = db w.
Proof.
  intros Hf. destruct (get_unprocessed_articles_fails E w Hf) as (w' & Hg & Hdb & Hm & _).
  exists w'. unfold process_articles, bind. rewrite Hg. done.
Qed.

Lemma database_outage_spends_no_model_calls_witness :
  exists w',
    process_articles Sample.broken_db None (Sample.fresh Sample.one_row_db)
      = (Ok (mk_counters 0 0 0 0), w') /\
    model_log w' = model_log (Sample.fresh Sample.one_row_db) /\
    db w' = db (Sample.fresh Sample.one_row_db).
Proof.
  refine (database_outage_spends_no_model_calls Sample.broken_db None
            (Sample.fresh Sample.one_row_db) _).
  left. reflexivity.
Defined.

(** X10. A processing run changes nothing of the table but the
    [isProcessed] and [process_data] columns, whether it returns or
    raises: the rows are as many as before, in the same order, each with
    its id, title, url, texts, dates, fingerprint and creation time; no
    page is requested. *)
Theorem processing_preserves_articles (E : env) (limit : option Z) (w : world) :
  exists r w',
    process_articles E limit w = (r, w') /\
    Forall2 same_article (news_items (db w)) (news_items (db w')) /\
    last_id (db w') = last_id (db w) /\ http_log w' = http_log w.
Proof.
  destruct (work_list_outcome E w) as (articles & w1 & Hg & Hdb & _ & Hhttp & _).
  rewrite (process_articles_selection E limit w w1 articles Hg).
  assert (Hsame : Forall2 same_article (news_items (db w)) (news_items (db w1))).
  { rewrite Hdb. apply Forall_Forall2_diag, Forall_forall. intros r _.
    apply same_article_refl. }
  destruct articles as [|a rest].
  { eexists _, w1. split; [reflexivity |]. split; [exact Hsame | by rewrite Hdb]. }
  pose proof (for_each_keeps (process_article E)
                (fun w0 w' =>
                   Forall2 same_article (news_items (db w0)) (news_items (db w')) /\
                   last_id (db w') = last_id (db w0) /\ http_log w' = http_log w0)
                (selection limit (a :: rest)) (mk_counters 0 0 0 0) w1) as Hkeep.
  destruct (for_each (process_article E) (selection limit (a :: rest))
              (mk_counters 0 0 0 0) w1) as [r w'] eqn:Hrun.
  exists r, w'. split; [reflexivity |]. cbn [snd] in Hkeep.
  destruct Hkeep as (Hrows & Hlast & Hh).
  - intros w0. split; [| done]. apply Forall_Forall2_diag, Forall_forall.
    intros r0 _. apply same_article_refl.
  - intros wa wb wc (Ha1 & Ha2 & Ha3) (Hb1 & Hb2 & Hb3).
    split; [by eapply Forall2_same_article_trans |]. split; congruence.
  - intros c x w0. apply process_article_keeps.
  - split; [by eapply Forall2_same_article_trans |]. split; congruence.
Qed.

(** X11. When the model answers no call at all and the database accepts
    the update, an article that has its [clean_content] is nevertheless
    filed as relevant: the relevance check defaults to relevant, the
    three later stages are still called, each once and with the failure
    text of the stage before as its input, and the row is marked
    [isProcessed = 1] with the three failure texts as its analysis. *)
Theorem model_outage_files_article_as_relevant (E : env) (c : counters)
    (article : unprocessed) (content : Py.str) (w : world) :
  u_clean_content article = Some content ->
  (forall k r, llm_reply E k r = None) ->
  db_fault E (length (sql_log w)) = false ->
  db_fault E (S (length (sql_log w))) = false ->
  exists technical final result w1 c' w2,
    technical = Py.lit "Technical analysis failed: " ++ exn_text E ModelError /\
    final = Py.lit "Journalistic writing failed: " ++ exn_text E ModelError /\
    result = final_result technical final (Py.lit "Research failed") (now_at E (ticks w)) /\
    analyze_article_with_anthropic E content (u_title article) w = (Ok result, w1) /\
    model_log w1 =
      model_log w ++
        [relevance_request content (u_title article);
         research_request (u_title article) (take 500 content);
         mk_request haiku 2000 (Some 3)
           (AnalysisPrompt (take 2000 content) (Py.lit "Research failed"));
         mk_request haiku 2000 (Some 4) (JournalisticPrompt technical)] /\
    process_article E c article w = (Ok c', w2) /\
    relevant_count c' = relevant_count c + 1 /\
    Forall2 (fun r r' => id r = u_id article ->
               isProcessed r' = 1 /\ process_data r' = json_dumps E result)
      (news_items (db w)) (news_items (db w2)).
Proof.
  intros Hcontent Hdown H0 H1.
  set (technical := Py.lit "Technical analysis failed: " ++ exn_text E ModelError).
  set (final := Py.lit "Journalistic writing failed: " ++ exn_text E ModelError).
  set (result :=
         final_result technical final (Py.lit "Research failed") (now_at E (ticks w))).
  assert (Ha : exists w1,
            analyze_article_with_anthropic E content (u_title article) w
              = (Ok result, w1) /\
            model_log w1 =
              model_log w ++
                [relevance_request content (u_title article);
                 research_request (u_title article) (take 500 content);
                 mk_request haiku 2000 (Some 3)
                   (AnalysisPrompt (take 2000 content) (Py.lit "Research failed"));
                 mk_request haiku 2000 (Some 4) (JournalisticPrompt technical)] /\
            db w1 = db w /\ sql_log w1 = sql_log w).
  { unfold analyze_article_with_anthropic, check_article_relevance, research_topic,
      create_technical_analysis, create_journalistic_article, try_except, bind,
      messages_create, datetime_now, ret.
    rewrite !Hdown. cbn [negb]. rewrite !Hdown.
    eexists. split; [reflexivity |].
    unfold tick, log_model. cbn [model_log db sql_log].
    rewrite <- !app_assoc. done. }
  destruct Ha as (w1 & Ha & Hlog & Hdb & Hsql).
  exists technical, final, result, w1.
  unfold process_article. rewrite Hcontent. unfold bind. rewrite Ha.
  replace (truth (VDict result)) with true by (symmetry; apply final_result_truth).
  destruct (update_article_as_processed_ok E w1 (u_id article) result)
    as (w2 & -> & _ & _ & _ & _ & Hrows).
  { by rewrite Hsql. } { by rewrite Hsql. }
  assert (Hrel : result !! "is_relevant" = Some (VBool true))
    by apply final_result_lookup.
  rewrite Hrel in *. cbn [default truth] in *.
  eexists _, w2. do 5 (split; [done |]). split; [reflexivity |].
  split; [done |].
  rewrite Hrows, Hdb. apply Forall2_fmap_r, Forall_Forall2_diag, Forall_forall.
  intros r _ Hid. by apply set_processed_same_article.
Qed.

Lemma model_outage_files_article_as_relevant_witness :
  exists c' w2,
    process_article Sample.offline (mk_counters 0 0 0 0) Sample.pending
      (Sample.fresh Sample.one_row_db) = (Ok c', w2) /\
    relevant_count c' = 0 + 1 /\
    Forall2 (fun r r' => id r = u_id Sample.pending -> isProcessed r' = 1)
      (news_items (db (Sample.fresh Sample.one_row_db))) (news_items (db w2)).
Proof.
  destruct (model_outage_files_article_as_relevant Sample.offline (mk_counters 0 0 0 0)
              Sample.pending (Py.lit "body") (Sample.fresh Sample.one_row_db))
    as (technical & final & result & w1 & c' & w2 & _ & _ & _ & _ & _ & Hp & Hc & Hrows);
    [reflexivity | intros k r; reflexivity | reflexivity | reflexivity |].
  exists c', w2. split; [exact Hp |]. split; [exact Hc |].
  eapply Forall2_impl; [exact Hrows |]. intros r r' H Hid. by apply H.
Defined.

End ProcessorFacts.

(** ** The scraper: recovery, deduplication, freshness, cleaning, batch order *)

Module ScraperFacts.
Import Runtime Scraper PyFacts DateTimeFacts ReFacts RuntimeFacts.

(** The two ways the check answers when no database operation raises. *)
Lemma check_article_exists_in_db_ok (E : env) (w : world) (title url : Py.str) :
  (forall k, (k < 3)%nat -> db_fault E (length (sql_log w) + k) = false) ->
  exists w',
    check_article_exists_in_db E title url w =
      (Ok ((count_where Runtime.url url (news_items (db w)) >? 0)
           || (count_where Runtime.title title (news_items (db w)) >? 0)), w') /\
    db w' = db w.
Proof.
  intros Hok.
  pose proof (Hok 0%nat ltac:(lia)) as H0. rewrite Nat.add_0_r in H0.
  pose proof (Hok 1%nat ltac:(lia)) as H1. rewrite Nat.add_1_r in H1.
  pose proof (Hok 2%nat ltac:(lia)) as H2.
  replace (length (sql_log w) + 2)%nat with (S (S (length (sql_log w)))) in H2 by lia.
  unfold check_article_exists_in_db, try_except, bind, connect, select_count, bind, ret.
  rewrite (db_operation_ok E Connect w H0).
  rewrite db_operation_ok by (by rewrite length_sql_log_log_sql).
  change (db (log_sql (CountByUrl url) (log_sql Connect w))) with (db w).
  destruct (count_where Runtime.url url (news_items (db w)) >? 0) eqn:Hu.
  - eexists. split; reflexivity.
  - rewrite db_operation_ok by (by rewrite !length_sql_log_log_sql).
    eexists. split; reflexivity.
Qed.

Lemma check_article_exists_in_db_raises (E : env) (w : world) (title url : Py.str) :
  lookup_raises E w url ->
  exists w',
    check_article_exists_in_db E title url w = (Ok false, w') /\
    db w' = db w /\ http_log w' = http_log w.
Proof.
  unfold lookup_raises.
  unfold check_article_exists_in_db, try_except, bind, connect, select_count, bind, ret.
  intros [H0 | [[H0 H1] | (H0 & H1 & Hu & H2)]].
  - rewrite (db_operation_raises E Connect w H0). eexists. repeat split.
  - rewrite (db_operation_ok E Connect w H0).
    rewrite db_operation_raises by (by rewrite length_sql_log_log_sql).
    eexists. repeat split.
  - rewrite (db_operation_ok E Connect w H0).
    rewrite db_operation_ok by (by rewrite length_sql_log_log_sql).
    change (db (log_sql (CountByUrl url) (log_sql Connect w))) with (db w).
    rewrite Hu.
    rewrite db_operation_raises by (by rewrite !length_sql_log_log_sql).
    eexists. repeat split.
Qed.

Lemma is_article_exists_cases (E : env) (h : Py.str) (w : world) :
  exists existing w',
    is_article_exists E h w = (Ok existing, w') /\
    db w' = db w /\ http_log w' = http_log w /\
    (existing = true -> (count_where hash_id h (news_items (db w)) >? 0) = true) /\
    ((forall k, (k < 2)%nat -> db_fault E (length (sql_log w) + k) = false) ->
     existing = (count_where hash_id h (news_items (db w)) >? 0)).
Proof.
  unfold is_article_exists, try_except, bind, connect, select_count, bind, ret.
  destruct (db_fault E (length (sql_log w))) eqn:H0.
  - rewrite (db_operation_raises E Connect w H0).
    eexists _, _. split; [reflexivity |]. repeat split; [done |].
    intros Hok. specialize (Hok 0%nat ltac:(lia)). rewrite Nat.add_0_r in Hok. congruence.
  - rewrite (db_operation_ok E Connect w H0).
    destruct (db_fault E (length (sql_log (log_sql Connect w)))) eqn:H1.
    + rewrite db_operation_raises by done.
      eexists _, _. split; [reflexivity |]. repeat split; [done |].
      intros Hok. specialize (Hok 1%nat ltac:(lia)).
      rewrite length_sql_log_log_sql, Nat.add_1_r in *. congruence.
    + rewrite db_operation_ok by done.
      eexists _, _. split; [reflexivity |]. repeat split; done.
Qed.

Lemma save_article_to_db_cases (E : env) (a : article) (w : world) :
  let h := generate_article_hash E (a_title a) (a_url a) in
  exists saved w',
    save_article_to_db E a w = (Ok saved, w') /\
    http_log w' = http_log w /\
    (if saved
     then exists row,
       news_items (db w') = news_items (db w) ++ [row] /\
       title row = a_title a /\ url row = a_url a /\ hash_id row = h
     else db w' = db w) /\
    (Exists (fun x => hash_id x = h) (news_items (db w)) -> saved = false).
Proof.
  intros h. unfold save_article_to_db, try_except, bind at 1, connect.
  destruct (db_fault E (length (sql_log w))) eqn:H0.
  - rewrite (db_operation_raises E Connect w H0).
    eexists false, _. split; [reflexivity |]. repeat split.
  - rewrite (db_operation_ok E Connect w H0). fold h. unfold bind at 1.
    destruct (is_article_exists_cases E h (log_sql Connect w))
      as (existing & w1 & -> & Hdb1 & Hhttp1 & Htrue & _).
    cbn [log_sql db http_log] in Hdb1, Hhttp1, Htrue.
    destruct existing.
    + eexists false, _. split; [reflexivity |]. repeat split; [congruence | congruence].
    + unfold bind.
      destruct (insert_item_cases E (row_of_article a h) w1)
        as [(e & w2 & -> & Hdb2 & Hhttp2) | (w2 & row & -> & Hhttp2 & Hnew & Hrows & Ht & Hu & Hh)].
      * eexists false, _. split; [reflexivity |]. repeat split; congruence.
      * eexists true, _. split; [reflexivity |]. split; [congruence |]. split.
        -- exists row. rewrite Hrows, Hdb1. done.
        -- intros Hex. exfalso. apply Hnew. rewrite Hdb1.
           apply Exists_exists in Hex as (x & Hin & Hx).
           apply Exists_exists. exists x. split; [done |]. by right.
Qed.

Lemma datetime_of_strings_constructed (y m d H Mi : Py.str) (dt : DateTime.datetime) :
  datetime_of_strings y m d H Mi = Some dt -> DateTime.constructed dt.
Proof.
  unfold datetime_of_strings. repeat case_match; try discriminate.
  apply make_constructed.
Qed.

Lemma date_of_strings_constructed (y m d : Py.str) (H Mi : Z) (dt : DateTime.datetime) :
  date_of_strings y m d H Mi = Some dt -> DateTime.constructed dt.
Proof.
  unfold date_of_strings. repeat case_match; try discriminate.
  apply make_constructed.
Qed.

Lemma time_of_strings_constructed (y m d : Z) (H Mi : Py.str) (dt : DateTime.datetime) :
  time_of_strings y m d H Mi = Some dt -> DateTime.constructed dt.
Proof.
  unfold time_of_strings. repeat case_match; try discriminate.
  apply make_constructed.
Qed.

Lemma combined_datetime_constructed (text : Py.str) (dt : DateTime.datetime) :
  combined_datetime text = Some dt -> DateTime.constructed dt.
Proof.
  unfold combined_datetime. repeat case_match; try discriminate.
  apply datetime_of_strings_constructed.
Qed.

Lemma extract_actual_datetime_from_row_outcome (E : env) (text : Py.str) (w : world) :
  recovery_outcome w (extract_actual_datetime_from_row E text w).
Proof.
  unfold recovery_outcome, extract_actual_datetime_from_row, bind, datetime_now, ret.
  destruct (combined_datetime text) as [dt|] eqn:Hc.
  - eexists _, _. split; [reflexivity |]. split; [by left |].
    intros d [= <-]. by apply combined_datetime_constructed in Hc.
  - repeat case_match; subst; eexists _, _; (split; [reflexivity |]);
      (split; [first [by left | by right] |]); intros ? Hd; try discriminate.
    + by apply datetime_of_strings_constructed in Hd.
    + by apply date_of_strings_constructed in Hd.
    + by apply time_of_strings_constructed in Hd.
Qed.

Lemma extract_datetime_from_article_page_outcome (E : env) (text : Py.str) (w : world) :
  recovery_outcome w (extract_datetime_from_article_page E text w).
Proof.
  unfold recovery_outcome, extract_datetime_from_article_page, bind, datetime_now, ret.
  destruct (combined_datetime text) as [dt|] eqn:Hc.
  - eexists _, _. split; [reflexivity |]. split; [by left |].
    intros d [= <-]. by apply combined_datetime_constructed in Hc.
  - repeat case_match; subst; eexists _, _; (split; [reflexivity |]);
      (split; [first [by left | by right] |]); intros ? Hd; try discriminate.
    all: simplify_eq.
    all: try (by eapply date_of_strings_constructed).
    all: try (by eapply time_of_strings_constructed).
Qed.

Lemma get_live_article_content_outcome (E : env) (u : Py.str) (w : world) :
  exists content found w',
    get_live_article_content E u w = (Ok (content, found), w') /\
    http_log w' = http_log w ++ [u] /\ db w' = db w /\
    (forall d, found = Some d -> DateTime.constructed d).
Proof.
  unfold get_live_article_content, try_except, bind at 1, get_article.
  destruct (http_article E (length (http_log w)) u) as [page|].
  - unfold bind.
    destruct (extract_datetime_from_article_page_outcome E (ap_text page) (log_http u w))
      as (found & w' & -> & Hw' & Hfound).
    eexists _, found, w'. split; [reflexivity |].
    destruct Hw' as [-> | ->];
      (split; [reflexivity | split; [reflexivity | exact Hfound]]).
  - eexists None, None, _. split; [reflexivity |].
    split; [reflexivity | split; [reflexivity | discriminate]].
Qed.

Lemma settle_datetime_timestamp (article_datetime row_datetime : option DateTime.datetime) :
  (forall d, article_datetime = Some d -> DateTime.constructed d) ->
  (exists d, row_datetime = Some d /\ DateTime.constructed d) ->
  exists d, DateTime.constructed d /\
    (settle_datetime article_datetime row_datetime).2 = DateTime.isoformat d.
Proof.
  intros Ha (d & -> & Hd). unfold settle_datetime.
  destruct article_datetime as [d'|]; [exists d' | exists d]; split; auto.
Qed.

Lemma fetch_and_store_outcome (E : env) (events : list article) (item : candidate)
    (w : world) :
  exists events' w',
    fetch_and_store E events item w = (Ok events', w') /\
    http_log w' = http_log w ++ [c_url item] /\
    ((exists d, c_actual_datetime item = Some d /\ DateTime.constructed d) ->
     Forall timestamped events -> Forall timestamped events').
Proof.
  unfold fetch_and_store, bind at 1.
  destruct (get_live_article_content_outcome E (c_url item) w)
    as (content & found & w1 & -> & Hhttp & _ & Hfound).
  destruct content as [content|]; [destruct (Py.truthy content) |].
  - destruct (settle_datetime found (c_actual_datetime item)) as [date_time stamp] eqn:Hs.
    unfold bind.
    match goal with |- context [save_article_to_db E ?a w1] =>
      destruct (save_article_to_db_cases E a w1) as (saved & w2 & -> & Hhttp2 & _)
    end.
    eexists _, w2. split; [reflexivity |]. split; [congruence |].
    intros Hrow Hall. apply Forall_app. split; [done |].
    apply Forall_singleton.
    destruct (settle_datetime_timestamp found _ Hfound Hrow) as (d & Hd & Heq).
    exists d. split; [done |]. rewrite Hs in Heq. exact Heq.
  - eexists _, w1. split; [reflexivity | split; [exact Hhttp | done]].
  - eexists _, w1. split; [reflexivity | split; [exact Hhttp | done]].
Qed.

Lemma check_article_exists_in_db_total (E : env) (title url : Py.str) (w : world) :
  exists existing w',
    check_article_exists_in_db E title url w = (Ok existing, w') /\
    http_log w' = http_log w.
Proof.
  unfold check_article_exists_in_db, try_except, bind, connect, select_count, bind, ret.
  unfold db_operation at 1. destruct (db_fault E (length (sql_log w))).
  { eexists _, _. split; reflexivity. }
  unfold db_operation at 1. destruct (db_fault E _).
  { eexists _, _. split; reflexivity. }
  destruct (count_where _ _ _ >? 0).
  { eexists _, _. split; reflexivity. }
  unfold db_operation at 1. destruct (db_fault E _); eexists _, _; split; reflexivity.
Qed.

Lemma process_candidate_outcome (E : env) (events : list article) (item : candidate)
    (w : world) :
  exists events' w',
    process_candidate E events item w = (Ok events', w') /\
    ((exists d, c_actual_datetime item = Some d /\ DateTime.constructed d) ->
     Forall timestamped events -> Forall timestamped events').
Proof.
  unfold process_candidate, bind.
  destruct (check_article_exists_in_db_total E (c_title item) (c_url item) w)
    as (existing & w1 & -> & _).
  destruct existing.
  - eexists _, _. split; [reflexivity | done].
  - destruct (fetch_and_store_outcome E events item w1) as (events' & w2 & -> & _ & H).
    eexists _, _. split; [reflexivity | done].
Qed.

(** C3. When the lookups go through, the pre-check reports an item as
    existing exactly when some stored row has the same url or some
    stored row has the same title, and it leaves the database as it was.
    In particular, for a stored row the check of its own (title, url)
    answers [True], and so does the check of its title with any other
    url; both hold right after [save_article_to_db] has stored an item. *)
Theorem dedup_precheck_url_or_title (E : env) (w : world) :
  (forall k, (k < 3)%nat -> db_fault E (length (sql_log w) + k) = false) ->
  (forall title url,
     exists existing w',
       check_article_exists_in_db E title url w = (Ok existing, w') /\
       db w' = db w /\
       (existing = true <->
          (exists r, r ∈ news_items (db w) /\ Runtime.url r = url) \/
          (exists r, r ∈ news_items (db w) /\ Runtime.title r = title))) /\
  (forall r other_url, r ∈ news_items (db w) ->
     (check_article_exists_in_db E (title r) (url r) w).1 = Ok true /\
     (check_article_exists_in_db E (title r) other_url w).1 = Ok true) /\
  (forall a w0 other_url, save_article_to_db E a w0 = (Ok true, w) ->
     (check_article_exists_in_db E (a_title a) (a_url a) w).1 = Ok true /\
     (check_article_exists_in_db E (a_title a) other_url w).1 = Ok true).
Proof.
  intros Hok.
  assert (Hrun : forall title url,
    (check_article_exists_in_db E title url w).1 =
      Ok ((count_where Runtime.url url (news_items (db w)) >? 0)
          || (count_where Runtime.title title (news_items (db w)) >? 0))).
  { intros title url.
    destruct (check_article_exists_in_db_ok E w title url Hok) as (w' & -> & _). done. }
  assert (Hstored : forall r other_url, r ∈ news_items (db w) ->
     (check_article_exists_in_db E (title r) (url r) w).1 = Ok true /\
     (check_article_exists_in_db E (title r) other_url w).1 = Ok true).
  { intros r other_url Hin.
    assert (Ht : (count_where title (title r) (news_items (db w)) >? 0) = true)
      by (apply count_where_pos; by exists r).
    rewrite !Hrun, Ht, !orb_true_r. done. }
  split; [| split; [exact Hstored |]].
  - intros title url.
    destruct (check_article_exists_in_db_ok E w title url Hok) as (w' & Hrun' & Hdb).
    eexists _, w'. split; [exact Hrun' |]. split; [exact Hdb |].
    by rewrite orb_true_iff, !count_where_pos.
  - intros a w0 other_url Hsave.
    destruct (save_article_to_db_cases E a w0) as (saved & w1 & Hrun' & _ & Hrow & _).
    rewrite Hsave in Hrun'. injection Hrun' as <- <-.
    destruct Hrow as (row & Hrows & Ht & Hu & _).
    assert (Hin : row ∈ news_items (db w)).
    { rewrite Hrows. apply elem_of_app. right. by apply list_elem_of_singleton. }
    rewrite <- Ht, <- Hu. exact (Hstored row other_url Hin).
Qed.

Lemma dedup_precheck_url_or_title_witness :
  (check_article_exists_in_db Sample.quiet (Py.lit "headline")
     (Py.lit "https://rotter.net/forum/2.shtml") (Sample.fresh Sample.one_row_db)).1
  = Ok true.
Proof.
  pose proof (dedup_precheck_url_or_title Sample.quiet
                (Sample.fresh Sample.one_row_db) (fun k _ => eq_refl)) as H.
  apply (proj1 (proj2 H) Sample.stored). apply list_elem_of_singleton. reflexivity.
Defined.

Lemma insert_item_effect (E : env) (r : news_item) (w : world) :
  (exists e w', insert_item E r w = (Raise e, w') /\ db w' = db w /\
     http_log w' = http_log w) \/
  (exists w' stamp, insert_item E r w = (Ok tt, w') /\ http_log w' = http_log w /\
     db_fault E (length (sql_log w)) = false /\
     ~ Exists (fun x => url x = url r \/ hash_id x = hash_id r) (news_items (db w)) /\
     db w' = mk_database
               (news_items (db w) ++ [stored_row (last_id (db w) + 1) stamp r])
               (last_id (db w) + 1)).
Proof.
  unfold insert_item, bind.
  destruct (db_fault E (length (sql_log w))) eqn:H0.
  - rewrite (db_operation_raises E _ w H0). left. eexists _, _. repeat split.
  - rewrite (db_operation_ok E _ w H0).
    change (db (log_sql (InsertItem r) w)) with (db w).
    destruct (bool_decide _) eqn:Hex.
    + left. eexists _, _. repeat split.
    + right. apply bool_decide_eq_false in Hex.
      eexists _, _. split; [reflexivity |]. repeat split; done.
Qed.

(** What [save_article_to_db] does to the table. *)
Lemma save_article_to_db_effect (E : env) (a : article) (w : world) :
  let h := generate_article_hash E (a_title a) (a_url a) in
  exists saved w',
    save_article_to_db E a w = (Ok saved, w') /\
    http_log w' = http_log w /\
    if saved
    then ~ Exists (fun x => url x = a_url a \/ hash_id x = h) (news_items (db w)) /\
         exists stamp,
           db w' = mk_database
                     (news_items (db w)
                        ++ [stored_row (last_id (db w) + 1) stamp (row_of_article a h)])
                     (last_id (db w) + 1)
    else db w' = db w.
Proof.
  intros h. unfold save_article_to_db, try_except, bind at 1, connect.
  destruct (db_fault E (length (sql_log w))) eqn:H0.
  - rewrite (db_operation_raises E Connect w H0).
    eexists false, _. split; [reflexivity |]. repeat split.
  - rewrite (db_operation_ok E Connect w H0). fold h. unfold bind at 1.
    destruct (is_article_exists_cases E h (log_sql Connect w))
      as (existing & w1 & -> & Hdb1 & Hhttp1 & _).
    cbn [log_sql db http_log] in Hdb1, Hhttp1.
    destruct existing.
    + eexists false, _. split; [reflexivity |]. split; congruence.
    + unfold bind.
      destruct (insert_item_effect E (row_of_article a h) w1)
        as [(e & w2 & -> & Hdb2 & Hhttp2) | (w2 & stamp & -> & Hhttp2 & _ & Hnew & Hdb2)].
      * eexists false, _. split; [reflexivity |]. split; congruence.
      * eexists true, _. split; [reflexivity |]. split; [congruence |].
        rewrite Hdb1 in Hnew, Hdb2. split; [exact Hnew | by exists stamp].
Qed.

Lemma is_article_exists_ok (E : env) (h : Py.str) (w : world) :
  db_fault E (length (sql_log w)) = false ->
  db_fault E (S (length (sql_log w))) = false ->
  is_article_exists E h w =
    (Ok (count_where hash_id h (news_items (db w)) >? 0),
     log_sql (CountByHash h) (log_sql Connect w)).
Proof.
  intros H0 H1.
  unfold is_article_exists, try_except, bind, connect, select_count, bind, ret.
  rewrite (db_operation_ok E _ w H0).
  rewrite (db_operation_ok E _ (log_sql Connect w))
    by (by rewrite length_sql_log_log_sql).
  reflexivity.
Qed.

(** A page that is served is read: the content handed to the loop is
    the content of that page, and the database is not touched. *)
Lemma get_live_article_content_page (E : env) (u : Py.str) (page : article_page)
    (w : world) :
  http_article E (length (http_log w)) u = Some page ->
  exists found w',
    get_live_article_content E u w = (Ok (Some (extract_content page), found), w') /\
    http_log w' = http_log w ++ [u] /\ db w' = db w /\ sql_log w' = sql_log w.
Proof.
  intros Hpage.
  unfold get_live_article_content, try_except, bind at 1, get_article.
  rewrite Hpage. unfold bind.
  destruct (extract_datetime_from_article_page_outcome E (ap_text page) (log_http u w))
    as (found & w' & -> & Hw' & _).
  exists found, w'. split; [reflexivity |].
  destruct Hw' as [-> | ->]; repeat split.
Qed.

(** A save that the database accepts stores an article that is new. *)
Lemma save_article_to_db_accepted (E : env) (a : article) (w : world) :
  (forall k, (k < 4)%nat -> db_fault E (length (sql_log w) + k) = false) ->
  ~ Exists (fun x => url x = a_url a \/
                     hash_id x = generate_article_hash E (a_title a) (a_url a))
      (news_items (db w)) ->
  exists w', save_article_to_db E a w = (Ok true, w').
Proof.
  intros Hok Hnew. set (h := generate_article_hash E (a_title a) (a_url a)) in *.
  assert (H0 : db_fault E (length (sql_log w)) = false).
  { rewrite <- (Nat.add_0_r (length _)). apply Hok. lia. }
  assert (H1 : db_fault E (S (length (sql_log w))) = false).
  { rewrite <- Nat.add_1_r. apply Hok. lia. }
  assert (H2 : db_fault E (S (S (length (sql_log w)))) = false).
  { replace (S (S (length (sql_log w)))) with (length (sql_log w) + 2)%nat by lia.
    apply Hok. lia. }
  assert (H3 : db_fault E (S (S (S (length (sql_log w))))) = false).
  { replace (S (S (S (length (sql_log w))))) with (length (sql_log w) + 3)%nat by lia.
    apply Hok. lia. }
  unfold save_article_to_db, try_except, bind at 1, connect.
  rewrite (db_operation_ok E Connect w H0). fold h. unfold bind at 1.
  rewrite is_article_exists_ok by (by rewrite !length_sql_log_log_sql).
  cbn [log_sql db].
  destruct (count_where hash_id h (news_items (db w)) >? 0) eqn:Hcount.
  { exfalso. apply Hnew.
    apply count_where_pos in Hcount as (r & Hin & Hr).
    apply Exists_exists. exists r. auto. }
  unfold bind, insert_item, bind.
  rewrite db_operation_ok by (by rewrite !length_sql_log_log_sql).
  cbn [log_sql db].
  destruct (bool_decide _) eqn:Hex.
  - apply bool_decide_eq_true in Hex. by destruct Hnew.
  - eexists. reflexivity.
Qed.

(** The round of the loop for a candidate whose page is served with
    content: the item is built from the candidate and the page, handed to
    [save_article_to_db], and appended to the batch. *)
Lemma fetch_and_store_page (E : env) (events : list article) (item : candidate)
    (page : article_page) (w : world) :
  http_article E (length (http_log w)) (c_url item) = Some page ->
  Py.truthy (extract_content page) = true ->
  exists a w1 saved w',
    fetch_and_store E events item w = (Ok (events ++ [a]), w') /\
    a_title a = c_title item /\ a_url a = c_url item /\
    a_content a = extract_content page /\
    a_clean_content a = clean_article_content E (extract_content page) /\
    db w1 = db w /\ sql_log w1 = sql_log w /\
    save_article_to_db E a w1 = (Ok saved, w').
Proof.
  intros Hpage Hcontent. unfold fetch_and_store, bind at 1.
  destruct (get_live_article_content_page E (c_url item) page w Hpage)
    as (found & w1 & -> & _ & Hdb & Hsql).
  rewrite Hcontent.
  destruct (settle_datetime found (c_actual_datetime item)) as [date_time stamp].
  unfold bind.
  match goal with |- context [save_article_to_db E ?a w1] =>
    destruct (save_article_to_db_effect E a w1) as (saved & w2 & Hsave & _);
    exists a, w1, saved, w2
  end.
  rewrite Hsave. repeat split; done.
Qed.

(** C9. When the existence lookup raises (at the connection, at the
    query by url, or at the query by title), the pre-check answers
    [False] and leaves the database as it was; the loop of
    [scrape_live_news] then treats the candidate as new: it runs the
    fetch-and-store path, which requests the candidate's page.  When the
    page is served with content, the item built from the candidate and
    that page joins the batch and is handed to [save_article_to_db]: the
    save either appends its row, with the next id and [isProcessed] 0, or
    leaves the table as it was, and it appends the row whenever the
    database accepts its four operations and no stored row has the url or
    the fingerprint. *)
Theorem dedup_precheck_fails_open (E : env) (w : world) (events : list article)
    (item : candidate) :
  lookup_raises E w (c_url item) ->
  exists w',
    check_article_exists_in_db E (c_title item) (c_url item) w = (Ok false, w') /\
    db w' = db w /\
    process_candidate E events item w = fetch_and_store E events item w' /\
    exists events' w'',
      fetch_and_store E events item w' = (Ok events', w'') /\
      http_log w'' = http_log w ++ [c_url item] /\
      forall page,
        http_article E (length (http_log w)) (c_url item) = Some page ->
        Py.truthy (extract_content page) = true ->
        exists a w1 saved,
          events' = events ++ [a] /\
          a_title a = c_title item /\ a_url a = c_url item /\
          a_content a = extract_content page /\
          a_clean_content a = clean_article_content E (extract_content page) /\
          db w1 = db w /\ sql_log w1 = sql_log w' /\
          save_article_to_db E a w1 = (Ok saved, w'') /\
          (if saved
           then exists stamp,
             db w'' = mk_database
                        (news_items (db w)
                           ++ [stored_row (last_id (db w) + 1) stamp
                                 (row_of_article a
                                    (generate_article_hash E (c_title item)
                                       (c_url item)))])
                        (last_id (db w) + 1)
           else db w'' = db w) /\
          ((forall k, (k < 4)%nat -> db_fault E (length (sql_log w') + k) = false) ->
           ~ (exists r, r ∈ news_items (db w) /\
                (url r = c_url item \/
                 hash_id r = generate_article_hash E (c_title item) (c_url item))) ->
           saved = true).
Proof.
  intros Hraise.
  destruct (check_article_exists_in_db_raises E w (c_title item) (c_url item) Hraise)
    as (w' & Hcheck & Hdb & Hhttp).
  exists w'. split; [exact Hcheck |]. split; [exact Hdb |]. split.
  { unfold process_candidate, bind. by rewrite Hcheck. }
  destruct (fetch_and_store_outcome E events item w') as (events' & w'' & Hrun & Hlog & _).
  exists events', w''. split; [exact Hrun |]. split; [by rewrite Hlog, Hhttp |].
  intros page Hpage Hcontent. rewrite <- Hhttp in Hpage.
  destruct (fetch_and_store_page E events item page w' Hpage Hcontent)
    as (a & w1 & saved & w2 & Hrun' & Ht & Hu & Hc & Hcc & Hdb1 & Hsql1 & Hsave).
  rewrite Hrun in Hrun'. injection Hrun' as -> ->.
  exists a, w1, saved. split; [reflexivity |].
  do 4 (split; [done |]). split; [congruence |]. split; [exact Hsql1 |].
  split; [exact Hsave |].
  destruct (save_article_to_db_effect E a w1) as (saved' & w3 & Hsave' & _ & Heffect).
  rewrite Hsave in Hsave'. injection Hsave' as <- <-.
  rewrite Ht, Hu, Hdb1, Hdb in Heffect. split.
  - destruct saved; [| exact Heffect]. by destruct Heffect as [_ Hrow].
  - intros Hok Hnew.
    destruct (save_article_to_db_accepted E a w1) as (w3 & Hsave').
    + by rewrite Hsql1.
    + rewrite Ht, Hu, Hdb1, Hdb. intros Hex. apply Hnew.
      apply Exists_exists in Hex as (r & Hin & Hr). by exists r.
    + rewrite Hsave in Hsave'. by injection Hsave' as ->.
Qed.

Lemma dedup_precheck_fails_open_witness :
  exists events' w'',
    process_candidate Sample.flaky [] Sample.lead (Sample.fresh Sample.empty_db)
      = (Ok events', w'') /\
    http_log w'' = [c_url Sample.lead] /\
    map a_title events' = [c_title Sample.lead] /\
    map title (news_items (db w'')) = [c_title Sample.lead] /\
    map isProcessed (news_items (db w'')) = [0].
Proof.
  destruct (dedup_precheck_fails_open Sample.flaky (Sample.fresh Sample.empty_db)
              [] Sample.lead)
    as (w' & Hcheck & _ & Hsame & events' & w'' & Hrun & Hlog & Hpage);
    [left; reflexivity |].
  vm_compute in Hcheck. injection Hcheck as <-.
  destruct (Hpage Sample.page) as (a & w1 & saved & -> & Ht & _ & _ & _ & _ & _ & _
                                   & Hrow & Hsaved);
    [reflexivity | vm_compute; reflexivity |].
  rewrite Hsaved in Hrow.
  - destruct Hrow as (stamp & Hrow).
    exists [a], w''. rewrite Hsame, Hrun. split; [reflexivity |].
    split; [exact Hlog |]. split; [cbn [map app]; by rewrite Ht |].
    rewrite Hrow. unfold Sample.fresh, Sample.empty_db.
    cbn [news_items db map app stored_row row_of_article title isProcessed].
    by rewrite Ht.
  - intros k _. reflexivity.
  - intros (r & Hin & _). by apply elem_of_nil in Hin.
Defined.

(** C10. The fingerprint depends on the concatenation of title and url
    only: pairs with equal concatenations have equal fingerprints, as
    have the distinct pairs ("ab", "c") and ("a", "bc").  Once an item has
    been saved, saving another item with the same concatenation answers
    [False] and stores nothing; when the database answers the hash
    lookup, it is that lookup that reports the item as existing. *)
Theorem fingerprint_of_concatenation (E : env) :
  (forall t u t' u' : Py.str, t ++ u = t' ++ u' ->
     generate_article_hash E t u = generate_article_hash E t' u') /\
  ((Py.lit "ab", Py.lit "c") <> (Py.lit "a", Py.lit "bc") /\
   generate_article_hash E (Py.lit "ab") (Py.lit "c")
     = generate_article_hash E (Py.lit "a") (Py.lit "bc")) /\
  (forall (a b : article) (w w1 : world),
     a_title a ++ a_url a = a_title b ++ a_url b ->
     save_article_to_db E a w = (Ok true, w1) ->
     exists w2,
       save_article_to_db E b w1 = (Ok false, w2) /\ db w2 = db w1 /\
       ((forall k, (k < 3)%nat -> db_fault E (length (sql_log w1) + k) = false) ->
        (is_article_exists E (generate_article_hash E (a_title b) (a_url b))
           (log_sql Connect w1)).1 = Ok true)).
Proof.
  split; [| split; [split |]].
  - intros t u t' u' Heq. unfold generate_article_hash. by rewrite Heq.
  - by vm_compute.
  - reflexivity.
  - intros a b w w1 Heq Hsave.
    destruct (save_article_to_db_cases E a w) as (saved & w1' & Hrun & _ & Hrow & _).
    rewrite Hsave in Hrun. injection Hrun as <- <-.
    destruct Hrow as (row & Hrows & _ & _ & Hhash).
    assert (Hin : row ∈ news_items (db w1)).
    { rewrite Hrows. apply elem_of_app. right. by apply list_elem_of_singleton. }
    assert (Hsame : hash_id row = generate_article_hash E (a_title b) (a_url b)).
    { rewrite Hhash. unfold generate_article_hash. by rewrite Heq. }
    destruct (save_article_to_db_cases E b w1) as (saved & w2 & Hrun & _ & Hdb & Hknown).
    rewrite Hknown in Hrun, Hdb by (apply Exists_exists; by exists row).
    exists w2. split; [exact Hrun |]. split; [exact Hdb |].
    intros Hok.
    destruct (is_article_exists_cases E (generate_article_hash E (a_title b) (a_url b))
                (log_sql Connect w1)) as (existing & w' & -> & _ & _ & _ & Hcount).
    cbn [fst]. f_equal. rewrite Hcount.
    + apply count_where_pos. by exists row.
    + intros k Hk. rewrite length_sql_log_log_sql.
      replace (S (length (sql_log w1)) + k)%nat with (length (sql_log w1) + S k)%nat by lia.
      apply Hok. lia.
Qed.

Lemma fingerprint_of_concatenation_witness :
  exists w2,
    save_article_to_db Sample.quiet Sample.article_a_bc
      (save_article_to_db Sample.quiet Sample.article_ab_c
         (Sample.fresh Sample.empty_db)).2 = (Ok false, w2) /\
    db w2 = db (save_article_to_db Sample.quiet Sample.article_ab_c
                  (Sample.fresh Sample.empty_db)).2.
Proof.
  destruct (fingerprint_of_concatenation Sample.quiet) as (_ & _ & Hlater).
  destruct (Hlater Sample.article_ab_c Sample.article_a_bc
              (Sample.fresh Sample.empty_db)
              (save_article_to_db Sample.quiet Sample.article_ab_c
                 (Sample.fresh Sample.empty_db)).2)
    as (w2 & Hrun & Hdb & _); [reflexivity | reflexivity |].
  exists w2. split; [exact Hrun | exact Hdb].
Defined.

(** C8. A timestamp is accepted exactly when it lies at most 24 hours
    before the clock reading taken by the check: one that is 24 hours and
    1 minute old is rejected, one that is 23 hours and 59 minutes old is
    accepted, and a missing timestamp is rejected without reading the
    clock. *)
Theorem freshness_window (E : env) (w : world) :
  let now := now_at E (ticks w) in
  (forall t, exists accepted,
     is_within_24_hours E (Some t) w = (Ok accepted, tick w) /\
     (accepted = true <-> DateTime.sub now t <= 24 * 3600 * 1000000)) /\
  (forall t, DateTime.sub now t = (24 * 60 + 1) * 60 * 1000000 ->
     is_within_24_hours E (Some t) w = (Ok false, tick w)) /\
  (forall t, DateTime.sub now t = (23 * 60 + 59) * 60 * 1000000 ->
     is_within_24_hours E (Some t) w = (Ok true, tick w)) /\
  is_within_24_hours E None w = (Ok false, w).
Proof.
  intros now.
  assert (Hrun : forall t, is_within_24_hours E (Some t) w =
            (Ok (DateTime.sub now t <=? 86400 * 1000000), tick w)) by reflexivity.
  split; [| split; [| split]].
  - intros t. eexists. split; [apply Hrun |]. rewrite Z.leb_le. lia.
  - intros t Hage. rewrite Hrun, Hage. reflexivity.
  - intros t Hage. rewrite Hrun, Hage. reflexivity.
  - reflexivity.
Qed.

Lemma freshness_window_witness :
  (DateTime.sub Sample.morning (DateTime.mk 2025 8 22 9 59 0 0)
     = (24 * 60 + 1) * 60 * 1000000 /\
   is_within_24_hours Sample.quiet (Some (DateTime.mk 2025 8 22 9 59 0 0))
     (Sample.fresh Sample.empty_db) = (Ok false, tick (Sample.fresh Sample.empty_db))) /\
  (DateTime.sub Sample.morning (DateTime.mk 2025 8 22 10 1 0 0)
     = (23 * 60 + 59) * 60 * 1000000 /\
   is_within_24_hours Sample.quiet (Some (DateTime.mk 2025 8 22 10 1 0 0))
     (Sample.fresh Sample.empty_db) = (Ok true, tick (Sample.fresh Sample.empty_db))).
Proof.
  pose proof (freshness_window Sample.quiet (Sample.fresh Sample.empty_db))
    as (_ & Hlate & Hearly & _).
  split; (split; [reflexivity |]).
  - apply Hlate. reflexivity.
  - apply Hearly. reflexivity.
Defined.

Lemma truncate_or_placeholder_bounds (s : Py.str) :
  truncate_or_placeholder s <> [] /\
  Py.len (truncate_or_placeholder s) <= 1000 + Py.len (Py.lit "...").
Proof.
  unfold truncate_or_placeholder, Py.or_else, Py.len. rewrite lit_dots.
  destruct (Z.of_nat (length s) >? 1000) eqn:Hlong.
  - destruct (take 1000 s ++ [46; 46; 46]%N) as [|c r] eqn:Hcut.
    + apply (f_equal length) in Hcut. rewrite length_app in Hcut.
      cbn [length] in Hcut. lia.
    + cbn [Py.truthy]. split; [done |]. rewrite <- Hcut, length_app, length_take.
      cbn [length]. lia.
  - rewrite Z.gtb_ltb, Z.ltb_ge in Hlong. destruct s as [|c r].
    + cbn [Py.truthy]. split; [by vm_compute | by vm_compute].
    + cbn [Py.truthy]. split; [done |]. cbn [length] in *. lia.
Qed.

Example clean_empty_input :
  clean_article_content Sample.quiet [] = Py.lit "אין תוכן זמין".
Proof. reflexivity. Qed.

Example clean_long_input :
  Py.len (clean_article_content Sample.quiet (repeat 97%N 1200)) = 1003.
Proof. vm_compute. reflexivity. Qed.

Example clean_only_navigation :
  clean_article_content Sample.quiet (Py.lit "Downloads and Kiwi")
  = Py.lit "תוכן זמין בקישור המקורי".
Proof. vm_compute. reflexivity. Qed.

(** C5. Whatever the input and whatever the regular expressions remove,
    the cleaner returns a non-empty string of at most 1000 characters
    plus the length of the ellipsis. *)
Theorem clean_article_content_bounds (E : env) (content : Py.str) :
  clean_article_content E content <> [] /\
  Py.len (clean_article_content E content) <= 1000 + Py.len (Py.lit "...").
Proof.
  unfold clean_article_content. destruct (negb (Py.truthy content)).
  - split; [by vm_compute | by vm_compute].
  - apply truncate_or_placeholder_bounds.
Qed.

Lemma datetime_of_strings_fields (year month day hour minute : Py.str)
    (dt : DateTime.datetime) :
  datetime_of_strings year month day hour minute = Some dt ->
  Py.int year = Some (DateTime.year dt) /\
  Py.int month = Some (DateTime.month dt) /\
  Py.int day = Some (DateTime.day dt) /\
  Py.int hour = Some (DateTime.hour dt) /\
  Py.int minute = Some (DateTime.minute dt) /\
  DateTime.constructed dt.
Proof.
  unfold datetime_of_strings.
  destruct (Py.int year) as [y|]; [| discriminate].
  destruct (Py.int month) as [m|]; [| discriminate].
  destruct (Py.int day) as [d|]; [| discriminate].
  destruct (Py.int hour) as [H|]; [| discriminate].
  destruct (Py.int minute) as [Mi|]; [| discriminate].
  intros Hmake. pose proof (make_constructed _ _ _ _ _ _ Hmake) as Hc.
  unfold DateTime.make in Hmake. destruct (DateTime.valid _); [| discriminate].
  injection Hmake as <-. do 5 (split; [reflexivity |]). exact Hc.
Qed.

(** C6 (amended). Whenever [re.search] finds the combined pattern in the
    text and the numbers of that leftmost match make a date and time
    that [datetime] accepts, both recovery functions return exactly that
    timestamp: the matched day, month, hour and minute, the year
    2000 + YY, at second 0.  Nothing else is consulted: the clock is not
    read and the separate date and time patterns play no part. *)
Theorem combined_pattern_first (E : env) (w : world)
    (text day month year hour minute : Py.str) (dt : DateTime.datetime) :
  Re.search date_time_re text = Some [day; month; year; hour; minute] ->
  datetime_of_strings (Py.lit "20" ++ year) month day hour minute = Some dt ->
  extract_actual_datetime_from_row E text w = (Ok (Some dt), w) /\
  extract_datetime_from_article_page E text w = (Ok (Some dt), w) /\
  (exists yy, Py.int year = Some yy /\ 0 <= yy <= 99 /\ DateTime.year dt = 2000 + yy) /\
  Py.int month = Some (DateTime.month dt) /\
  Py.int day = Some (DateTime.day dt) /\
  Py.int hour = Some (DateTime.hour dt) /\
  Py.int minute = Some (DateTime.minute dt) /\
  DateTime.second dt = 0 /\ DateTime.microsecond dt = 0.
Proof.
  intros Hsearch Hdt.
  assert (Hcombined : combined_datetime text = Some dt).
  { unfold combined_datetime. by rewrite Hsearch. }
  split; [| split].
  - unfold extract_actual_datetime_from_row. by rewrite Hcombined.
  - unfold extract_datetime_from_article_page. by rewrite Hcombined.
  - apply search_sound in Hsearch. cbn [List.filter date_time_re Re.group Re.one Re.plus Re.a_group] in Hsearch.
    apply Forall2_cons in Hsearch as [_ Hsearch].
    apply Forall2_cons in Hsearch as [_ Hsearch].
    apply Forall2_cons in Hsearch as [Hyear _].
    destruct (int_century year Hyear) as (yy & Hyy & Hrange & Hcentury).
    destruct (datetime_of_strings_fields _ _ _ _ _ _ Hdt)
      as (Hy & Hm & Hd & HH & HMi & _ & Hs & Hus).
    rewrite Hcentury in Hy. injection Hy as Hy.
    split; [by exists yy |]. by repeat split.
Qed.

Lemma combined_pattern_first_witness :
  extract_actual_datetime_from_row Sample.quiet (Py.lit "22.08.25 09:39")
    (Sample.fresh Sample.empty_db)
  = (Ok (Some (DateTime.mk 2025 8 22 9 39 0 0)), Sample.fresh Sample.empty_db).
Proof.
  apply (combined_pattern_first Sample.quiet (Sample.fresh Sample.empty_db)
           (Py.lit "22.08.25 09:39") (Py.lit "22") (Py.lit "08") (Py.lit "25")
           (Py.lit "09") (Py.lit "39")); reflexivity.
Defined.

(** The text "32.01.25 10:30" contains the combined pattern, and no
    timestamp is recovered from it: day 32 is refused by [datetime], and
    the later strategies meet the same digits. *)
Lemma combined_pattern_invalid_day :
  Re.search date_time_re (Py.lit "32.01.25 10:30")
    = Some [Py.lit "32"; Py.lit "01"; Py.lit "25"; Py.lit "10"; Py.lit "30"] /\
  extract_actual_datetime_from_row Sample.quiet (Py.lit "32.01.25 10:30")
    (Sample.fresh Sample.empty_db) = (Ok None, Sample.fresh Sample.empty_db).
Proof. split; reflexivity. Qed.

(** A written date and time, after text without digits, is what
    [re.search] finds for the combined pattern. *)
Lemma search_written_stamp (pre day month year blank hour minute post : Py.str) :
  Forall (fun c => Py.isdecimal c = false) pre ->
  Re.fits (Re.group Re.Digit 1 2) day ->
  Re.fits (Re.group Re.Digit 1 2) month ->
  Re.fits (Re.group Re.Digit 2 2) year ->
  Re.fits (Re.plus Re.Space) blank ->
  Re.fits (Re.group Re.Digit 1 2) hour ->
  Re.fits (Re.group Re.Digit 2 2) minute ->
  Re.search date_time_re
    (pre ++ day ++ Py.lit "." ++ month ++ Py.lit "." ++ year ++ blank
         ++ hour ++ Py.lit ":" ++ minute ++ post)
  = Some [day; month; year; hour; minute].
Proof.
  intros Hpre Hday Hmonth Hyear Hblank Hhour Hminute.
  change (Py.lit ".") with [46%N]. change (Py.lit ":") with [58%N].
  unfold date_time_re. unfold Re.group at 1. rewrite search_skip_non_digits by done.
  apply match_here_search. fold (Re.group Re.Digit 1 2).
  assert (Hdot : forall rest, Re.run_length Re.Digit (46%N :: rest) = O) by done.
  assert (Hcolon : forall rest, Re.run_length Re.Digit (58%N :: rest) = O) by done.
  assert (Hlit : forall c, Re.fits (Re.one c) [c]).
  { intros c. split; [| split].
    - constructor; [| constructor]. cbn. apply N.eqb_refl.
    - cbn. lia.
    - intros h [= <-]. cbn. lia. }
  assert (Hfull : forall g, Re.fits (Re.group Re.Digit 2 2) g ->
                    Re.a_hi (Re.group Re.Digit 2 2) = Some (length g)).
  { intros g (_ & Hlo & Hhi). specialize (Hhi 2%nat eq_refl). cbn in *. f_equal. lia. }
  assert (Hhour_head : Re.run_length Re.Space (hour ++ [58%N] ++ minute ++ post) = O).
  { destruct Hhour as (Hall & Hlo & _). destruct hour as [|c hour]; [cbn in Hlo; lia |].
    apply Forall_cons in Hall as [Hc _]. cbn [app Re.run_length Re.in_class].
    cbn [Re.group Re.a_class Re.in_class] in Hc. by rewrite (decimal_not_space c Hc). }
  rewrite (match_here_step _ _ day _ [month; year; hour; minute] Hday); [done | by right |].
  rewrite (match_here_step _ _ [46%N] _ [month; year; hour; minute] (Hlit _));
    [done | by left |].
  rewrite (match_here_step _ _ month _ [year; hour; minute] Hmonth); [done | by right |].
  rewrite (match_here_step _ _ [46%N] _ [year; hour; minute] (Hlit _)); [done | by left |].
  rewrite (match_here_step _ _ year _ [hour; minute] Hyear); [done | left; by apply Hfull |].
  rewrite (match_here_step _ _ blank _ [hour; minute] Hblank); [done | by right |].
  rewrite (match_here_step _ _ hour _ [minute] Hhour); [done | by right |].
  rewrite (match_here_step _ _ [58%N] _ [minute] (Hlit _)); [done | by left |].
  rewrite (match_here_step _ _ minute _ [] Hminute); [done | left; by apply Hfull |].
  reflexivity.
Qed.

(** X12. A date and time written as [DD.MM.YY HH:MM] (one or two digits
    for day, month and hour, any run of whitespace between date and time)
    after text without digits, and with numbers that [datetime] accepts,
    is recovered from a row exactly as written, whatever follows it, and
    without reading the clock. *)
Corollary written_stamp_recovered (E : env) (w : world)
    (pre day month year blank hour minute post : Py.str) (dt : DateTime.datetime) :
  Forall (fun c => Py.isdecimal c = false) pre ->
  Re.fits (Re.group Re.Digit 1 2) day ->
  Re.fits (Re.group Re.Digit 1 2) month ->
  Re.fits (Re.group Re.Digit 2 2) year ->
  Re.fits (Re.plus Re.Space) blank ->
  Re.fits (Re.group Re.Digit 1 2) hour ->
  Re.fits (Re.group Re.Digit 2 2) minute ->
  datetime_of_strings (Py.lit "20" ++ year) month day hour minute = Some dt ->
  extract_actual_datetime_from_row E
    (pre ++ day ++ Py.lit "." ++ month ++ Py.lit "." ++ year ++ blank
         ++ hour ++ Py.lit ":" ++ minute ++ post) w
  = (Ok (Some dt), w).
Proof.
  intros Hpre Hday Hmonth Hyear Hblank Hhour Hminute Hdt.
  unfold extract_actual_datetime_from_row, combined_datetime.
  rewrite (search_written_stamp pre day month year blank hour minute post) by done.
  by rewrite Hdt.
Qed.

Lemma insert_newest_first_perm (x : article) (l : list article) :
  Permutation (insert_newest_first x l) (x :: l).
Proof.
  induction l as [|y t IH]; cbn [insert_newest_first]; [done |].
  destruct (Py.ltb _ _); [| done].
  rewrite IH. apply perm_swap.
Qed.

Lemma sort_newest_first_perm (l : list article) : Permutation (sort_newest_first l) l.
Proof.
  induction l as [|x l IH]; [done |]. cbn [sort_newest_first fold_right].
  fold (sort_newest_first l). rewrite insert_newest_first_perm. by constructor.
Qed.

Lemma ltb_not_older (x y : article) :
  Py.ltb (a_actual_datetime x) (a_actual_datetime y) = true -> not_older y x.
Proof.
  unfold not_older, Py.ltb. rewrite (compare_antisym (a_actual_datetime x)).
  by destruct (Py.compare (a_actual_datetime x) (a_actual_datetime y)).
Qed.

Lemma insert_newest_first_sorted (x : article) (l : list article) :
  StronglySorted not_older l -> StronglySorted not_older (insert_newest_first x l).
Proof.
  induction 1 as [|y t Hsorted IH Hall]; cbn [insert_newest_first].
  - repeat constructor.
  - destruct (Py.ltb (a_actual_datetime x) (a_actual_datetime y)) eqn:Hlt.
    + constructor; [exact IH |].
      apply (Permutation_Forall (Permutation_sym (insert_newest_first_perm x t))).
      constructor; [by apply ltb_not_older | exact Hall].
    + constructor; [by constructor |]. constructor; [exact Hlt |].
      eapply Forall_impl; [exact Hall |]. intros z Hz.
      unfold not_older in *. by eapply not_ltb_trans.
Qed.

Lemma sort_newest_first_sorted (l : list article) :
  StronglySorted not_older (sort_newest_first l).
Proof.
  induction l as [|x l IH]; [constructor |].
  cbn [sort_newest_first fold_right]. by apply insert_newest_first_sorted.
Qed.

Lemma visit_link_outcome (E : env) (row : listing_row) (items : list candidate)
    (link : Py.str * Py.str) (w : world) :
  Forall dated items ->
  exists items' w', visit_link E row items link w = (Ok items', w') /\ Forall dated items'.
Proof.
  intros Hitems. unfold visit_link. destruct link as [href title].
  destruct (looks_like_news title href); [| by exists items, w].
  unfold bind at 1.
  destruct (extract_actual_datetime_from_row_outcome E (lr_text_stripped row) w)
    as (found & w1 & -> & _ & Hfound).
  destruct found as [dt|]; [| by exists items, w1].
  unfold bind, is_within_24_hours, bind, datetime_now, ret.
  destruct (DateTime.total_seconds_le _ _); [| by eexists _, _].
  eexists _, _. split; [reflexivity |].
  apply Forall_app. split; [done |]. apply Forall_singleton.
  exists dt. split; [done | by apply Hfound].
Qed.

Lemma get_live_forum_page_outcome (E : env) (w : world) :
  exists items w', get_live_forum_page E w = (Ok items, w') /\ Forall dated items.
Proof.
  unfold get_live_forum_page, try_except, bind, get_listing.
  destruct (http_listing E (length (http_log w))) as [rows|].
  - destruct (for_each_outcome
                (fun items row => for_each (visit_link E row) (lr_links row) items)
                (Forall dated) (fun _ => True) rows [] (log_http forum_url w))
      as (items & w' & -> & Hitems).
    + intros acc row w0 _ Hacc.
      apply (for_each_outcome (visit_link E row) (Forall dated) (fun _ => True)).
      * intros acc0 link w1 _ Hacc0. by apply visit_link_outcome.
      * by apply Forall_forall.
      * exact Hacc.
    + by apply Forall_forall.
    + constructor.
    + by exists items, w'.
  - eexists _, _. split; [reflexivity | constructor].
Qed.

Lemma scrape_live_news_outcome (E : env) (w : world) :
  exists batch w',
    scrape_live_news E w = (Ok batch, w') /\
    Forall timestamped batch /\ StronglySorted not_older batch.
Proof.
  unfold scrape_live_news, bind at 1.
  destruct (get_live_forum_page_outcome E w) as (items & w1 & -> & Hitems).
  destruct items as [|item items].
  { exists [], w1. split; [reflexivity |]. split; constructor. }
  unfold bind.
  destruct (for_each_outcome (process_candidate E) (Forall timestamped) dated
              (item :: items) [] w1) as (events & w2 & -> & Hevents).
  - intros acc x w0 Hx Hacc.
    destruct (process_candidate_outcome E acc x w0) as (acc' & w' & Hrun & Hkeep).
    exists acc', w'. split; [exact Hrun | by apply Hkeep].
  - exact Hitems.
  - constructor.
  - eexists _, w2. split; [reflexivity |]. split.
    + by apply (Permutation_Forall (Permutation_sym (sort_newest_first_perm events))).
    + apply sort_newest_first_sorted.
Qed.

Lemma stamps_of_timestamped (batch : list article) :
  Forall timestamped batch ->
  exists stamps,
    map a_actual_datetime batch = map DateTime.isoformat stamps /\
    Forall DateTime.constructed stamps.
Proof.
  induction 1 as [|x batch (d & Hd & Hx) _ (stamps & Hmap & Hall)].
  - by exists [].
  - exists (d :: stamps). split; [cbn [map]; by rewrite Hx, Hmap | by constructor].
Qed.

Lemma stamps_not_newer (d : DateTime.datetime) (batch : list article)
    (stamps : list DateTime.datetime) :
  DateTime.constructed d ->
  map a_actual_datetime batch = map DateTime.isoformat stamps ->
  Forall DateTime.constructed stamps ->
  Forall (fun y => Py.ltb (DateTime.isoformat d) (a_actual_datetime y) = false) batch ->
  Forall (fun older => DateTime.leb older d = true) stamps.
Proof.
  intros Hd. revert stamps.
  induction batch as [|y batch IH]; intros [|o stamps] Hmap Hall Hbatch;
    try discriminate; [constructor |].
  injection Hmap as Hy Hmap.
  apply Forall_cons in Hall as [Ho Hall]. apply Forall_cons in Hbatch as [Hyd Hbatch].
  constructor; [| by apply IH].
  rewrite Hy in Hyd. unfold Py.ltb in Hyd. rewrite isoformat_compare in Hyd by done.
  unfold DateTime.leb. rewrite (datetime_compare_antisym d o) by done.
  by destruct (DateTime.cmp d o).
Qed.

Lemma stamps_sorted (batch : list article) (stamps : list DateTime.datetime) :
  map a_actual_datetime batch = map DateTime.isoformat stamps ->
  Forall DateTime.constructed stamps ->
  StronglySorted not_older batch ->
  StronglySorted (fun newer older => DateTime.leb older newer = true) stamps.
Proof.
  intros Hmap Hall Hsorted. revert stamps Hmap Hall.
  induction Hsorted as [|x batch _ IH Hx]; intros [|d stamps] Hmap Hall;
    try discriminate; [constructor |].
  injection Hmap as Hxd Hmap. apply Forall_cons in Hall as [Hd Hall].
  constructor; [by apply IH |].
  apply (stamps_not_newer d batch stamps Hd Hmap Hall).
  eapply Forall_impl; [exact Hx |]. intros y Hy. unfold not_older in Hy. by rewrite <- Hxd.
Qed.




(** The same in terms of instants: along the batch, the microsecond
    count of the recovered timestamps never increases. *)
Corollary batch_instants_descending (E : env) (w : world) :
  exists batch w' stamps,
    scrape_live_news E w = (Ok batch, w') /\
    map a_actual_datetime batch = map DateTime.isoformat stamps /\
    StronglySorted
      (fun newer older => DateTime.to_microseconds older <= DateTime.to_microseconds newer)
      stamps.
Proof.
  destruct (scrape_live_news_outcome E w) as (batch & w' & Hrun & Hstamped & Hnewest).
  destruct (stamps_of_timestamped batch Hstamped) as (stamps & Hmap & Hall).
  pose proof (stamps_sorted batch stamps Hmap Hall Hnewest) as Hsorted.
  exists batch, w', stamps. split; [exact Hrun |]. split; [exact Hmap |].
  clear Hmap Hrun Hnewest Hstamped.
  induction Hsorted as [|d stamps _ IH Hd]; [constructor |].
  apply Forall_cons in Hall as [Hdc Hall].
  constructor; [by apply IH |].
  apply Forall_forall. intros o Ho.
  apply DateTimeFacts.leb_instants.
  - by destruct (proj1 (Forall_forall _ _) Hall o Ho).
  - by destruct Hdc.
  - by apply (proj1 (Forall_forall _ _) Hd o Ho).
Qed.

(** A run on the sample listing: the row of last week is dropped, the
    two fresh items come back newest first, the reverse of the listing. *)
Example scrape_sample_listing :
  (fun r => match r with
            | Ok batch => map a_actual_datetime batch
            | Raise _ => []
            end) (scrape_live_news Sample.busy (Sample.fresh Sample.empty_db)).1
  = [Py.lit "2025-08-23T09:00:00"; Py.lit "2025-08-22T23:10:00"].
Proof. vm_compute. reflexivity. Qed.


(** The same through the loop: a candidate that came without a date,
    whose page gives none either, is stored as "Unknown" and heads the
    sorted batch, before the candidate with a date. *)
Example loop_places_undated_first :
  (fun r => match r with
            | Ok events => map a_actual_datetime (sort_newest_first events)
            | Raise _ => []
            end)
    (for_each (process_candidate Sample.busy) [Sample.lead; Sample.stray] []
       (Sample.fresh Sample.empty_db)).1
  = [Py.lit "Unknown"; Py.lit "2025-08-23T08:30:00"].
Proof. vm_compute. reflexivity. Qed.

(** *** Recovery of dates: what is never found, and the range of what is *)

(** X13. A text without any decimal digit yields no timestamp: both
    recovery functions answer [None] without reading the clock, and a
    link of a listing row with such a text adds no candidate. *)
Theorem digit_free_text_has_no_timestamp (E : env) (w : world) (text : Py.str) :
  Forall (fun c => Py.isdecimal c = false) text ->
  extract_actual_datetime_from_row E text w = (Ok None, w) /\
  extract_datetime_from_article_page E text w = (Ok None, w) /\
  forall row items link,
    lr_text_stripped row = text -> visit_link E row items link w = (Ok items, w).
Proof.
  intros Hfree.
  assert (Hc : combined_datetime text = None).
  { unfold combined_datetime, date_time_re, Re.group. by rewrite search_digit_free. }
  assert (Hd : Re.search date_re text = None).
  { unfold date_re, Re.group. by rewrite search_digit_free. }
  assert (Ht : Re.search time_re text = None).
  { unfold time_re, Re.group. by rewrite search_digit_free. }
  assert (Hrow : extract_actual_datetime_from_row E text w = (Ok None, w)).
  { unfold extract_actual_datetime_from_row. by rewrite Hc, Hd, Ht. }
  split; [exact Hrow |]. split.
  - unfold extract_datetime_from_article_page. by rewrite Hc, Hd, Ht.
  - intros row items [href title] <-. unfold visit_link.
    destruct (looks_like_news title href); [| done].
    unfold bind. by rewrite Hrow.
Qed.

Lemma digit_free_text_has_no_timestamp_witness :
  extract_actual_datetime_from_row Sample.quiet (Py.lit "posted by someone")
    (Sample.fresh Sample.empty_db) = (Ok None, Sample.fresh Sample.empty_db).
Proof.
  refine (proj1 (digit_free_text_has_no_timestamp Sample.quiet
                   (Sample.fresh Sample.empty_db) (Py.lit "posted by someone") _)).
  apply digit_free_forallb. vm_compute. reflexivity.
Defined.

Lemma make_fields (y m d H Mi : Z) (dt : DateTime.datetime) :
  DateTime.make y m d H Mi = Some dt ->
  DateTime.year dt = y /\ DateTime.month dt = m /\ DateTime.day dt = d /\
  DateTime.hour dt = H /\ DateTime.minute dt = Mi.
Proof.
  unfold DateTime.make. destruct (DateTime.valid _); [| done]. by intros [= <-].
Qed.

Lemma century_year (year month day : Py.str) (H Mi : Z) (dt : DateTime.datetime) :
  Re.fits (Re.group Re.Digit 2 2) year ->
  date_of_strings (Py.lit "20" ++ year) month day H Mi = Some dt ->
  2000 <= DateTime.year dt <= 2099 /\ DateTime.hour dt = H /\ DateTime.minute dt = Mi.
Proof.
  intros Hfit. destruct (int_century year Hfit) as (yy & _ & Hyy & Hint).
  unfold date_of_strings. rewrite Hint.
  destruct (Py.int month); [| done]. destruct (Py.int day); [| done].
  intros Hm. apply make_fields in Hm as (-> & _ & _ & -> & ->). lia.
Qed.

Lemma datetime_of_strings_date (year month day hour minute : Py.str) :
  datetime_of_strings year month day hour minute =
    match Py.int hour, Py.int minute with
    | Some H, Some Mi => date_of_strings year month day H Mi
    | _, _ => None
    end.
Proof.
  unfold datetime_of_strings, date_of_strings.
  destruct (Py.int year), (Py.int month), (Py.int day), (Py.int hour), (Py.int minute); done.
Qed.

Lemma datetime_of_strings_century (year month day hour minute : Py.str)
    (dt : DateTime.datetime) :
  Re.fits (Re.group Re.Digit 2 2) year ->
  datetime_of_strings (Py.lit "20" ++ year) month day hour minute = Some dt ->
  2000 <= DateTime.year dt <= 2099.
Proof.
  intros Hfit. rewrite datetime_of_strings_date.
  destruct (Py.int hour); [| done]. destruct (Py.int minute); [| done].
  intros Hd. by apply (century_year _ _ _ _ _ _ Hfit) in Hd as [? _].
Qed.

(** The year group of a match of the date pattern, or of the combined
    pattern, is two decimal digits. *)
Lemma date_re_year (text day month year : Py.str) :
  Re.search date_re text = Some [day; month; year] ->
  Re.fits (Re.group Re.Digit 2 2) year.
Proof.
  intros Hs. apply search_sound in Hs. cbn in Hs.
  inversion Hs as [|? ? ? ? _ Hs1]; subst. inversion Hs1 as [|? ? ? ? _ Hs2]; subst.
  by inversion Hs2.
Qed.

Lemma date_time_re_year (text day month year hour minute : Py.str) :
  Re.search date_time_re text = Some [day; month; year; hour; minute] ->
  Re.fits (Re.group Re.Digit 2 2) year.
Proof.
  intros Hs. apply search_sound in Hs. cbn in Hs.
  inversion Hs as [|? ? ? ? _ Hs1]; subst. inversion Hs1 as [|? ? ? ? _ Hs2]; subst.
  by inversion Hs2.
Qed.

Lemma combined_datetime_century (text : Py.str) (dt : DateTime.datetime) :
  combined_datetime text = Some dt -> 2000 <= DateTime.year dt <= 2099.
Proof.
  unfold combined_datetime.
  destruct (Re.search date_time_re text) as [groups|] eqn:Hs; [| done].
  destruct groups as [|day [|month [|year [|hour [|minute [|]]]]]]; try done.
  apply datetime_of_strings_century. by eapply date_time_re_year.
Qed.

Lemma time_of_strings_date (y m d : Z) (hour minute : Py.str) (dt : DateTime.datetime) :
  time_of_strings y m d hour minute = Some dt ->
  DateTime.year dt = y /\ DateTime.month dt = m /\ DateTime.day dt = d.
Proof.
  unfold time_of_strings. destruct (Py.int hour); [| done]. destruct (Py.int minute); [| done].
  intros Hm. by apply make_fields in Hm as (-> & -> & -> & _).
Qed.

(** X14. A date recovered from a listing row lies in the years 2000 to
    2099, unless the row shows a time of day and no date: then the clock
    has been read once and the result carries the year, month and day of
    that reading. *)
Theorem recovered_date_is_this_century_or_today (E : env) (w w' : world) (text : Py.str)
    (dt : DateTime.datetime) :
  extract_actual_datetime_from_row E text w = (Ok (Some dt), w') ->
  2000 <= DateTime.year dt <= 2099 \/
  (w' = tick w /\
   Re.search date_re text = None /\
   DateTime.year dt = DateTime.year (now_at E (ticks w)) /\
   DateTime.month dt = DateTime.month (now_at E (ticks w)) /\
   DateTime.day dt = DateTime.day (now_at E (ticks w))).
Proof.
  unfold extract_actual_datetime_from_row.
  destruct (combined_datetime text) as [d0|] eqn:Hc.
  { intros [= <- <-]. left. by apply (combined_datetime_century text). }
  destruct (Re.search date_re text) as [dg|] eqn:Hd.
  - destruct dg as [|day [|month [|year [|]]]];
      try (destruct (Re.search time_re text) as [[|? [|? [|]]]|]; done).
    pose proof (date_re_year _ _ _ _ Hd) as Hfit.
    destruct (Re.search time_re text) as [[|hour [|minute [|]]]|]; try done.
    + intros [= Hdt <-]. left. by apply datetime_of_strings_century in Hdt.
    + unfold bind, datetime_now, ret. intros [= Hdt <-]. left.
      by apply century_year in Hdt as [? _].
  - destruct (Re.search time_re text) as [[|hour [|minute [|]]]|]; try done.
    unfold bind, datetime_now, ret. intros [= Hdt <-]. right.
    apply time_of_strings_date in Hdt. done.
Qed.

Lemma recovered_date_is_this_century_or_today_witness :
  2000 <= DateTime.year (DateTime.mk 2025 8 23 9 39 0 0) <= 2099 \/
  (tick (Sample.fresh Sample.empty_db) = tick (Sample.fresh Sample.empty_db) /\
   Re.search date_re (Py.lit "at 09:39") = None /\
   DateTime.year (DateTime.mk 2025 8 23 9 39 0 0)
     = DateTime.year (now_at Sample.quiet (ticks (Sample.fresh Sample.empty_db))) /\
   DateTime.month (DateTime.mk 2025 8 23 9 39 0 0)
     = DateTime.month (now_at Sample.quiet (ticks (Sample.fresh Sample.empty_db))) /\
   DateTime.day (DateTime.mk 2025 8 23 9 39 0 0)
     = DateTime.day (now_at Sample.quiet (ticks (Sample.fresh Sample.empty_db)))).
Proof.
  refine (recovered_date_is_this_century_or_today Sample.quiet
            (Sample.fresh Sample.empty_db) (tick (Sample.fresh Sample.empty_db))
            (Py.lit "at 09:39") (DateTime.mk 2025 8 23 9 39 0 0) _).
  vm_compute. reflexivity.
Defined.

Lemma written_stamp_recovered_witness :
  extract_actual_datetime_from_row Sample.quiet
    ([] ++ Py.lit "22" ++ Py.lit "." ++ Py.lit "08" ++ Py.lit "." ++ Py.lit "25"
        ++ Py.lit " " ++ Py.lit "09" ++ Py.lit ":" ++ Py.lit "39" ++ Py.lit " headline")
    (Sample.fresh Sample.empty_db)
  = (Ok (Some (DateTime.mk 2025 8 22 9 39 0 0)), Sample.fresh Sample.empty_db).
Proof.
  refine (written_stamp_recovered Sample.quiet (Sample.fresh Sample.empty_db)
            [] (Py.lit "22") (Py.lit "08") (Py.lit "25") (Py.lit " ") (Py.lit "09")
            (Py.lit "39") (Py.lit " headline") (DateTime.mk 2025 8 22 9 39 0 0)
            _ _ _ _ _ _ _ _).
  - constructor.
  - apply fits_decide. vm_compute. reflexivity.
  - apply fits_decide. vm_compute. reflexivity.
  - apply fits_decide. vm_compute. reflexivity.
  - apply fits_decide. vm_compute. reflexivity.
  - apply fits_decide. vm_compute. reflexivity.
  - apply fits_decide. vm_compute. reflexivity.
  - vm_compute. reflexivity.
Defined.

(** *** The listing *)

Lemma checked_candidate_mono (E : env) (first last last' : nat) (c : candidate) :
  (last <= last')%nat -> checked_candidate E first last c -> checked_candidate E first last' c.
Proof.
  intros Hle (Ht & Hu & Hr & (k' & Hk' & Hs) & d & k & Hd & Hc & Hk & Hfresh).
  do 3 (split; [done |]). split.
  - exists k'. split; [lia | done].
  - exists d, k. do 2 (split; [done |]). split; [lia | done].
Qed.

Lemma looks_like_news_title (title href : Py.str) :
  looks_like_news title href = true -> 15 < Py.len title.
Proof.
  unfold looks_like_news. rewrite !andb_true_iff, Z.gtb_ltb, Z.ltb_lt. tauto.
Qed.

Lemma absolute_url (href : Py.str) :
  Py.startswith (Py.lit "http")
    (if Py.startswith (Py.lit "http") href then href else base_url ++ href) = true.
Proof. destruct (Py.startswith (Py.lit "http") href) eqn:H; [exact H | reflexivity]. Qed.

Lemma visit_link_effect (E : env) (row : listing_row) (items : list candidate)
    (link : Py.str * Py.str) (w : world) :
  exists items' w',
    visit_link E row items link w = (Ok items', w') /\
    (ticks w <= ticks w')%nat /\
    db w' = db w /\ sql_log w' = sql_log w /\ http_log w' = http_log w /\
    model_log w' = model_log w /\
    (items' = items \/
     exists c, items' = items ++ [c] /\ checked_candidate E (ticks w) (ticks w') c).
Proof.
  unfold visit_link. destruct link as [href title].
  destruct (looks_like_news title href) eqn:Hnews.
  2: { exists items, w. repeat split; auto. }
  unfold bind at 1.
  destruct (extract_actual_datetime_from_row_outcome E (lr_text_stripped row) w)
    as (found & w1 & -> & Hw1 & Hfound).
  assert (Hsame : db w1 = db w /\ sql_log w1 = sql_log w /\ http_log w1 = http_log w /\
                  model_log w1 = model_log w /\ (ticks w <= ticks w1)%nat).
  { destruct Hw1 as [-> | ->]; cbn [tick db sql_log http_log model_log ticks];
      repeat split; lia. }
  destruct Hsame as (Hdb & Hsql & Hhttp & Hmodel & Hticks).
  destruct found as [dt|].
  2: { exists items, w1. repeat split; auto. }
  unfold bind, is_within_24_hours, bind, datetime_now, ret.
  destruct (DateTime.total_seconds_le _ _) eqn:Hfresh.
  2: { eexists items, _. split; [reflexivity |].
       cbn [tick db sql_log http_log model_log ticks]. repeat split; auto. }
  eexists _, _. split; [reflexivity |].
  cbn [tick db sql_log http_log model_log ticks]. repeat split; auto.
  right. eexists. split; [reflexivity |].
  unfold checked_candidate.
  cbn [c_title c_url c_row_text c_scraped_at c_actual_datetime].
  split; [by eapply looks_like_news_title |]. split; [apply absolute_url |].
  split; [unfold Py.len; rewrite length_take; lia |]. split.
  - exists (S (ticks w1)). split; [lia | done].
  - exists dt, (ticks w1). split; [done |]. split; [by apply Hfound |].
    split; [lia |]. unfold DateTime.total_seconds_le in Hfresh. lia.
Qed.

Lemma get_live_forum_page_effect (E : env) (w : world) :
  exists items w',
    get_live_forum_page E w = (Ok items, w') /\
    Forall (checked_candidate E (ticks w) (ticks w')) items /\
    http_log w' = http_log w ++ [forum_url] /\
    db w' = db w /\ sql_log w' = sql_log w /\ model_log w' = model_log w.
Proof.
  unfold get_live_forum_page, try_except, bind, get_listing.
  destruct (http_listing E (length (http_log w))) as [rows|].
  2: { eexists _, _. split; [reflexivity |]. split; [constructor | done]. }
  set (w0 := log_http forum_url w).
  set (I := fun (items : list candidate) (w' : world) =>
              (ticks w <= ticks w')%nat /\
              Forall (checked_candidate E (ticks w) (ticks w')) items /\
              db w' = db w /\ sql_log w' = sql_log w /\ http_log w' = http_log w0 /\
              model_log w' = model_log w).
  destruct (for_each_invariant
              (fun items row => for_each (visit_link E row) (lr_links row) items)
              I rows [] w0) as (items & w' & -> & HI).
  - intros acc row w1 _ Hacc.
    apply (for_each_invariant (visit_link E row) I); [| exact Hacc].
    intros acc0 link w2 _ (Ht & Hall & Hdb & Hsql & Hhttp & Hmodel).
    destruct (visit_link_effect E row acc0 link w2)
      as (acc' & w3 & Hrun & Ht3 & Hdb3 & Hsql3 & Hhttp3 & Hmodel3 & Hacc').
    exists acc', w3. split; [exact Hrun |].
    split; [lia |]. split; [| repeat split; congruence].
    assert (Hold : Forall (checked_candidate E (ticks w) (ticks w3)) acc0).
    { eapply Forall_impl; [exact Hall |]. intros c. by apply checked_candidate_mono. }
    destruct Hacc' as [-> | (c & -> & Hc)]; [exact Hold |].
    apply Forall_app. split; [exact Hold |]. apply Forall_singleton.
    destruct Hc as (Ht' & Hu & Hr & (k' & Hk' & Hs) & d & k & Hd & Hcd & Hk & Hfresh).
    do 3 (split; [done |]). split.
    + exists k'. split; [lia | done].
    + exists d, k. do 2 (split; [done |]). split; [lia | done].
  - subst I w0. cbn [log_http ticks db sql_log http_log model_log]. repeat split; auto.
  - destruct HI as (_ & Hall & Hdb & Hsql & Hhttp & Hmodel).
    exists items, w'. split; [reflexivity |]. repeat split; auto.
Qed.

(** X15. Fetching the listing never raises, requests the listing page
    and nothing else, and leaves the database alone.  Every candidate it
    returns has a title of more than 15 characters, an absolute url, at
    most 200 characters of row text, the time of a clock reading of the
    call as its scraping time, and a recovered date that was at most 24
    hours old at a clock reading of the call. *)
Theorem forum_page_candidates (E : env) (w : world) :
  exists items w',
    get_live_forum_page E w = (Ok items, w') /\
    Forall (checked_candidate E (ticks w) (ticks w')) items /\
    http_log w' = http_log w ++ [forum_url] /\
    db w' = db w /\ sql_log w' = sql_log w.
Proof.
  destruct (get_live_forum_page_effect E w) as (items & w' & H & Hall & Hhttp & Hdb & Hsql & _).
  by exists items, w'.
Qed.

(** X16. When the listing page cannot be fetched, the listing is empty
    and the whole cycle ends with an empty batch: one request has been
    logged, no article page is fetched and the database is not
    touched. *)
Theorem listing_failure_ends_cycle (E : env) (w : world) :
  http_listing E (length (http_log w)) = None ->
  get_live_forum_page E w = (Ok [], log_http forum_url w) /\
  scrape_live_news E w = (Ok [], log_http forum_url w).
Proof.
  intros Hdown.
  assert (Hpage : get_live_forum_page E w = (Ok [], log_http forum_url w)).
  { unfold get_live_forum_page, try_except, bind, get_listing. by rewrite Hdown. }
  split; [exact Hpage |]. unfold scrape_live_news, bind. by rewrite Hpage.
Qed.

Lemma listing_failure_ends_cycle_witness :
  get_live_forum_page Sample.quiet (Sample.fresh Sample.one_row_db)
    = (Ok [], log_http forum_url (Sample.fresh Sample.one_row_db)) /\
  scrape_live_news Sample.quiet (Sample.fresh Sample.one_row_db)
    = (Ok [], log_http forum_url (Sample.fresh Sample.one_row_db)).
Proof.
  refine (listing_failure_ends_cycle Sample.quiet (Sample.fresh Sample.one_row_db) _).
  reflexivity.
Defined.

(** *** The loop of [scrape_live_news] *)

Lemma clean_article_content_length (E : env) (content : Py.str) :
  1 <= Py.len (clean_article_content E content) <= 1003.
Proof.
  assert (H : clean_article_content E content <> [] /\
              Py.len (clean_article_content E content) <= 1000 + Py.len (Py.lit "...")).
  { unfold clean_article_content. destruct (negb (Py.truthy content)).
    - split; [by vm_compute | by vm_compute].
    - apply truncate_or_placeholder_bounds. }
  destruct H as [Hne Hle]. rewrite lit_dots in Hle. unfold Py.len in *.
  destruct (clean_article_content E content); [done |]. cbn [length] in *. lia.
Qed.

Lemma settle_datetime_both (article_datetime row_datetime : option DateTime.datetime) :
  (forall d, article_datetime = Some d -> DateTime.constructed d) ->
  (exists d, row_datetime = Some d /\ DateTime.constructed d) ->
  exists d, DateTime.constructed d /\
    settle_datetime article_datetime row_datetime
      = (DateTime.strftime_ymd_hms d, DateTime.isoformat d) /\
    (article_datetime = Some d \/ article_datetime = None /\ row_datetime = Some d).
Proof.
  intros Ha (d & -> & Hd). unfold settle_datetime.
  destruct article_datetime as [d'|]; [exists d' | exists d]; auto.
Qed.

(** One round of the loop of [scrape_live_news] after the pre-check. *)
Lemma fetch_and_store_effect (E : env) (first last : nat) (events : list article)
    (item : candidate) (w : world) :
  checked_candidate E first last item ->
  exists events' w',
    fetch_and_store E events item w = (Ok events', w') /\
    http_log w' = http_log w ++ [c_url item] /\
    ((events' = events /\ db w' = db w) \/
     exists a, events' = events ++ [a] /\ complete E a /\
       a_title a = c_title item /\ a_url a = c_url item /\
       (db w' = db w \/
        ~ Exists (fun x => url x = a_url a \/
                           hash_id x = generate_article_hash E (a_title a) (a_url a))
            (news_items (db w)) /\
        exists stamp,
          db w' = mk_database
                    (news_items (db w)
                       ++ [stored_row (last_id (db w) + 1) stamp
                             (row_of_article a
                                (generate_article_hash E (a_title a) (a_url a)))])
                    (last_id (db w) + 1))).
Proof.
  intros (Htitle & Hurl & _ & _ & d0 & k & Hd0 & Hcd0 & _).
  unfold fetch_and_store, bind at 1.
  destruct (get_live_article_content_outcome E (c_url item) w)
    as (content & found & w1 & -> & Hhttp & Hdb1 & Hfound).
  destruct content as [content|]; [destruct (Py.truthy content) eqn:Htruthy |].
  2, 3: eexists _, w1; split; [reflexivity |]; split; [exact Hhttp |]; left; done.
  destruct (settle_datetime_both found (c_actual_datetime item) Hfound)
    as (d & Hd & -> & _); [by exists d0 |].
  unfold bind.
  match goal with |- context [save_article_to_db E ?a w1] =>
    destruct (save_article_to_db_effect E a w1) as (saved & w2 & -> & Hhttp2 & Hsaved);
    set (stored := a) in *
  end.
  eexists _, w2. split; [reflexivity |]. split; [congruence |].
  right. exists stored. split; [reflexivity |]. split.
  - unfold complete. subst stored.
    cbn [a_content a_clean_content a_content_length a_title a_url a_actual_datetime
         a_date_time].
    split; [by destruct content |]. split; [done |]. split; [done |].
    split; [apply clean_article_content_length |]. split; [done |]. split; [done |].
    by exists d.
  - split; [done |]. split; [done |].
    destruct saved; [right | left; congruence].
    rewrite Hdb1 in Hsaved. exact Hsaved.
Qed.

Lemma check_article_exists_in_db_effect (E : env) (title url : Py.str) (w : world) :
  exists existing w',
    check_article_exists_in_db E title url w = (Ok existing, w') /\
    http_log w' = http_log w /\ db w' = db w.
Proof.
  unfold check_article_exists_in_db, try_except, bind, connect, select_count, bind, ret.
  unfold db_operation at 1. destruct (db_fault E (length (sql_log w))).
  { eexists _, _. split; [reflexivity | done]. }
  unfold db_operation at 1. destruct (db_fault E _).
  { eexists _, _. split; [reflexivity | done]. }
  destruct (count_where _ _ _ >? 0).
  { eexists _, _. split; [reflexivity | done]. }
  unfold db_operation at 1. destruct (db_fault E _); eexists _, _; (split; [reflexivity | done]).
Qed.

Lemma appended_refl (E : env) (w w' : world) (events : list article) :
  db w' = db w -> appended E w events w'.
Proof.
  intros Hdb. exists []. rewrite Hdb, app_nil_r. cbn [length map seq].
  repeat split; auto. lia.
Qed.

Lemma not_in_column (column : news_item -> Py.str) (v : Py.str) (rows : list news_item) :
  ~ Exists (fun x => column x = v) rows -> v ∉ map column rows.
Proof.
  intros Hnew Hin. apply Hnew. apply list_elem_of_fmap in Hin as (x & -> & Hx).
  apply Exists_exists. by exists x.
Qed.

Lemma appended_step (E : env) (w w0 w1 : world) (events : list article) (a : article)
    (stamp : Py.str) :
  let h := generate_article_hash E (a_title a) (a_url a) in
  appended E w events w0 ->
  ~ Exists (fun x => url x = a_url a \/ hash_id x = h) (news_items (db w0)) ->
  db w1 = mk_database
            (news_items (db w0) ++ [stored_row (last_id (db w0) + 1) stamp (row_of_article a h)])
            (last_id (db w0) + 1) ->
  appended E w (events ++ [a]) w1.
Proof.
  intros h (new & Hrows & Hlast & Hids & Hfrom & Hurl & Hhash) Hnew Hdb.
  set (row := stored_row (last_id (db w0) + 1) stamp (row_of_article a h)) in *.
  exists (new ++ [row]). rewrite Hdb. cbn [news_items last_id].
  rewrite Hrows, <- app_assoc, length_app. cbn [length].
  split; [done |]. split; [lia |]. split; [| split; [| split]].
  - rewrite Nat.add_1_r, seq_S, !map_app, Hids. cbn [map]. do 2 f_equal.
    subst row. cbn [stored_row id]. lia.
  - apply Forall_app. split.
    + eapply Forall_impl; [exact Hfrom |]. intros r (a0 & Hin & Hr).
      exists a0. split; [| done]. apply elem_of_app. by left.
    + apply Forall_singleton. exists a. split.
      * apply elem_of_app. right. by apply list_elem_of_singleton.
      * by exists (last_id (db w0) + 1), stamp.
  - intros Hnd. specialize (Hurl Hnd). rewrite app_assoc, <- Hrows, map_app.
    apply NoDup_app. split; [exact Hurl |]. split; [| apply NoDup_singleton].
    intros u Hu Hrow. apply list_elem_of_singleton in Hrow. subst u.
    revert Hu. apply not_in_column. intros Hex. apply Hnew.
    eapply Exists_impl; [exact Hex |]. intros x Hx. left. exact Hx.
  - intros Hnd. specialize (Hhash Hnd). rewrite app_assoc, <- Hrows, map_app.
    apply NoDup_app. split; [exact Hhash |]. split; [| apply NoDup_singleton].
    intros u Hu Hrow. apply list_elem_of_singleton in Hrow. subst u.
    revert Hu. apply not_in_column. intros Hex. apply Hnew.
    eapply Exists_impl; [exact Hex |]. intros x Hx. right. exact Hx.
Qed.

Lemma appended_more (E : env) (w w0 w1 : world) (events : list article) (a : article) :
  appended E w events w0 -> db w1 = db w0 -> appended E w (events ++ [a]) w1.
Proof.
  intros (new & Hrows & Hlast & Hids & Hfrom & Hurl & Hhash) Hdb.
  exists new. rewrite Hdb. repeat split; auto.
  eapply Forall_impl; [exact Hfrom |]. intros r (a0 & Hin & Hr).
  exists a0. split; [| done]. apply elem_of_app. by left.
Qed.

Lemma process_candidate_effect (E : env) (first last : nat) (w : world)
    (events : list article) (item : candidate) (w0 : world) :
  checked_candidate E first last item ->
  Forall (complete E) events -> appended E w events w0 ->
  exists events' w',
    process_candidate E events item w0 = (Ok events', w') /\
    Forall (complete E) events' /\ appended E w events' w'.
Proof.
  intros Hitem Hall Happ. unfold process_candidate, bind.
  destruct (check_article_exists_in_db_effect E (c_title item) (c_url item) w0)
    as (existing & w1 & -> & _ & Hdb1).
  destruct existing.
  { exists events, w1. split; [reflexivity |]. split; [done |].
    destruct Happ as (new & Hrows & Hrest). exists new. by rewrite Hdb1. }
  assert (Happ1 : appended E w events w1).
  { destruct Happ as (new & Hrows & Hrest). exists new. by rewrite Hdb1. }
  destruct (fetch_and_store_effect E first last events item w1 Hitem)
    as (events' & w2 & -> & _ & Hcase).
  exists events', w2. split; [reflexivity |].
  destruct Hcase as [[-> Hdb2] | (a & -> & Ha & _ & _ & Hdb2)].
  - split; [done |]. destruct Happ1 as (new & Hrows & Hrest). exists new. by rewrite Hdb2.
  - split; [apply Forall_app; split; [done | by apply Forall_singleton] |].
    destruct Hdb2 as [Hdb2 | (Hnew & stamp & Hdb2)].
    + by apply (appended_more E w w1).
    + by apply (appended_step E w w1 w2 events a stamp).
Qed.

Lemma scrape_live_news_effect (E : env) (w : world) :
  exists batch w',
    scrape_live_news E w = (Ok batch, w') /\
    Forall (complete E) batch /\ appended E w batch w'.
Proof.
  unfold scrape_live_news, bind at 1.
  destruct (get_live_forum_page_effect E w) as (items & w1 & -> & Hitems & _ & Hdb1 & _).
  destruct items as [|item items].
  { exists [], w1. split; [reflexivity |]. split; [constructor | by apply appended_refl]. }
  unfold bind.
  destruct (for_each_invariant (process_candidate E)
              (fun events w' => Forall (complete E) events /\ appended E w events w')
              (item :: items) [] w1) as (events & w2 & -> & Hall & Happ).
  - intros acc x w0 Hx [Hacc Happ].
    apply (process_candidate_effect E (ticks w) (ticks w1)); [| done | done].
    by apply (proj1 (Forall_forall _ _) Hitems).
  - split; [constructor | by apply appended_refl].
  - eexists _, w2. split; [reflexivity |].
    pose proof (sort_newest_first_perm events) as Hperm. split.
    + by apply (Permutation_Forall (Permutation_sym Hperm)).
    + destruct Happ as (new & Hrows & Hlast & Hids & Hfrom & Hnd).
      exists new. do 3 (split; [done |]). split; [| done].
      eapply Forall_impl; [exact Hfrom |]. intros r (a & Hin & Hr).
      exists a. split; [by rewrite Hperm | done].
Qed.

(** X17. A scraping cycle never raises, and every item of its batch is
    complete: non-empty raw content, the cleaned content that
    [clean_article_content] gives for it, a [content_length] equal to
    the length of the cleaned content and between 1 and 1003, a title of
    more than 15 characters, an absolute url, and [actual_datetime] and
    [date_time] that render one and the same datetime. *)
Theorem batch_items_complete (E : env) (w : world) :
  exists batch w', scrape_live_news E w = (Ok batch, w') /\ Forall (complete E) batch.
Proof.
  destruct (scrape_live_news_effect E w) as (batch & w' & H & Hall & _).
  by exists batch, w'.
Qed.

Lemma row_stored_for_fields (E : env) (a : article) (r : news_item) :
  row_stored_for E a r ->
  isProcessed r = 0 /\ process_data r = [] /\
  title r = a_title a /\ url r = a_url a /\
  hash_id r = generate_article_hash E (a_title a) (a_url a) /\
  content r = a_content a /\ clean_content r = Some (a_clean_content a) /\
  content_length r = a_content_length a /\
  actual_datetime r = a_actual_datetime a /\ date_time r = a_date_time a /\
  scraped_at r = a_scraped_at a /\ row_text r = a_row_text a.
Proof. intros (i & stamp & ->). repeat split. Qed.

(** X18. A scraping cycle only appends to the table: the rows that
    were there are still there, unchanged and in the same order.  The
    appended rows have consecutive ids after the last one; each is
    unprocessed, with empty [process_data], and holds the title, url,
    fingerprint, contents and dates of an item of the returned batch. *)
Theorem scrape_appends_only (E : env) (w : world) :
  exists batch w' new,
    scrape_live_news E w = (Ok batch, w') /\
    news_items (db w') = news_items (db w) ++ new /\
    map id new = map (fun k => last_id (db w) + Z.of_nat k) (seq 1 (length new)) /\
    Forall (fun r =>
              isProcessed r = 0 /\ process_data r = [] /\
              exists a, a ∈ batch /\
                title r = a_title a /\ url r = a_url a /\
                hash_id r = generate_article_hash E (a_title a) (a_url a) /\
                content r = a_content a /\
                clean_content r = Some (a_clean_content a) /\
                content_length r = a_content_length a /\
                actual_datetime r = a_actual_datetime a /\ date_time r = a_date_time a)
      new.
Proof.
  destruct (scrape_live_news_effect E w)
    as (batch & w' & H & _ & new & Hrows & _ & Hids & Hfrom & _).
  exists batch, w', new. do 3 (split; [done |]).
  eapply Forall_impl; [exact Hfrom |]. intros r (a & Hin & Hr).
  apply row_stored_for_fields in Hr
    as (Hp & Hd & Ht & Hu & Hh & Hc & Hcc & Hl & Ha & Hdt & _).
  split; [done |]. split; [done |]. exists a. repeat split; done.
Qed.

(** X19. If no two rows share a url and no two rows share a
    fingerprint before a scraping cycle, the same holds after it,
    whatever the lookups and insertions that failed along the way. *)
Theorem scrape_keeps_urls_and_fingerprints_unique (E : env) (w : world) :
  NoDup (map url (news_items (db w))) ->
  NoDup (map hash_id (news_items (db w))) ->
  exists batch w',
    scrape_live_news E w = (Ok batch, w') /\
    NoDup (map url (news_items (db w'))) /\
    NoDup (map hash_id (news_items (db w'))).
Proof.
  intros Hurl Hhash.
  destruct (scrape_live_news_effect E w)
    as (batch & w' & H & _ & new & _ & _ & _ & _ & Hu & Hh).
  exists batch, w'. auto.
Qed.

Lemma scrape_keeps_urls_and_fingerprints_unique_witness :
  exists batch w',
    scrape_live_news Sample.busy (Sample.fresh Sample.one_row_db) = (Ok batch, w') /\
    NoDup (map url (news_items (db w'))) /\
    NoDup (map hash_id (news_items (db w'))).
Proof.
  refine (scrape_keeps_urls_and_fingerprints_unique Sample.busy
            (Sample.fresh Sample.one_row_db) _ _).
  - apply NoDup_singleton.
  - apply NoDup_singleton.
Defined.

(** X20. When the database answers the lookups and some stored row has
    the url or the title of a candidate, the candidate is skipped outright:
    no page is requested, the clock is not read, the table and the batch
    are left as they were. *)
Theorem known_item_costs_no_fetch (E : env) (w : world) (events : list article)
    (item : candidate) :
  (forall k, (k < 3)%nat -> db_fault E (length (sql_log w) + k) = false) ->
  (exists r, r ∈ news_items (db w) /\ (url r = c_url item \/ title r = c_title item)) ->
  exists w',
    process_candidate E events item w = (Ok events, w') /\
    http_log w' = http_log w /\ db w' = db w /\ ticks w' = ticks w.
Proof.
  intros Hok (r & Hin & Hr).
  assert (Hcheck : exists w',
            check_article_exists_in_db E (c_title item) (c_url item) w = (Ok true, w') /\
            http_log w' = http_log w /\ db w' = db w /\ ticks w' = ticks w).
  { assert (H0 : db_fault E (length (sql_log w)) = false).
    { rewrite <- (Nat.add_0_r (length _)). apply Hok. lia. }
    assert (H1 : db_fault E (S (length (sql_log w))) = false).
    { rewrite <- Nat.add_1_r. apply Hok. lia. }
    assert (H2 : db_fault E (S (S (length (sql_log w)))) = false).
    { replace (S (S (length (sql_log w)))) with (length (sql_log w) + 2)%nat by lia.
      apply Hok. lia. }
    unfold check_article_exists_in_db, try_except, bind, connect, select_count, bind, ret.
    rewrite (db_operation_ok E _ w H0).
    rewrite (db_operation_ok E _ (log_sql Connect w))
      by (by rewrite length_sql_log_log_sql).
    cbn [log_sql db].
    destruct (count_where url (c_url item) (news_items (db w)) >? 0) eqn:Hu.
    { eexists. split; [reflexivity | done]. }
    rewrite db_operation_ok by (by rewrite !length_sql_log_log_sql).
    cbn [log_sql db].
    assert (Ht : (count_where title (c_title item) (news_items (db w)) >? 0) = true).
    { destruct Hr as [Hr | Hr].
      - assert (Hu' : (count_where url (c_url item) (news_items (db w)) >? 0) = true)
          by (apply count_where_pos; by exists r).
        congruence.
      - apply count_where_pos. by exists r. }
    rewrite Ht. eexists. split; [reflexivity | done]. }
  destruct Hcheck as (w' & Hc & Hrest). exists w'.
  unfold process_candidate, bind. rewrite Hc. done.
Qed.

Lemma known_item_costs_no_fetch_witness :
  exists w',
    process_candidate Sample.busy [] Sample.lead (Sample.fresh Sample.one_row_db)
      = (Ok [], w') /\
    http_log w' = http_log (Sample.fresh Sample.one_row_db) /\
    db w' = db (Sample.fresh Sample.one_row_db) /\
    ticks w' = ticks (Sample.fresh Sample.one_row_db).
Proof.
  refine (known_item_costs_no_fetch Sample.busy (Sample.fresh Sample.one_row_db) []
            Sample.lead _ _).
  - intros k _. reflexivity.
  - exists Sample.stored. split; [left | left; vm_compute; reflexivity].
Defined.

(** X21. When the database accepts the four operations of a save, the
    article is stored exactly when no stored row has its url or its
    fingerprint: then one row is appended, with the next id, and else
    the table is left as it was. *)
Theorem save_succeeds_iff_new (E : env) (a : article) (w : world) :
  (forall k, (k < 4)%nat -> db_fault E (length (sql_log w) + k) = false) ->
  let h := generate_article_hash E (a_title a) (a_url a) in
  exists saved w',
    save_article_to_db E a w = (Ok saved, w') /\
    (saved = true <->
       ~ exists r, r ∈ news_items (db w) /\ (url r = a_url a \/ hash_id r = h)) /\
    if saved
    then exists stamp,
           db w' = mk_database
                     (news_items (db w)
                        ++ [stored_row (last_id (db w) + 1) stamp (row_of_article a h)])
                     (last_id (db w) + 1)
    else db w' = db w.
Proof.
  intros Hok h.
  assert (H0 : db_fault E (length (sql_log w)) = false).
  { rewrite <- (Nat.add_0_r (length _)). apply Hok. lia. }
  assert (H1 : db_fault E (S (length (sql_log w))) = false).
  { rewrite <- Nat.add_1_r. apply Hok. lia. }
  assert (H2 : db_fault E (S (S (length (sql_log w)))) = false).
  { replace (S (S (length (sql_log w)))) with (length (sql_log w) + 2)%nat by lia.
    apply Hok. lia. }
  assert (H3 : db_fault E (S (S (S (length (sql_log w))))) = false).
  { replace (S (S (S (length (sql_log w))))) with (length (sql_log w) + 3)%nat by lia.
    apply Hok. lia. }
  unfold save_article_to_db, try_except, bind at 1, connect.
  rewrite (db_operation_ok E Connect w H0). fold h. unfold bind at 1.
  rewrite is_article_exists_ok by (by rewrite !length_sql_log_log_sql).
  cbn [log_sql db].
  destruct (count_where hash_id h (news_items (db w)) >? 0) eqn:Hcount.
  { eexists false, _. split; [reflexivity |]. split; [| done].
    split; [done |]. intros Hnew. exfalso. apply Hnew.
    apply count_where_pos in Hcount as (r & Hin & Hr). exists r. auto. }
  unfold bind, insert_item, bind.
  rewrite db_operation_ok by (by rewrite !length_sql_log_log_sql).
  cbn [log_sql db].
  destruct (bool_decide _) eqn:Hex.
  - apply bool_decide_eq_true in Hex.
    eexists false, _. split; [reflexivity |]. split; [| done].
    split; [done |]. intros Hnew. exfalso. apply Hnew.
    apply Exists_exists in Hex as (r & Hin & Hr). exists r. done.
  - apply bool_decide_eq_false in Hex.
    eexists true, _. split; [reflexivity |]. split.
    + split; [| done]. intros _ (r & Hin & Hr). apply Hex, Exists_exists. by exists r.
    + eexists. reflexivity.
Qed.

Lemma save_succeeds_iff_new_witness :
  exists saved w',
    save_article_to_db Sample.quiet Sample.article_ab_c (Sample.fresh Sample.one_row_db)
      = (Ok saved, w') /\
    (saved = true <->
       ~ exists r, r ∈ news_items (db (Sample.fresh Sample.one_row_db)) /\
           (url r = a_url Sample.article_ab_c \/
            hash_id r = generate_article_hash Sample.quiet
                          (a_title Sample.article_ab_c) (a_url Sample.article_ab_c))) /\
    if saved
    then exists stamp,
           db w' = mk_database
                     (news_items (db (Sample.fresh Sample.one_row_db))
                        ++ [stored_row (last_id (db (Sample.fresh Sample.one_row_db)) + 1)
                              stamp
                              (row_of_article Sample.article_ab_c
                                 (generate_article_hash Sample.quiet
                                    (a_title Sample.article_ab_c)
                                    (a_url Sample.article_ab_c)))])
                     (last_id (db (Sample.fresh Sample.one_row_db)) + 1)
    else db w' = db (Sample.fresh Sample.one_row_db).
Proof.
  refine (save_succeeds_iff_new Sample.quiet Sample.article_ab_c
            (Sample.fresh Sample.one_row_db) _).
  intros k _. reflexivity.
Defined.

(** X22. When the page of a candidate cannot be fetched, or its
    extracted content is empty, the candidate is dropped: the batch and
    the table are left as they were and no database operation is
    attempted; the request has been logged. *)
Theorem unavailable_page_skips_candidate (E : env) (w : world) (events : list article)
    (item : candidate) :
  http_article E (length (http_log w)) (c_url item) = None \/
  (exists page, http_article E (length (http_log w)) (c_url item) = Some page /\
     extract_content page = []) ->
  exists w',
    fetch_and_store E events item w = (Ok events, w') /\
    http_log w' = http_log w ++ [c_url item] /\
    db w' = db w /\ sql_log w' = sql_log w.
Proof.
  intros Hpage. unfold fetch_and_store, bind at 1.
  unfold get_live_article_content, try_except, bind at 1, get_article.
  destruct Hpage as [-> | (page & -> & Hempty)].
  - eexists. split; [reflexivity | done].
  - unfold bind.
    destruct (extract_datetime_from_article_page_outcome E (ap_text page)
                (log_http (c_url item) w)) as (found & w' & -> & Hw' & _).
    rewrite Hempty. cbn [ret Py.truthy].
    exists w'. split; [reflexivity |]. by destruct Hw' as [-> | ->].
Qed.

Lemma unavailable_page_skips_candidate_witness :
  exists w',
    fetch_and_store Sample.quiet [] Sample.lead (Sample.fresh Sample.one_row_db)
      = (Ok [], w') /\
    http_log w' = http_log (Sample.fresh Sample.one_row_db) ++ [c_url Sample.lead] /\
    db w' = db (Sample.fresh Sample.one_row_db) /\
    sql_log w' = sql_log (Sample.fresh Sample.one_row_db).
Proof.
  refine (unavailable_page_skips_candidate Sample.quiet (Sample.fresh Sample.one_row_db)
            [] Sample.lead _).
  left. reflexivity.
Defined.

(** X23. When the page of a candidate is fetched and yields content, the
    batch gets one more item, with that content and the title, url,
    scraping time and row text of the candidate.  Its date is the one
    found on the article page when there is one, and the one recovered
    from the listing row otherwise, in both renderings. *)
Theorem article_page_date_takes_precedence (E : env) (w w1 : world)
    (events : list article) (item : candidate) (page : article_page)
    (found : option DateTime.datetime) (row_date : DateTime.datetime) :
  http_article E (length (http_log w)) (c_url item) = Some page ->
  extract_content page <> [] ->
  extract_datetime_from_article_page E (ap_text page) (log_http (c_url item) w)
    = (Ok found, w1) ->
  c_actual_datetime item = Some row_date ->
  exists a w',
    fetch_and_store E events item w = (Ok (events ++ [a]), w') /\
    a_content a = extract_content page /\
    a_actual_datetime a = DateTime.isoformat (default row_date found) /\
    a_date_time a = DateTime.strftime_ymd_hms (default row_date found) /\
    a_title a = c_title item /\ a_url a = c_url item /\
    a_scraped_at a = c_scraped_at item /\ a_row_text a = c_row_text item.
Proof.
  intros Hpage Hcontent Hfound Hrow.
  unfold fetch_and_store, bind at 1.
  unfold get_live_article_content, try_except, bind, get_article.
  rewrite Hpage, Hfound. cbn [ret].
  destruct (extract_content page) as [|c content] eqn:Hc; [done |]. cbn [Py.truthy].
  rewrite Hrow.
  assert (Hs : settle_datetime found (Some row_date)
               = (DateTime.strftime_ymd_hms (default row_date found),
                  DateTime.isoformat (default row_date found))).
  { unfold settle_datetime. by destruct found. }
  rewrite Hs.
  match goal with |- context [save_article_to_db E ?a w1] =>
    destruct (save_article_to_db_cases E a w1) as (saved & w2 & -> & _)
  end.
  eexists _, w2. split; [reflexivity |]. done.
Qed.

Lemma article_page_date_takes_precedence_witness :
  exists a w',
    fetch_and_store Sample.busy [] Sample.lead (Sample.fresh Sample.empty_db)
      = (Ok ([] ++ [a]), w') /\
    a_actual_datetime a = DateTime.isoformat (DateTime.mk 2025 8 23 8 30 0 0).
Proof.
  destruct (article_page_date_takes_precedence Sample.busy (Sample.fresh Sample.empty_db)
              (log_http (c_url Sample.lead) (Sample.fresh Sample.empty_db))
              [] Sample.lead Sample.page None (DateTime.mk 2025 8 23 8 30 0 0))
    as (a & w' & Hrun & _ & Hstamp & _).
  - reflexivity.
  - vm_compute. discriminate.
  - vm_compute. reflexivity.
  - reflexivity.
  - exists a, w'. split; [exact Hrun | exact Hstamp].
Defined.

(** *** Content extraction and the final sort *)

Lemma fallback_among_response (line : Py.str) :
  Py.any_in response_indicators line = false -> Py.any_in fallback_indicators line = false.
Proof.
  unfold Py.any_in.
  change response_indicators with (fallback_indicators ++ drop 4 response_indicators).
  rewrite existsb_app, orb_false_iff. tauto.
Qed.

Lemma main_article_lines_kept (lines : list Py.str) :
  Forall (fun line => content_line line /\ Py.any_in response_indicators line = false)
    (main_article_lines lines).
Proof.
  induction lines as [|raw rest IH]; cbn [main_article_lines]; [constructor |].
  destruct (negb (Py.truthy (Py.strip raw))); [exact IH |].
  destruct (Py.any_in response_indicators (Py.strip raw)) eqn:Hstop; [constructor |].
  destruct ((Py.len (Py.strip raw) >? 20) && negb (is_forum_navigation (Py.strip raw)))
    eqn:Hkeep; [| exact IH].
  apply andb_true_iff in Hkeep as [Hlen Hnav].
  rewrite Z.gtb_ltb, Z.ltb_lt in Hlen. apply negb_true_iff in Hnav.
  constructor; [| exact IH]. split; [| exact Hstop].
  split; [exact Hlen |]. split; [exact Hnav |].
  split; [by apply fallback_among_response | by exists raw].
Qed.

Lemma main_content_lines_kept (started : bool) (lines : list Py.str) :
  Forall content_line (main_content_lines started lines).
Proof.
  revert started. induction lines as [|raw rest IH]; intros started;
    cbn [main_content_lines]; [constructor |].
  destruct (negb (Py.truthy (Py.strip raw))); [apply IH |].
  destruct (is_forum_navigation (Py.strip raw)) eqn:Hnav; [apply IH |].
  destruct (started || (Py.len (Py.strip raw) >? 30)); [| apply IH].
  destruct (Py.any_in fallback_indicators (Py.strip raw)) eqn:Hstop; [constructor |].
  destruct (Py.len (Py.strip raw) >? 20) eqn:Hlen; cbn [andb negb]; [| apply IH].
  rewrite Z.gtb_ltb, Z.ltb_lt in Hlen.
  constructor; [| apply IH]. repeat split; try done. by exists raw.
Qed.

Lemma select_content_lines (page : article_page) (selectors : list Py.str)
    (content : Py.str) :
  (exists lines, content = Py.join [Py.newline] lines /\ Forall content_line lines) ->
  exists lines,
    select_content page selectors content = Py.join [Py.newline] lines /\
    Forall content_line lines.
Proof.
  revert content. induction selectors as [|selector rest IH]; intros content Hc;
    cbn [select_content]; [exact Hc |].
  destruct (ap_select page selector) as [temp|]; [| by apply IH].
  set (lines := main_article_lines (Py.split Py.newline temp)).
  assert (Hlines : Forall content_line lines).
  { eapply Forall_impl; [apply main_article_lines_kept |]. by intros l [Hl _]. }
  destruct (Py.truthy _ && _); [by exists lines |].
  apply IH. by exists lines.
Qed.

(** X24. The text extracted from an article page is a sequence of
    lines joined by newlines, in which every line has more than 20
    characters and contains neither a navigation keyword nor one of the
    four response markers at which both extraction loops stop. *)
Theorem extracted_content_lines (page : article_page) :
  exists lines,
    extract_content page = Py.join [Py.newline] lines /\
    Forall (fun line =>
              20 < Py.len line /\
              (forall k, k ∈ navigation_keywords -> ~ Py.occurs_in k line) /\
              (forall k, k ∈ fallback_indicators -> ~ Py.occurs_in k line))
      lines.
Proof.
  assert (H : exists lines,
            extract_content page = Py.join [Py.newline] lines /\
            Forall content_line lines).
  { unfold extract_content.
    destruct (select_content_lines page content_selectors []) as (lines & Hs & Hl).
    { exists []. split; [done | constructor]. }
    destruct (negb _ || _).
    - eexists. split; [reflexivity | apply main_content_lines_kept].
    - by exists lines. }
  destruct H as (lines & Hs & Hl). exists lines. split; [exact Hs |].
  eapply Forall_impl; [exact Hl |]. intros line (Hlen & Hnav & Hstop & _).
  split; [exact Hlen |]. split.
  - by apply any_in_false.
  - by apply any_in_false.
Qed.

Lemma any_in_nonempty (ks : list Py.str) (line : Py.str) :
  Forall (fun k => k <> []) ks -> Py.any_in ks line = true -> line <> [].
Proof.
  intros Hks Hany ->. apply any_in_spec in Hany as (k & Hk & before & after & Heq).
  apply (proj1 (Forall_forall _ _) Hks) in Hk.
  destruct before; [destruct k |]; done.
Qed.

(** X25. In a matched container, nothing from the first line with a
    response marker on is kept: the lines after it do not change the
    result, and neither does the line itself. *)
Theorem responses_are_cut_off (before after : list Py.str) (line : Py.str) :
  Py.any_in response_indicators (Py.strip line) = true ->
  main_article_lines (before ++ line :: after) = main_article_lines before.
Proof.
  intros Hstop.
  assert (Hne : Py.truthy (Py.strip line) = true).
  { assert (H : Py.strip line <> []).
    { apply (any_in_nonempty response_indicators); [| done].
      apply Forall_forall. intros k Hk Hempty. subst k.
      by vm_compute in Hk; repeat (apply elem_of_cons in Hk as [Hk | Hk]; [done |]);
        apply elem_of_nil in Hk. }
    by destruct (Py.strip line). }
  induction before as [|raw rest IH]; cbn [app main_article_lines].
  - by rewrite Hne, Hstop.
  - rewrite IH. reflexivity.
Qed.

Lemma responses_are_cut_off_witness :
  main_article_lines
    ([Py.lit "The council voted on the new budget late on Friday night."]
       ++ Py.lit "  תגובה עם ציטוט  "
       :: [Py.lit "A reply that is long enough to be kept as a line."])
  = main_article_lines [Py.lit "The council voted on the new budget late on Friday night."].
Proof.
  refine (responses_are_cut_off _ _ _ _). vm_compute. reflexivity.
Defined.

Lemma filter_insert_newest_first (k : Py.str) (x : article) (l : list article) :
  filter (fun a => a_actual_datetime a = k) (insert_newest_first x l)
  = filter (fun a => a_actual_datetime a = k) (x :: l).
Proof.
  induction l as [|y t IH]; cbn [insert_newest_first]; [done |].
  destruct (Py.ltb (a_actual_datetime x) (a_actual_datetime y)) eqn:Hlt; [| done].
  rewrite filter_cons, IH, !filter_cons.
  assert (Hne : a_actual_datetime x <> a_actual_datetime y).
  { intros Heq. rewrite Heq in Hlt. unfold Py.ltb in Hlt. by rewrite compare_refl in Hlt. }
  repeat case_decide; congruence.
Qed.

(** X26. The final sort neither drops nor duplicates an item, and it
    is stable: the items with one and the same [actual_datetime] come
    out in the order they went in. *)
Theorem sort_newest_first_stable (l : list article) :
  Permutation (sort_newest_first l) l /\
  forall k,
    filter (fun a => a_actual_datetime a = k) (sort_newest_first l)
    = filter (fun a => a_actual_datetime a = k) l.
Proof.
  split; [apply sort_newest_first_perm |].
  intros k. induction l as [|x l IH]; [done |].
  cbn [sort_newest_first fold_right]. fold (sort_newest_first l).
  by rewrite filter_insert_newest_first, !filter_cons, IH.
Qed.

(** *** The export *)

Lemma placeholders_from_app (quoted : bool) (s t : Py.str) :
  placeholders_from quoted (s ++ t)
  = (placeholders_from quoted s + placeholders_from (quoted_after quoted s) t)%nat.
Proof.
  revert quoted. induction s as [|c s IH]; intros quoted; [done |].
  cbn [app placeholders_from quoted_after fold_left].
  destruct (c =? 39)%N; [apply IH |].
  destruct ((c =? 63)%N && negb quoted); rewrite IH; done.
Qed.

Lemma decimal_digits_unquoted (u : Decimal.uint) :
  placeholders_from true (Py.decimal_digits u) = O /\
  quoted_after true (Py.decimal_digits u) = true.
Proof. induction u; cbn; done. Qed.

Lemma str_of_int_unquoted (n : Z) :
  placeholders_from true (Py.str_of_int n) = O /\
  quoted_after true (Py.str_of_int n) = true.
Proof.
  unfold Py.str_of_int. destruct (Z.to_int n) as [u|u].
  - apply decimal_digits_unquoted.
  - apply (decimal_digits_unquoted u).
Qed.

Lemma placeholders_export_statement (hours limit : Z) :
  placeholders (export_statement hours limit) = 1%nat.
Proof.
  unfold placeholders, export_statement.
  rewrite !placeholders_from_app.
  replace (quoted_after false export_head) with true by (vm_compute; reflexivity).
  replace (placeholders_from false export_head) with O by (vm_compute; reflexivity).
  destruct (str_of_int_unquoted hours) as [-> ->].
  vm_compute. reflexivity.
Qed.

(** X27. The export never returns an article: its statement has one
    placeholder, [LIMIT ?], and is executed without parameters, so that
    sqlite3 raises before running it; the handler turns that, like a
    failed connection, into an empty list.  This holds for every number
    of hours and every limit, and whatever the engine would answer. *)
Theorem export_returns_nothing (E : env)
    (run_statement : Py.str -> list pyval -> M (list news_item))
    (hours limit : Z) (w : world) :
  exists w',
    export_recent_articles_from_db E run_statement hours limit w = (Ok [], w') /\
    db w' = db w /\ http_log w' = http_log w /\ model_log w' = model_log w.
Proof.
  unfold export_recent_articles_from_db, try_except, bind, connect, execute_fetchall.
  rewrite placeholders_export_statement. cbn [length Nat.eqb].
  unfold db_operation. destruct (db_fault E _); eexists; (split; [reflexivity | done]).
Qed.

Example export_statement_of_main :
  placeholders (export_statement 24 100) = 1%nat /\
  Py.contains (Py.lit "datetime('now', '-24 hours')") (export_statement 24 100) = true.
Proof. split; vm_compute; reflexivity. Qed.

End ScraperFacts.
